(** * libpod: the Runtime's pod API (libpod/runtime_pod.go)

    A shallow embedding of [NewPod], [RemovePod], [GetPod], [HasPod],
    [LookupPod] and [Pods], and the properties of the specification that
    are about them.

    The Go code threads three kinds of state: the Runtime (validity flag,
    configuration), the State Store and the OS backends it calls, and the
    in-memory [*Pod] / [*Container] objects it mutates through pointers.
    Here they are explicit: a [World] record, passed through a state and
    error monad, and a [Machine] that adds the objects [RemovePod] holds. *)

From Stdlib Require Import String Ascii.
From stdpp Require Import gmap strings list fin_maps.

Local Open Scope string_scope.

(** ** Go library functions used by the code *)

Module GoPath.

Definition slash : ascii := "/"%char.

(** [strings.HasSuffix]. *)
Definition HasSuffix (s suffix : string) : bool :=
  (String.length suffix <=? String.length s)%nat
  && String.eqb
       (substring (String.length s - String.length suffix)
                  (String.length suffix) s)
       suffix.

Fixpoint dropSlashes (l : list ascii) : list ascii :=
  match l with
  | c :: l' => if Ascii.eqb c slash then dropSlashes l' else l
  | [] => []
  end.

Fixpoint untilSlash (l : list ascii) : list ascii :=
  match l with
  | c :: l' => if Ascii.eqb c slash then [] else c :: untilSlash l'
  | [] => []
  end.

(** [path.Base]: the last element of the path, after the trailing
    slashes are removed; "." for the empty path, "/" for a path of
    slashes only. The list is read from its end. *)
Definition Base (path : string) : string :=
  if String.eqb path "" then "."
  else
    match dropSlashes (rev (list_ascii_of_string path)) with
    | [] => "/"
    | r => string_of_list_ascii (rev (untilSlash r))
    end.

Fixpoint splitSlash (l : list ascii) : list (list ascii) :=
  match l with
  | [] => [[]]
  | c :: l' =>
      if Ascii.eqb c slash then [] :: splitSlash l'
      else match splitSlash l' with
           | x :: xs => (c :: x) :: xs
           | [] => [[c]]
           end
  end.

Definition dot : list ascii := ["."%char].
Definition dotdot : list ascii := ["."%char; "."%char].

(** One path element of [Clean]; [stack] holds the elements kept so far,
    the last one first. *)
Definition cleanElem (rooted : bool) (stack : list (list ascii))
    (el : list ascii) : list (list ascii) :=
  if bool_decide (el = []) then stack
  else if bool_decide (el = dot) then stack
  else if bool_decide (el = dotdot) then
    match stack with
    | top :: below =>
        if bool_decide (top = dotdot) then el :: stack else below
    | [] => if rooted then [] else [el]
    end
  else el :: stack.

Fixpoint joinSlash (els : list (list ascii)) : list ascii :=
  match els with
  | [] => []
  | [e] => e
  | e :: rest => e ++ slash :: joinSlash rest
  end.

(** [path.Clean] / [filepath.Clean] on a slash-separated path. *)
Definition Clean (path : string) : string :=
  match list_ascii_of_string path with
  | [] => "."
  | (c :: _) as l =>
      let rooted := Ascii.eqb c slash in
      let kept := rev (fold_left (cleanElem rooted) (splitSlash l) []) in
      if rooted then string_of_list_ascii (slash :: joinSlash kept)
      else match kept with
           | [] => "."
           | _ => string_of_list_ascii (joinSlash kept)
           end
  end.

Fixpoint dropEmpty (elem : list string) : list string :=
  match elem with
  | e :: rest => if String.eqb e "" then dropEmpty rest else elem
  | [] => []
  end.

(** [filepath.Join]: the elements from the first non-empty one on,
    joined by the separator and cleaned; "" when all are empty. *)
Definition Join (elem : list string) : string :=
  match dropEmpty elem with
  | [] => ""
  | rest =>
      Clean (string_of_list_ascii
               (joinSlash (map list_ascii_of_string rest)))
  end.

End GoPath.

(** ** Errors *)

(** The error values the code names, declared in another file of the
    package, [cgroups.ErrCgroupDeleted], and [errors.Wrapf]. The format
    string of a wrap is kept, its arguments are not: they change the text
    of the message only.

    Modelled from the spec: [ErrNoSuchPod] is the "distinguishable not
    found signal" of the State Store (section 6), and [ErrOther] stands
    for any other failure of a collaborator (the BackendFailure kind of
    section 7). *)
Inductive error : Type :=
| ErrRuntimeStopped
| ErrPodRemoved
| ErrNoSuchPod
| ErrCtrExists
| ErrCtrStateInvalid
| ErrInvalidArg
| ErrNotImplemented
| ErrCgroupDeleted
| ErrOther (msg : string)
| Wrapf (cause : error) (format : string).

(** [errors.Cause]. *)
Fixpoint Cause (e : error) : error :=
  match e with
  | Wrapf c _ => Cause c
  | _ => e
  end.

#[global] Instance error_eq_dec : EqDecision error.
Proof. solve_decision. Defined.

Inductive Result (A : Type) : Type :=
| Ok (a : A)
| Err (e : error).
Arguments Ok {A} a.
Arguments Err {A} e.

(** ** Data model *)

(** Modelled from the spec: the container states of section 4.4,
    "Configured, Running, Paused, Stopped/exited, Unknown", under the
    names the code uses for them; the type is declared in another file. *)
Inductive ContainerStatus : Type :=
| ContainerStateUnknown
| ContainerStateConfigured
| ContainerStateRunning
| ContainerStateStopped
| ContainerStatePaused.

#[global] Instance ContainerStatus_eq_dec : EqDecision ContainerStatus.
Proof. solve_decision. Defined.

(** The in-memory [*Container], with the fields and methods the code
    uses: [ctr.ID()], [ctr.state.State], [ctr.state.ExecSessions],
    [ctr.StopTimeout()], [ctr.valid]. The struct is declared in another
    file. *)
Record Container : Type := mkContainer {
  ctr_ID : string;
  ctr_State : ContainerStatus;
  ctr_ExecSessions : list string;
  ctr_StopTimeout : nat;
  ctr_valid : bool
}.

(** [pod.config] and [pod.state], with the fields the code uses; the
    structs are declared in another file. *)
Record PodConfig : Type := mkPodConfig {
  ID : string;
  Name : string;
  CgroupParent : string;
  UsePodCgroup : bool
}.

Record podState : Type := mkPodState {
  CgroupPath : string
}.

(** The in-memory [*Pod]: [pod.config], [pod.state], [pod.valid]. *)
Record Pod : Type := mkPod {
  pod_config : PodConfig;
  pod_state : podState;
  pod_valid : bool
}.

Definition pod_ID (p : Pod) : string := ID (pod_config p).

Definition setName (name : string) (p : Pod) : Pod :=
  mkPod (mkPodConfig (pod_ID p) name (CgroupParent (pod_config p))
                     (UsePodCgroup (pod_config p)))
        (pod_state p) (pod_valid p).

Definition setCgroupParent (parent : string) (p : Pod) : Pod :=
  mkPod (mkPodConfig (pod_ID p) (Name (pod_config p)) parent
                     (UsePodCgroup (pod_config p)))
        (pod_state p) (pod_valid p).

Definition setUsePodCgroup (b : bool) (p : Pod) : Pod :=
  mkPod (mkPodConfig (pod_ID p) (Name (pod_config p))
                     (CgroupParent (pod_config p)) b)
        (pod_state p) (pod_valid p).

Definition setCgroupPath (path : string) (p : Pod) : Pod :=
  mkPod (pod_config p) (mkPodState path) (pod_valid p).

Definition setPodValid (b : bool) (p : Pod) : Pod :=
  mkPod (pod_config p) (pod_state p) b.

Definition setCtrValid (b : bool) (c : Container) : Container :=
  mkContainer (ctr_ID c) (ctr_State c) (ctr_ExecSessions c)
              (ctr_StopTimeout c) b.

Definition setCtrState (s : ContainerStatus) (execs : list string)
    (c : Container) : Container :=
  mkContainer (ctr_ID c) s execs (ctr_StopTimeout c) (ctr_valid c).

(** Modelled from the spec: the two cgroup manager modes, "cgroupfs" and
    "systemd" (section 3); the constants are declared in another file. *)
Definition CgroupfsCgroupsManager : string := "cgroupfs".
Definition SystemdCgroupsManager : string := "systemd".

(** Modelled from the spec: the State Store's record of a container. The
    store is "the authoritative mapping from pod ID to Pod and container
    ID to Container, plus derived queries (pod membership, in-use
    dependents)"; its implementation is outside this file. A record holds
    the container's live state, the pod it belongs to, and the IDs of the
    containers that depend on it. *)
Record CtrRecord : Type := mkCtrRecord {
  rec_State : ContainerStatus;
  rec_ExecSessions : list string;
  rec_StopTimeout : nat;
  rec_Pod : option string;
  rec_InUseBy : list string
}.

(** Every call the Runtime makes on a collaborator: the State Store, the
    OCI runtime, a container's own operations, the cgroup backend. *)
Inductive Call : Type :=
| CallNewPod
| CallGenerateName
| CallAddPod (id : string)
| CallRemovePod (id : string)
| CallPod (id : string)
| CallHasPod (id : string)
| CallLookupPod (idOrName : string)
| CallAllPods
| CallPodContainers (id : string)
| CallRemovePodContainers (id : string)
| CallContainerInUse (ctr : string)
| CallSyncContainer (ctr : string)
| CallStopContainer (ctr : string) (timeout : nat)
| CallExecStopContainer (ctr : string) (timeout : nat)
| CallCleanup (ctr : string)
| CallTeardownStorage (ctr : string)
| CallDelete (ctr : string)
| CallCgroupsLoad (path : string)
| CallCgroupDelete (path : string).

(** The calls that only read. *)
Definition isQuery (c : Call) : bool :=
  match c with
  | CallPod _ | CallHasPod _ | CallLookupPod _ | CallAllPods
  | CallPodContainers _ | CallContainerInUse _ | CallSyncContainer _
  | CallCgroupsLoad _ => true
  | _ => false
  end.

(** The Runtime with what it refers to. [trace] lists the collaborator
    calls made so far, the latest first. *)
Record World : Type := mkWorld {
  r_valid : bool;
  r_CgroupManager : string;
  st_pods : list Pod;
  st_ctrs : gmap string CtrRecord;
  cgroups : list string;
  trace : list Call
}.

(** What the code does not decide: whether a collaborator call fails
    (given the calls made before it), the ID and the name that are
    generated for a new pod, and the two default cgroup parents, package
    constants declared in another file. *)
Record Env : Type := mkEnv {
  fault : list Call -> Call -> option error;
  newID : list Call -> string;
  newName : list Call -> string;
  CgroupfsDefaultCgroupParent : string;
  SystemdDefaultCgroupParent : string
}.

(** ** A state and error monad *)

Definition M (S A : Type) : Type := S -> Result A * S.

Definition ret {S A} (a : A) : M S A := fun s => (Ok a, s).

Definition fail {S A} (e : error) : M S A := fun s => (Err e, s).

Definition bind {S A B} (m : M S A) (k : A -> M S B) : M S B :=
  fun s =>
    match m s with
    | (Ok a, s') => k a s'
    | (Err e, s') => (Err e, s')
    end.

Definition get {S} : M S S := fun s => (Ok s, s).

Definition modify {S} (f : S -> S) : M S unit := fun s => (Ok tt, f s).

(** [errors.Wrapf(err, format)] on the error of [m]. *)
Definition wrapErr {S A} (format : string) (m : M S A) : M S A :=
  fun s =>
    match m s with
    | (Err e, s') => (Err (Wrapf e format), s')
    | r => r
    end.

Declare Scope go_scope.
Delimit Scope go_scope with go.
Notation "x <- m ;; k" := (bind m (fun x => k))
  (at level 100, m at next level, right associativity) : go_scope.
Notation "m ;; k" := (bind m (fun _ => k))
  (at level 100, right associativity) : go_scope.
Local Open Scope go_scope.

Definition liftResult {S A} (r : Result A) : M S A := fun s => (r, s).

(** ** The collaborators *)

Definition withTrace (t : list Call) (w : World) : World :=
  mkWorld (r_valid w) (r_CgroupManager w) (st_pods w) (st_ctrs w)
          (cgroups w) t.

Definition withPods (pods : list Pod) (w : World) : World :=
  mkWorld (r_valid w) (r_CgroupManager w) pods (st_ctrs w)
          (cgroups w) (trace w).

Definition withCtrs (cs : gmap string CtrRecord) (w : World) : World :=
  mkWorld (r_valid w) (r_CgroupManager w) (st_pods w) cs
          (cgroups w) (trace w).

Definition withCgroups (paths : list string) (w : World) : World :=
  mkWorld (r_valid w) (r_CgroupManager w) (st_pods w) (st_ctrs w)
          paths (trace w).

Definition hasID (id : string) (p : Pod) : bool := String.eqb (pod_ID p) id.

Definition hasName (name : string) (p : Pod) : bool :=
  String.eqb (Name (pod_config p)) name.

(** The object [PodContainers] hands out for a record of the store. *)
Definition viewOf (id : string) (r : CtrRecord) : Container :=
  mkContainer id (rec_State r) (rec_ExecSessions r) (rec_StopTimeout r) true.

Definition memberOf (pid : string) (r : CtrRecord) : bool :=
  bool_decide (rec_Pod r = Some pid).

Definition members (pid : string) (cs : gmap string CtrRecord)
    : list Container :=
  map (fun kr => viewOf kr.1 kr.2)
      (List.filter (fun kr => memberOf pid kr.2) (map_to_list cs)).

Definition setRecState (s : ContainerStatus) (r : CtrRecord) : CtrRecord :=
  mkCtrRecord s (rec_ExecSessions r) (rec_StopTimeout r) (rec_Pod r)
              (rec_InUseBy r).

Definition setRecExecSessions (l : list string) (r : CtrRecord) : CtrRecord :=
  mkCtrRecord (rec_State r) l (rec_StopTimeout r) (rec_Pod r)
              (rec_InUseBy r).

(** Modelled from the spec: [LookupPod] "resolves by exact ID, exact
    name, or unambiguous ID prefix; fails if the prefix matches more than
    one pod". *)
Definition lookupPod (idOrName : string) (pods : list Pod) : Result Pod :=
  match List.find (hasID idOrName) pods with
  | Some p => Ok p
  | None =>
      match List.find (hasName idOrName) pods with
      | Some p => Ok p
      | None =>
          match List.filter (fun p => String.prefix idOrName (pod_ID p)) pods with
          | [] => Err ErrNoSuchPod
          | [p] => Ok p
          | _ => Err (ErrOther "more than one result for ID or name")
          end
      end
  end.

Section Runtime.

Variable env : Env.

(** A call on a collaborator is recorded, and fails when the
    environment makes it fail; it then has no other effect. *)
Definition call (c : Call) : M World unit :=
  fun w =>
    let w' := withTrace (c :: trace w) w in
    match fault env (trace w) c with
    | Some e => (Err e, w')
    | None => (Ok tt, w')
    end.

(** *** The State Store

    Modelled from the spec: the operations of section 6, on the
    "authoritative mapping from pod ID to Pod and container ID to
    Container"; the store itself is not in this file. *)

Definition state_AddPod (p : Pod) : M World unit :=
  call (CallAddPod (pod_ID p)) ;;
  modify (fun w =>
    withPods (List.filter (fun q => negb (hasID (pod_ID p) q)) (st_pods w)
              ++ [p]) w).

Definition state_RemovePod (p : Pod) : M World unit :=
  call (CallRemovePod (pod_ID p)) ;;
  modify (fun w =>
    withPods (List.filter (fun q => negb (hasID (pod_ID p) q)) (st_pods w)) w).

Definition state_Pod (id : string) : M World Pod :=
  call (CallPod id) ;;
  w <- get ;;
  match List.find (hasID id) (st_pods w) with
  | Some p => ret p
  | None => fail ErrNoSuchPod
  end.

Definition state_HasPod (id : string) : M World bool :=
  call (CallHasPod id) ;;
  w <- get ;;
  ret (existsb (hasID id) (st_pods w)).

Definition state_LookupPod (idOrName : string) : M World Pod :=
  call (CallLookupPod idOrName) ;;
  w <- get ;;
  liftResult (lookupPod idOrName (st_pods w)).

Definition state_AllPods : M World (list Pod) :=
  call CallAllPods ;;
  w <- get ;;
  ret (st_pods w).

Definition state_PodContainers (p : Pod) : M World (list Container) :=
  call (CallPodContainers (pod_ID p)) ;;
  w <- get ;;
  ret (members (pod_ID p) (st_ctrs w)).

Definition state_RemovePodContainers (p : Pod) : M World unit :=
  call (CallRemovePodContainers (pod_ID p)) ;;
  modify (fun w =>
    withCtrs (filter (fun kr => rec_Pod kr.2 ≠ Some (pod_ID p)) (st_ctrs w)) w).

Definition state_ContainerInUse (ctr : Container) : M World (list string) :=
  call (CallContainerInUse (ctr_ID ctr)) ;;
  w <- get ;;
  ret (match st_ctrs w !! ctr_ID ctr with
       | Some r => rec_InUseBy r
       | None => []
       end).

(** *** The OCI runtime and the containers' own operations

    Modelled from the spec: section 6 names them; [stopContainer]
    takes a running container to [Stopped] (section 4.4),
    [execStopContainer] stops the exec sessions, [syncContainer]
    brings the object's state up to the live state, and [cleanup],
    [teardownStorage] and [delete] act on resources that the world
    does not hold: only their calls are recorded. *)

Definition ociRuntime_stopContainer (ctr : Container) (timeout : nat)
    : M World unit :=
  call (CallStopContainer (ctr_ID ctr) timeout) ;;
  modify (fun w =>
    withCtrs (alter (setRecState ContainerStateStopped) (ctr_ID ctr)
                    (st_ctrs w)) w).

Definition ociRuntime_execStopContainer (ctr : Container) (timeout : nat)
    : M World unit :=
  call (CallExecStopContainer (ctr_ID ctr) timeout) ;;
  modify (fun w =>
    withCtrs (alter (setRecExecSessions []) (ctr_ID ctr) (st_ctrs w)) w).

Definition syncContainer (ctr : Container) : M World Container :=
  call (CallSyncContainer (ctr_ID ctr)) ;;
  w <- get ;;
  ret (match st_ctrs w !! ctr_ID ctr with
       | Some r => setCtrState (rec_State r) (rec_ExecSessions r) ctr
       | None => ctr
       end).

Definition cleanup (ctr : Container) : M World unit :=
  call (CallCleanup (ctr_ID ctr)).

Definition teardownStorage (ctr : Container) : M World unit :=
  call (CallTeardownStorage (ctr_ID ctr)).

Definition delete (ctr : Container) : M World unit :=
  call (CallDelete (ctr_ID ctr)).

(** *** The cgroup backend

    Modelled from the spec: "load(version, path) and .delete(), where
    cgroup already deleted is a recognized, non-error outcome". *)

Definition cgroups_Load (path : string) : M World unit :=
  call (CallCgroupsLoad path) ;;
  w <- get ;;
  if bool_decide (path ∈ cgroups w) then ret tt else fail ErrCgroupDeleted.

Definition cgroup_Delete (path : string) : M World unit :=
  call (CallCgroupDelete path) ;;
  modify (fun w =>
    withCgroups (List.filter (fun q => negb (String.eqb q path)) (cgroups w)) w).

(** *** Pod creation helpers declared in other files

    Modelled from the spec: [newPod] "allocates a new pod object bound
    to the runtime", not yet valid and with an empty configuration but
    for its ID; [generateName] "generates a unique name". *)

Definition newPod : M World Pod :=
  w <- get ;;
  call CallNewPod ;;
  ret (mkPod (mkPodConfig (newID env (trace w)) "" "" false)
             (mkPodState "") false).

Definition generateName : M World string :=
  w <- get ;;
  call CallGenerateName ;;
  ret (newName env (trace w)).

(** ** The public Runtime API for pods *)

(** [PodCreateOption], a function from a [*Pod] to an error: the
    option returns the pod as it leaves it, or an error. *)
Definition PodCreateOption : Type := Pod -> Result Pod.

(** [PodFilter], a function from a [*Pod] to a bool. *)
Definition PodFilter : Type := Pod -> bool.

(** The loop over the options of [NewPod]. *)
Fixpoint runOptions (options : list PodCreateOption) (pod : Pod)
    : Result Pod :=
  match options with
  | [] => Ok pod
  | option :: rest =>
      match option pod with
      | Err e => Err (Wrapf e "error running pod create option")
      | Ok pod' => runOptions rest pod'
      end
  end.

(** [NewPod] makes a new, empty pod. The lock of the runtime is held
    from the first line to the return and is not modelled. *)
Definition NewPod (options : list PodCreateOption) : M World Pod :=
  r <- get ;;
  if negb (r_valid r) then fail ErrRuntimeStopped else
  pod <- wrapErr "error creating pod" newPod ;;
  pod <- liftResult (runOptions options pod) ;;
  pod <- (if String.eqb (Name (pod_config pod)) ""
          then name <- generateName ;; ret (setName name pod)
          else ret pod) ;;
  let pod := setPodValid true pod in
  (* Check CGroup parent sanity, and set it if it was not set *)
  pod <-
    (if String.eqb (r_CgroupManager r) CgroupfsCgroupsManager then
       if String.eqb (CgroupParent (pod_config pod)) "" then
         ret (setCgroupParent (CgroupfsDefaultCgroupParent env) pod)
       else if GoPath.HasSuffix
                 (GoPath.Base (CgroupParent (pod_config pod))) ".slice"
       then fail (Wrapf ErrInvalidArg
              "systemd slice received as cgroup parent when using cgroupfs")
       else ret pod
     else if String.eqb (r_CgroupManager r) SystemdCgroupsManager then
       pod <-
         (if String.eqb (CgroupParent (pod_config pod)) "" then
            ret (setCgroupParent (SystemdDefaultCgroupParent env) pod)
          else if (String.length (CgroupParent (pod_config pod)) <? 6)%nat
                  || negb (GoPath.HasSuffix
                             (GoPath.Base (CgroupParent (pod_config pod)))
                             ".slice")
          then fail (Wrapf ErrInvalidArg
                 "did not receive systemd slice as cgroup parent when using systemd to manage cgroups")
          else ret pod) ;;
       if UsePodCgroup (pod_config pod) then
         ret (setCgroupPath
                (GoPath.Join [CgroupParent (pod_config pod); pod_ID pod])
                pod)
       else ret pod
     else fail (Wrapf ErrInvalidArg
            "unsupported CGroup manager: %s - cannot validate cgroup parent")) ;;
  wrapErr "error adding pod to state" (state_AddPod pod) ;;
  fail ErrNotImplemented.

(** [GetPod] retrieves a pod by its ID. *)
Definition GetPod (id : string) : M World Pod :=
  r <- get ;;
  if negb (r_valid r) then fail ErrRuntimeStopped else
  state_Pod id.

(** [HasPod] checks to see if a pod with the given ID exists. *)
Definition HasPod (id : string) : M World bool :=
  r <- get ;;
  if negb (r_valid r) then fail ErrRuntimeStopped else
  state_HasPod id.

(** [LookupPod] retrieves a pod by its name or a partial ID. *)
Definition LookupPod (idOrName : string) : M World Pod :=
  r <- get ;;
  if negb (r_valid r) then fail ErrRuntimeStopped else
  state_LookupPod idOrName.

(** [Pods] retrieves all pods; the two nested loops are two folds,
    [include] starting at [true] for every pod. *)
Definition Pods (filters : list PodFilter) : M World (list Pod) :=
  r <- get ;;
  if negb (r_valid r) then fail ErrRuntimeStopped else
  pods <- state_AllPods ;;
  ret (fold_left
         (fun (podsFiltered : list Pod) pod =>
            let include :=
              fold_left (fun include filter => include && filter pod)
                        filters true in
            if include then (podsFiltered ++ [pod])%list else podsFiltered)
         pods []).

(** *** RemovePod

    [RemovePod] holds a pod and, once it has asked the store for them,
    the pod's containers; it changes both through their pointers. The
    [Machine] is the world with these objects. *)

Record Machine : Type := mkMachine {
  world : World;
  pod : Pod;
  ctrs : list Container
}.

Definition liftW {A} (m : M World A) : M Machine A :=
  fun s =>
    let '(r, w) := m (world s) in (r, mkMachine w (pod s) (ctrs s)).

(** The body of a loop over the containers runs on one container and
    the world. *)
Definition liftC {A} (m : M World A) : M (Container * World) A :=
  fun s => let '(r, w) := m s.2 in (r, (s.1, w)).

Definition getCtr : M (Container * World) Container :=
  fun s => (Ok s.1, s).

Definition setCtr (c : Container) : M (Container * World) unit :=
  fun s => (Ok tt, (c, s.2)).

(** [for _, ctr := range ctrs { body }], with what the body carries
    from one container to the next in [acc]. An error ends the loop;
    the containers already visited keep what was done to them. *)
Fixpoint forCtrs {A} (body : A -> M (Container * World) A) (acc : A)
    (cs : list Container) (w : World) : Result A * list Container * World :=
  match cs with
  | [] => (Ok acc, [], w)
  | c :: rest =>
      match body acc (c, w) with
      | (Err e, (c', w')) => (Err e, c' :: rest, w')
      | (Ok acc', (c', w')) =>
          let '(r, rest', w'') := forCtrs body acc' rest w' in
          (r, c' :: rest', w'')
      end
  end.

Definition rangeCtrs {A} (body : A -> M (Container * World) A) (acc : A)
    : M Machine A :=
  fun s =>
    let '(r, cs, w) := forCtrs body acc (ctrs s) (world s) in
    (r, mkMachine w (pod s) cs).

(** [ctr.syncContainer()] on the container of the loop. *)
Definition syncCtr : M (Container * World) unit :=
  ctr <- getCtr ;;
  ctr' <- liftC (syncContainer ctr) ;;
  setCtr ctr'.

(** Lines 123-156: sync the container, check that it is in a good
    state to be removed, and record the containers that depend on
    it. *)
Definition lockAndCheck (force : bool)
    (dependencies : gmap string (list string))
    : M (Container * World) (gmap string (list string)) :=
  syncCtr ;;
  ctr <- getCtr ;;
  if bool_decide (ctr_State ctr = ContainerStatePaused) then
    fail (Wrapf ErrCtrStateInvalid
            "pod %s contains paused container %s, cannot remove")
  else if bool_decide (ctr_State ctr = ContainerStateUnknown) then
    fail (Wrapf ErrCtrStateInvalid
            "pod %s contains container %s with invalid state")
  else if bool_decide (ctr_State ctr = ContainerStateRunning) && negb force then
    fail (Wrapf ErrCtrStateInvalid
            "pod %s contains container %s which is running")
  else if negb (length (ctr_ExecSessions ctr) =? 0)%nat && negb force then
    fail (Wrapf ErrCtrStateInvalid
            "pod %s contains container %s which has active exec sessions")
  else
    deps <- liftC (state_ContainerInUse ctr) ;;
    ret (<[ctr_ID ctr := deps]> dependencies).

(** Lines 160-166: every dependency of every container is a key of
    the map. Whatever the order in which Go walks the map, the error is
    the same. *)
Definition depsInPod (dependencies : gmap string (list string)) : bool :=
  forallb
    (fun kd : string * list string =>
       forallb (fun dep => bool_decide (is_Some (dependencies !! dep))) kd.2)
    (map_to_list dependencies).

(** Lines 172-190: the body of the loop that stops the containers. *)
Definition stopCtr (_ : unit) : M (Container * World) unit :=
  ctr <- getCtr ;;
  (if bool_decide (ctr_State ctr = ContainerStateRunning) then
     wrapErr "error stopping container %s to remove pod %s"
       (liftC (ociRuntime_stopContainer ctr (ctr_StopTimeout ctr))) ;;
     syncCtr
   else ret tt) ;;
  ctr <- getCtr ;;
  if negb (length (ctr_ExecSessions ctr) =? 0)%nat then
    liftC (ociRuntime_execStopContainer ctr (ctr_StopTimeout ctr))
  else ret tt.

(** Lines 196-214: the body of the loop that removes the containers. *)
Definition removeCtr (_ : unit) : M (Container * World) unit :=
  ctr <- getCtr ;;
  liftC (cleanup ctr) ;;
  liftC (teardownStorage ctr) ;;
  if negb (bool_decide (ctr_State ctr = ContainerStateConfigured)) then
    liftC (delete ctr)
  else ret tt.

(** Lines 110-224: from the query for the pod's containers to the
    loop that marks them invalid. *)
Definition removeContainers (removeCtrs force : bool) : M Machine unit :=
  s <- get ;;
  cs <- liftW (state_PodContainers (pod s)) ;;
  modify (fun s => mkMachine (world s) (pod s) cs) ;;
  let numCtrs := length cs in
  if negb removeCtrs && (0 <? numCtrs)%nat then
    fail (Wrapf ErrCtrExists
            "pod %s contains containers and cannot be removed")
  else
  (* Go through and lock all containers so we can operate on them all
     at once *)
  dependencies <- rangeCtrs (lockAndCheck force) ∅ ;;
  (* Check if containers have dependencies *)
  (if depsInPod dependencies then ret tt
   else fail (Wrapf ErrCtrExists
                "container %s depends on container %s not in pod %s")) ;;
  (* First loop through all containers and stop them *)
  (if force then rangeCtrs stopCtr tt else ret tt) ;;
  (* Start removing containers *)
  rangeCtrs removeCtr tt ;;
  (* Remove containers from the state *)
  liftW (state_RemovePodContainers (pod s)) ;;
  (* Mark containers invalid *)
  modify (fun s =>
    mkMachine (world s) (pod s) (map (setCtrValid false) (ctrs s))).

(** Lines 226-247: remove pod cgroup, if present. *)
Definition removePodCgroup : M Machine unit :=
  s <- get ;;
  let p := pod s in
  if negb (String.eqb (CgroupPath (pod_state p)) "") then
    if String.eqb (r_CgroupManager (world s)) SystemdCgroupsManager then
      ret tt
    else if String.eqb (r_CgroupManager (world s)) CgroupfsCgroupsManager then
      fun s =>
        match liftW (cgroups_Load (CgroupPath (pod_state p))) s with
        | (Err err, s') =>
            if bool_decide (err ≠ ErrCgroupDeleted) then (Err err, s')
            else (Ok tt, s')
        | (Ok _, s') => liftW (cgroup_Delete (CgroupPath (pod_state p))) s'
        end
    else fail (Wrapf ErrInvalidArg "unknown cgroups manager %s specified")
  else ret tt.

(** Lines 249-257: remove pod from state and mark it invalid. *)
Definition removePodFromState : M Machine unit :=
  s <- get ;;
  liftW (state_RemovePod (pod s)) ;;
  modify (fun s => mkMachine (world s) (setPodValid false (pod s)) (ctrs s)).

(** [RemovePod] removes a pod. The context is passed on to [delete]
    only and is left out; the locks are not modelled. *)
Definition RemovePod (p : Pod) (removeCtrs force : bool) (w : World)
    : Result unit * Machine :=
  (s <- get ;;
   if negb (r_valid (world s)) then fail ErrRuntimeStopped else
   if negb (pod_valid (pod s)) then fail ErrPodRemoved else
   removeContainers removeCtrs force ;;
   removePodCgroup ;;
   removePodFromState) (mkMachine w p []).

End Runtime.

(** ** Concrete worlds *)

Module Examples.

(** An environment in which no collaborator fails. *)
Definition env0 : Env :=
  mkEnv (fun _ _ => None) (fun _ => "5f3c") (fun _ => "quiet_pod")
        "/libpod_parent" "machine.slice".

Definition emptyWorld (manager : string) : World :=
  mkWorld true manager [] ∅ [] [].

Definition stoppedWorld : World :=
  mkWorld false CgroupfsCgroupsManager [] ∅ [] [].

Definition withParent (parent : string) : PodCreateOption :=
  fun p => Ok (setCgroupParent parent p).

Definition withPodCgroup : PodCreateOption :=
  fun p => Ok (setUsePodCgroup true p).

Definition podOf (id name parent path : string) : Pod :=
  mkPod (mkPodConfig id name parent (negb (String.eqb path "")))
        (mkPodState path) true.

Definition web : Pod := podOf "p1" "web" "/libpod_parent" "".
Definition db : Pod := podOf "p2" "db" "/libpod_parent" "/libpod_parent/p2".

Definition rec (s : ContainerStatus) (p : option string)
    (inUseBy : list string) : CtrRecord :=
  mkCtrRecord s [] 10 p inUseBy.

(** Pod [p1] holds [A] and [B]; [C] is in no pod and depends on [A]. *)
Definition depWorld (stateA : ContainerStatus) : World :=
  mkWorld true CgroupfsCgroupsManager [web; db]
    (<["A" := rec stateA (Some "p1") ["C"]]>
       (<["B" := rec ContainerStateStopped (Some "p1") []]>
          (<["C" := rec ContainerStateStopped None []]> ∅)))
    ["/libpod_parent/p2"] [].

Definition idle : Pod :=
  podOf "p3" "idle" "/libpod_parent" "/libpod_parent/p3".

(** Pod [p2] holds [D], running with an exec session, and [E], never
    started, which depends on [D]; pod [p3] is empty. Both pods have a
    cgroup path, and neither cgroup exists any more. *)
Definition podsWorld (manager : string) : World :=
  mkWorld true manager [web; db; idle]
    (<["D" := mkCtrRecord ContainerStateRunning ["s1"] 10 (Some "p2") ["E"]]>
       (<["E" := rec ContainerStateConfigured (Some "p2") []]> ∅))
    [] [].

(** The world after the containers phase of [RemovePod] on pod [p2]. *)
Definition afterContainers (manager : string) : Machine :=
  (removeContainers env0 true true (mkMachine (podsWorld manager) db [])).2.

End Examples.

(** ** Vocabulary of the properties *)

(** A computation that ends in [fail] returns no value. *)
Definition neverOk {S A} (m : M S A) : Prop :=
  forall s, exists e s', m s = (Err e, s').

(** No collaborator call fails. *)
Definition noFaults (env : Env) : Prop :=
  forall t c, fault env t c = None.

(** From [w] to [w'] only queries were made: the world is the same but
    for the trace, which grew by read calls. *)
Definition onlyQueries (w w' : World) : Prop :=
  exists new,
    w' = withTrace (new ++ trace w) w /\ forallb isQuery new = true.

(** From [w] to [w'] the runtime's flag and configuration, the pods of
    the store and the cgroups are the same. *)
Definition sameRuntime (w w' : World) : Prop :=
  r_valid w' = r_valid w
  /\ r_CgroupManager w' = r_CgroupManager w
  /\ st_pods w' = st_pods w
  /\ cgroups w' = cgroups w.

(** The computation leaves the pod, the runtime's flag and configuration,
    the pods of the store and the cgroups as they are. *)
Definition keepsRuntime {A} (m : M Machine A) : Prop :=
  forall s r s',
    m s = (r, s') -> pod s' = pod s /\ sameRuntime (world s) (world s').

Definition keepsRuntimeW {A} (m : M World A) : Prop :=
  forall w r w', m w = (r, w') -> sameRuntime w w'.

(** The object [c] is as [PodContainers] hands it out in [w]: valid, and
    with the state of its record. *)
Definition freshView (w : World) (c : Container) : Prop :=
  exists r, st_ctrs w !! ctr_ID c = Some r /\ c = viewOf (ctr_ID c) r.

(** The container [id] belongs to the pod [pid] in the store of [w]. *)
Definition isMember (w : World) (pid id : string) : Prop :=
  exists r, st_ctrs w !! id = Some r /\ rec_Pod r = Some pid.

(** The answer of [ContainerInUse] for the container [id] in [w]. *)
Definition inUse (w : World) (id : string) : list string :=
  match st_ctrs w !! id with
  | Some r => rec_InUseBy r
  | None => []
  end.

(** The four state checks of lines 133-149 pass. *)
Definition ctrOK (force : bool) (c : Container) : bool :=
  negb (bool_decide (ctr_State c = ContainerStatePaused))
  && negb (bool_decide (ctr_State c = ContainerStateUnknown))
  && negb (bool_decide (ctr_State c = ContainerStateRunning) && negb force)
  && negb (negb (length (ctr_ExecSessions c) =? 0)%nat && negb force).

(** The pod [newPod] allocates in [w]. *)
Definition freshPod (env : Env) (w : World) : Pod :=
  mkPod (mkPodConfig (newID env (trace w)) "" "" false) (mkPodState "") false.

(** Every call the computation adds to the trace, read by [tr] from the
    state, satisfies [ok]. *)
Definition emits {S A} (tr : S -> list Call) (ok : Call -> bool)
    (m : M S A) : Prop :=
  forall s r s',
    m s = (r, s') ->
    exists new, tr s' = (new ++ tr s)%list /\ forallb ok new = true.

(** The calls that stop a container or its exec sessions. *)
Definition isStop (c : Call) : bool :=
  match c with
  | CallStopContainer _ _ | CallExecStopContainer _ _ => true
  | _ => false
  end.


(** The calls that act on a container: stop, cleanup, teardown, delete. *)
Definition isCtrAction (c : Call) : bool :=
  match c with
  | CallStopContainer _ _ | CallExecStopContainer _ _
  | CallCleanup _ | CallTeardownStorage _ | CallDelete _ => true
  | _ => false
  end.

(** The calls of [NewPod] up to the check of the cgroup parent, for the
    pod [p1] the options leave: [newPod], and [generateName] when the
    options set no name. *)
Definition namingCalls (p1 : Pod) : list Call :=
  if String.eqb (Name (pod_config p1)) "" then [CallGenerateName; CallNewPod]
  else [CallNewPod].

(** The name of the new pod: the one the options set, or the generated
    one. *)
Definition nameFor (env : Env) (w : World) (p1 : Pod) : string :=
  if String.eqb (Name (pod_config p1)) ""
  then newName env (CallNewPod :: trace w)
  else Name (pod_config p1).

(** The cgroup parent of [p] fits the cgroup manager: under cgroupfs it
    is the default parent or does not look like a slice, under systemd it
    is the default parent or a slice name of six characters or more. *)
Definition parentFits (env : Env) (manager : string) (p : Pod) : Prop :=
  let parent := CgroupParent (pod_config p) in
  (manager = CgroupfsCgroupsManager
   /\ (parent = CgroupfsDefaultCgroupParent env
       \/ GoPath.HasSuffix (GoPath.Base parent) ".slice" = false))
  \/ (manager = SystemdCgroupsManager
      /\ (parent = SystemdDefaultCgroupParent env
          \/ (6 <= String.length parent
              /\ GoPath.HasSuffix (GoPath.Base parent) ".slice" = true))).

(** The cgroup parent of the new pod: the one the options set, or the
    default parent of the manager. *)
Definition parentFor (env : Env) (manager : string) (p1 : Pod) : string :=
  if String.eqb (CgroupParent (pod_config p1)) "" then
    if String.eqb manager CgroupfsCgroupsManager
    then CgroupfsDefaultCgroupParent env
    else SystemdDefaultCgroupParent env
  else CgroupParent (pod_config p1).

Definition notStop (c : Call) : bool := negb (isStop c).


Definition notCtrAction (c : Call) : bool := negb (isCtrAction c).

(** The world where the trace of a run of [RemovePod] ends. *)
Definition traceAfter (x : Result unit * Machine) : list Call :=
  trace (world x.2).

(** Any call but the deletion of the container [id]. *)
Definition notDelete (id : string) (c : Call) : bool :=
  match c with
  | CallDelete k => negb (String.eqb k id)
  | _ => true
  end.

(** Any call but those that take a container down: cleanup, teardown of
    its storage, deletion. *)
Definition notTakedown (c : Call) : bool :=
  match c with
  | CallCleanup _ | CallTeardownStorage _ | CallDelete _ => false
  | _ => true
  end.


(** The cgroup path of the new pod: under systemd with [UsePodCgroup]
    the join of its cgroup parent and its ID, else what the options
    left. *)
Definition cgroupPathFor (env : Env) (manager : string) (p1 : Pod) : string :=
  if String.eqb manager SystemdCgroupsManager
     && UsePodCgroup (pod_config p1)
  then GoPath.Join [parentFor env manager p1; pod_ID p1]
  else CgroupPath (pod_state p1).

(** The trace of [w'] is the trace of [w] with calls added. *)
Definition grows (w w' : World) : Prop :=
  exists new, trace w' = (new ++ trace w)%list.

(** The call [c] was made between [w] and [w']. *)
Definition calledSince (w w' : World) (c : Call) : Prop :=
  exists new, trace w' = (new ++ trace w)%list /\ In c new.

(** The records of [cs'] belong to the pods those of [cs] belong to. *)
Definition samePods (cs cs' : gmap string CtrRecord) : Prop :=
  forall k, rec_Pod <$> cs' !! k = rec_Pod <$> cs !! k.

(** ** More concrete worlds *)

Module MoreExamples.

(** An option that fails. *)
Definition refuse : PodCreateOption :=
  fun _ => Err (ErrOther "refused").

(** Pod [p1] holds the running [A]; pod [p2] holds [D], running with an
    exec session, and [E], never started, which depends on [D]. *)
Definition twoPods : World :=
  mkWorld true CgroupfsCgroupsManager [Examples.web; Examples.db]
    (<["A" := Examples.rec ContainerStateRunning (Some "p1") []]>
       (<["D" := mkCtrRecord ContainerStateRunning ["s1"] 10 (Some "p2") ["E"]]>
          (<["E" := Examples.rec ContainerStateConfigured (Some "p2") []]> ∅)))
    ["/libpod_parent/p2"] [].

End MoreExamples.

(** ** Properties *)

Section MonadLemmas.

Context {S A B : Type}.

Lemma bind_Ok (m : M S A) (k : A -> M S B) s a s' :
  m s = (Ok a, s') -> bind m k s = k a s'.
Proof. unfold bind. by intros ->. Qed.

Lemma bind_Err (m : M S A) (k : A -> M S B) s e s' :
  m s = (Err e, s') -> bind m k s = (Err e, s').
Proof. unfold bind. by intros ->. Qed.

Lemma bind_Ok_inv (m : M S A) (k : A -> M S B) s b s' :
  bind m k s = (Ok b, s') ->
  exists a s1, m s = (Ok a, s1) /\ k a s1 = (Ok b, s').
Proof.
  unfold bind. destruct (m s) as [[a|e] s1]; [eauto | discriminate].
Qed.

End MonadLemmas.

(** *** A stopped runtime *)

(** C9. When the Runtime's valid flag is false, each of NewPod, RemovePod,
    GetPod, HasPod, LookupPod and Pods returns ErrRuntimeStopped and leaves
    the world as it was: the trace has no new call, so the State Store was
    neither queried nor changed, and the pod handed to RemovePod is
    untouched. *)
Theorem stopped_runtime_fails_fast (env : Env) (w : World) :
  r_valid w = false ->
  forall options p removeCtrs force id idOrName filters,
    NewPod env options w = (Err ErrRuntimeStopped, w)
    /\ RemovePod env p removeCtrs force w
       = (Err ErrRuntimeStopped, mkMachine w p [])
    /\ GetPod env id w = (Err ErrRuntimeStopped, w)
    /\ HasPod env id w = (Err ErrRuntimeStopped, w)
    /\ LookupPod env idOrName w = (Err ErrRuntimeStopped, w)
    /\ Pods env filters w = (Err ErrRuntimeStopped, w).
Proof.
  intros Hstopped options p removeCtrs force id idOrName filters.
  unfold NewPod, RemovePod, GetPod, HasPod, LookupPod, Pods, bind, get.
  cbn. rewrite Hstopped. cbn. repeat split; reflexivity.
Qed.

Lemma stopped_runtime_fails_fast_witness :
  NewPod Examples.env0 [] Examples.stoppedWorld
  = (Err ErrRuntimeStopped, Examples.stoppedWorld)
  /\ Pods Examples.env0 [] Examples.stoppedWorld
     = (Err ErrRuntimeStopped, Examples.stoppedWorld).
Proof.
  destruct (stopped_runtime_fails_fast Examples.env0 Examples.stoppedWorld
              eq_refl [] Examples.web true true "p1" "web" [])
    as (HNew & _ & _ & _ & _ & HPods).
  split; [exact HNew | exact HPods].
Defined.

(** *** Listing pods *)

(** The inner loop of [Pods]: [include] ends up true exactly when every
    filter holds of the pod. *)
Lemma include_forallb (filters : list (Pod -> bool)) (pod : Pod) (b : bool) :
  fold_left (fun include filter => include && filter pod) filters b
  = b && forallb (fun filter => filter pod) filters.
Proof.
  revert b. induction filters as [|f fs IH]; intros b; cbn.
  - by rewrite andb_true_r.
  - rewrite IH. by rewrite andb_assoc.
Qed.

(** The outer loop of [Pods] appends the pods that pass, in order. *)
Lemma append_loop_filter (keep : Pod -> bool) (pods acc : list Pod) :
  fold_left (fun (out : list Pod) pod =>
               if keep pod then (out ++ [pod])%list else out) pods acc
  = (acc ++ List.filter keep pods)%list.
Proof.
  revert acc. induction pods as [|p ps IH]; intros acc; cbn.
  - by rewrite app_nil_r.
  - rewrite IH. destruct (keep p); [|done].
    by rewrite <- app_assoc.
Qed.

(** C8. On a valid runtime whose store answers AllPods, Pods(filters...)
    returns, in the store's order, exactly the pods of the store for which
    every filter returns true; with no filter it returns every pod. The
    only call it makes is AllPods. *)
Theorem Pods_all_filters (env : Env) (filters : list PodFilter) (w : World) :
  r_valid w = true ->
  fault env (trace w) CallAllPods = None ->
  exists out,
    Pods env filters w = (Ok out, withTrace (CallAllPods :: trace w) w)
    /\ out = List.filter
               (fun pod => forallb (fun filter => filter pod) filters)
               (st_pods w)
    /\ (forall pod,
          In pod out
          <-> In pod (st_pods w)
              /\ forall filter, In filter filters -> filter pod = true)
    /\ (filters = [] -> out = st_pods w).
Proof.
  intros Hvalid Hstore.
  eexists. split; [|split; [reflexivity|split]].
  - unfold Pods, state_AllPods, call, bind, get, ret. cbn.
    rewrite Hvalid. cbn. rewrite Hstore. cbn.
    rewrite (append_loop_filter
               (fun pod => fold_left (fun include filter => include && filter pod)
                             filters true)).
    cbn. f_equal. f_equal.
    apply List.filter_ext. intros pod. by rewrite include_forallb.
  - intros pod. rewrite List.filter_In, List.forallb_forall. tauto.
  - intros ->. cbn. induction (st_pods w) as [|p ps IH]; cbn; congruence.
Qed.

Lemma Pods_all_filters_witness :
  exists out,
    Pods Examples.env0 [fun p => String.prefix "we" (Name (pod_config p))]
         (Examples.depWorld ContainerStateStopped)
    = (Ok out,
       withTrace [CallAllPods] (Examples.depWorld ContainerStateStopped))
    /\ out = [Examples.web].
Proof.
  destruct (Pods_all_filters Examples.env0
              [fun p => String.prefix "we" (Name (pod_config p))]
              (Examples.depWorld ContainerStateStopped) eq_refl eq_refl)
    as (out & Hrun & Hout & _).
  exists out. split; [exact Hrun | rewrite Hout; reflexivity].
Defined.

(** *** Pod creation *)

Lemma neverOk_fail {S A} (e : error) : neverOk (@fail S A e).
Proof. intros s. by exists e, s. Qed.

Lemma neverOk_bind {S A B} (m : M S A) (k : A -> M S B) :
  (forall a, neverOk (k a)) -> neverOk (bind m k).
Proof.
  intros Hk s. unfold bind. destruct (m s) as [[a|e] s1].
  - apply Hk.
  - by exists e, s1.
Qed.

Lemma NewPod_neverOk (env : Env) (options : list PodCreateOption) :
  neverOk (NewPod env options).
Proof.
  unfold NewPod.
  apply neverOk_bind; intros r.
  destruct (negb (r_valid r)); [apply neverOk_fail|].
  do 4 (apply neverOk_bind; intros ?).
  apply neverOk_bind; intros _. apply neverOk_fail.
Qed.

(** C1. The code departs from the specification. Whatever the options
    and the world, NewPod returns an error and no pod; on a valid runtime
    in systemd mode, with no option, a store that accepts the pod and
    collaborators that do not fail, the pod is validated and persisted in
    the State Store and NewPod still returns ErrNotImplemented. *)
Theorem NewPod_returns_no_pod :
  (forall env options w, exists e w', NewPod env options w = (Err e, w'))
  /\ (NewPod Examples.env0 [] (Examples.emptyWorld SystemdCgroupsManager)).1
     = Err ErrNotImplemented
  /\ st_pods (NewPod Examples.env0 []
                (Examples.emptyWorld SystemdCgroupsManager)).2
     = [mkPod (mkPodConfig "5f3c" "quiet_pod" "machine.slice" false)
              (mkPodState "") true]
  /\ trace (NewPod Examples.env0 []
              (Examples.emptyWorld SystemdCgroupsManager)).2
     = [CallAddPod "5f3c"; CallGenerateName; CallNewPod].
Proof.
  split; [|by vm_compute].
  intros env options w. apply NewPod_neverOk.
Qed.

(** C5. The code departs from the specification in cgroupfs mode. With
    UsePodCgroup set, the pod that NewPod persists in cgroupfs mode has an
    empty CgroupPath, not the join of its CgroupParent and its ID; in
    systemd mode the persisted pod has the join as its CgroupPath. *)
Theorem NewPod_cgroupfs_sets_no_CgroupPath :
  (map (fun p => (UsePodCgroup (pod_config p), CgroupParent (pod_config p),
                  pod_ID p, CgroupPath (pod_state p)))
       (st_pods (NewPod Examples.env0 [Examples.withPodCgroup]
                   (Examples.emptyWorld CgroupfsCgroupsManager)).2)
   = [(true, "/libpod_parent", "5f3c", "")])
  /\ GoPath.Join ["/libpod_parent"; "5f3c"] = "/libpod_parent/5f3c"
  /\ (map (fun p => (UsePodCgroup (pod_config p), CgroupParent (pod_config p),
                     pod_ID p, CgroupPath (pod_state p)))
          (st_pods (NewPod Examples.env0 [Examples.withPodCgroup]
                      (Examples.emptyWorld SystemdCgroupsManager)).2)
      = [(true, "machine.slice", "5f3c",
          GoPath.Join ["machine.slice"; "5f3c"])]).
Proof. by vm_compute. Qed.

(** C6. The code departs from the specification on the success of pod
    creation only. In cgroupfs mode NewPod with CgroupParent "custom.slice"
    fails with ErrInvalidArg and persists nothing; in systemd mode the
    same parent passes the check and the pod is persisted with it, yet
    NewPod returns ErrNotImplemented; in either mode an empty CgroupParent
    becomes the default parent of the mode. *)
Theorem NewPod_custom_slice :
  (NewPod Examples.env0 [Examples.withParent "custom.slice"]
     (Examples.emptyWorld CgroupfsCgroupsManager)).1
  = Err (Wrapf ErrInvalidArg
           "systemd slice received as cgroup parent when using cgroupfs")
  /\ st_pods (NewPod Examples.env0 [Examples.withParent "custom.slice"]
                (Examples.emptyWorld CgroupfsCgroupsManager)).2 = []
  /\ (NewPod Examples.env0 [Examples.withParent "custom.slice"]
        (Examples.emptyWorld SystemdCgroupsManager)).1
     = Err ErrNotImplemented
  /\ map (fun p => CgroupParent (pod_config p))
         (st_pods (NewPod Examples.env0 [Examples.withParent "custom.slice"]
                     (Examples.emptyWorld SystemdCgroupsManager)).2)
     = ["custom.slice"]
  /\ map (fun p => CgroupParent (pod_config p))
         (st_pods (NewPod Examples.env0 []
                     (Examples.emptyWorld CgroupfsCgroupsManager)).2)
     = [CgroupfsDefaultCgroupParent Examples.env0]
  /\ map (fun p => CgroupParent (pod_config p))
         (st_pods (NewPod Examples.env0 []
                     (Examples.emptyWorld SystemdCgroupsManager)).2)
     = [SystemdDefaultCgroupParent Examples.env0].
Proof. by vm_compute. Qed.

(** *** Worlds that differ by queries *)

Lemma onlyQueries_refl (w : World) : onlyQueries w w.
Proof. exists []. by destruct w. Qed.

Lemma onlyQueries_call (w w' : World) (c : Call) :
  isQuery c = true ->
  onlyQueries w w' -> onlyQueries w (withTrace (c :: trace w') w').
Proof.
  intros Hc (new & -> & Hnew). exists (c :: new). cbn. by rewrite Hc, Hnew.
Qed.

Lemma onlyQueries_trans (w1 w2 w3 : World) :
  onlyQueries w1 w2 -> onlyQueries w2 w3 -> onlyQueries w1 w3.
Proof.
  intros (n1 & -> & Hn1) (n2 & -> & Hn2). exists (n2 ++ n1)%list. cbn.
  rewrite <- app_assoc. split; [done|]. by rewrite forallb_app, Hn1, Hn2.
Qed.

Lemma onlyQueries_st_ctrs (w w' : World) :
  onlyQueries w w' -> st_ctrs w' = st_ctrs w.
Proof. by intros (new & -> & _). Qed.

Lemma onlyQueries_sameRuntime (w w' : World) :
  onlyQueries w w' -> sameRuntime w w'.
Proof. by intros (new & -> & _). Qed.

Lemma freshView_onlyQueries (w w' : World) (c : Container) :
  onlyQueries w w' -> freshView w c -> freshView w' c.
Proof.
  intros Hq (r & Hr & Hc). exists r.
  by rewrite (onlyQueries_st_ctrs _ _ Hq).
Qed.

Lemma sameRuntime_refl (w : World) : sameRuntime w w.
Proof. by repeat split. Qed.

Lemma sameRuntime_trans (w1 w2 w3 : World) :
  sameRuntime w1 w2 -> sameRuntime w2 w3 -> sameRuntime w1 w3.
Proof.
  intros (?&?&?&?) (?&?&?&?). repeat split; congruence.
Qed.

(** *** The containers of a pod *)

Lemma members_In (pid : string) (cs : gmap string CtrRecord) (c : Container) :
  In c (members pid cs)
  <-> exists r, cs !! ctr_ID c = Some r /\ rec_Pod r = Some pid
                /\ c = viewOf (ctr_ID c) r.
Proof.
  unfold members. rewrite in_map_iff. split.
  - intros ([id r] & <- & Hin). apply List.filter_In in Hin as [Hin Hmem].
    apply list_elem_of_In, elem_of_map_to_list in Hin.
    unfold memberOf in Hmem. apply bool_decide_eq_true in Hmem.
    exists r. by cbn in *.
  - intros (r & Hr & Hpod & ->). exists (ctr_ID c, r). split; [done|].
    apply List.filter_In. split.
    + by apply list_elem_of_In, elem_of_map_to_list.
    + unfold memberOf. by apply bool_decide_eq_true.
Qed.

Lemma members_fresh (pid : string) (w : World) :
  Forall (freshView w) (members pid (st_ctrs w)).
Proof.
  apply Forall_forall. intros c Hc%list_elem_of_In%members_In.
  destruct Hc as (r & Hr & _ & Hc). by exists r.
Qed.

Lemma members_nil (pid : string) (cs : gmap string CtrRecord) :
  (forall id r, cs !! id = Some r -> rec_Pod r <> Some pid) ->
  members pid cs = [].
Proof.
  intros Hnone. destruct (members pid cs) as [|c l] eqn:E; [done|].
  assert (In c (members pid cs)) as Hc by (rewrite E; by left).
  apply members_In in Hc as (r & Hr & Hpod & _).
  by destruct (Hnone _ _ Hr).
Qed.

(** *** The loops over the containers *)

(** A loop whose body keeps a property of the world and the container's
    ID keeps them. *)
Lemma forCtrs_invariant {A} (body : A -> M (Container * World) A)
    (P : World -> Prop) :
  (forall acc c w r c' w',
      body acc (c, w) = (r, (c', w')) -> P w -> P w' /\ ctr_ID c' = ctr_ID c) ->
  forall cs acc w r cs' w',
    forCtrs body acc cs w = (r, cs', w') ->
    P w -> P w' /\ map ctr_ID cs' = map ctr_ID cs.
Proof.
  intros Hbody cs. induction cs as [|c cs IH]; intros acc w r cs' w' Hrun HP.
  - cbn in Hrun. by simplify_eq.
  - cbn in Hrun.
    destruct (body acc (c, w)) as [[acc'|e] [c1 w1]] eqn:Hstep;
      destruct (Hbody _ _ _ _ _ _ Hstep HP) as [HP1 Hid].
    + destruct (forCtrs body acc' cs w1) as [[r2 cs2] w2] eqn:Hrest.
      simplify_eq. destruct (IH _ _ _ _ _ Hrest HP1) as [HP2 Hids].
      split; [done|]. cbn. by rewrite Hid, Hids.
    + simplify_eq. split; [done|]. cbn. by rewrite Hid.
Qed.

Ltac run_body :=
  unfold lockAndCheck, stopCtr, removeCtr, syncCtr, syncContainer,
    state_ContainerInUse, ociRuntime_stopContainer,
    ociRuntime_execStopContainer, cleanup, teardownStorage, delete,
    wrapErr, liftC, getCtr, setCtr, call, bind, ret, fail, get, modify in *;
  cbn in *;
  repeat (case_match; cbn in *; simplify_eq).

Lemma lockAndCheck_sameRuntime env force w0 acc c w r c' w' :
  lockAndCheck env force acc (c, w) = (r, (c', w')) ->
  sameRuntime w0 w -> sameRuntime w0 w' /\ ctr_ID c' = ctr_ID c.
Proof.
  intros Hrun H0. run_body; (split; [|done]);
    (eapply sameRuntime_trans; [exact H0|by repeat split]).
Qed.

Lemma stopCtr_sameRuntime env w0 acc c w r c' w' :
  stopCtr env acc (c, w) = (r, (c', w')) ->
  sameRuntime w0 w -> sameRuntime w0 w' /\ ctr_ID c' = ctr_ID c.
Proof.
  intros Hrun H0. run_body; (split; [|done]);
    (eapply sameRuntime_trans; [exact H0|by repeat split]).
Qed.

Lemma removeCtr_sameRuntime env w0 acc c w r c' w' :
  removeCtr env acc (c, w) = (r, (c', w')) ->
  sameRuntime w0 w -> sameRuntime w0 w' /\ ctr_ID c' = ctr_ID c.
Proof.
  intros Hrun H0. run_body; (split; [|done]);
    (eapply sameRuntime_trans; [exact H0|by repeat split]).
Qed.

Lemma setCtrState_fresh (c : Container) (r : CtrRecord) :
  c = viewOf (ctr_ID c) r ->
  setCtrState (rec_State r) (rec_ExecSessions r) c = c.
Proof. intros ->. reflexivity. Qed.

(** One round of the first loop on a container fresh from the store. *)
Lemma lockAndCheck_step env force acc c w r c' w' :
  freshView w c ->
  lockAndCheck env force acc (c, w) = (r, (c', w')) ->
  onlyQueries w w' /\ c' = c
  /\ forall m, r = Ok m ->
       ctrOK force c = true /\ m = <[ctr_ID c := inUse w (ctr_ID c)]> acc.
Proof.
  intros (rc & Hrc & Hc) Hrun.
  unfold lockAndCheck, syncCtr, syncContainer, state_ContainerInUse, liftC,
    getCtr, setCtr, call, bind, ret, fail, get in Hrun.
  cbn in Hrun.
  destruct (fault env (trace w) (CallSyncContainer (ctr_ID c))) eqn:Hsync;
    cbn in Hrun.
  { simplify_eq. split; [|done].
    apply onlyQueries_call; [done|apply onlyQueries_refl]. }
  rewrite Hrc in Hrun. rewrite (setCtrState_fresh _ _ Hc) in Hrun.
  unfold ctrOK, inUse. rewrite Hrc.
  set (w1 := withTrace (CallSyncContainer (ctr_ID c) :: trace w) w) in *.
  assert (onlyQueries w w1) as Hq1
    by (apply onlyQueries_call; [done|apply onlyQueries_refl]).
  repeat (case_match; cbn in *; simplify_eq);
    (split; [|split; [done|]]);
    try (intros ? [=]; subst; done);
    try done;
    try (apply (onlyQueries_call w w1); done).
Qed.

(** The map the first loop builds from [acc] over the containers [cs]. *)
Lemma dependencies_lookup (w : World) (cs : list Container)
    (acc : gmap string (list string)) (k : string) :
  fold_left (fun m c => <[ctr_ID c := inUse w (ctr_ID c)]> m) cs acc !! k
  = if decide (k ∈ map ctr_ID cs) then Some (inUse w k) else acc !! k.
Proof.
  revert acc. induction cs as [|c cs IH]; intros acc; cbn.
  - case_decide; [|done]. by apply elem_of_nil in H.
  - rewrite IH. destruct (decide (ctr_ID c = k)) as [<-|Hne].
    + rewrite lookup_insert_eq.
      rewrite (decide_True (P := ctr_ID c ∈ ctr_ID c :: map ctr_ID cs));
        [|by left].
      by case_decide.
    + rewrite lookup_insert_ne by done.
      destruct (decide (k ∈ map ctr_ID cs)) as [Hin|Hnin].
      * rewrite decide_True; [done|by right].
      * rewrite decide_False; [done|].
        intros [Heq|Hin]%elem_of_cons; [by destruct Hne|by destruct Hnin].
Qed.

(** The first loop on containers fresh from the store: it only queries,
    leaves the objects as they were, and when it ends without an error
    every container passed the checks and the map holds the dependents of
    each. *)
Lemma lockAndCheck_loop env force cs :
  forall acc w r cs' w',
    Forall (freshView w) cs ->
    forCtrs (lockAndCheck env force) acc cs w = (r, cs', w') ->
    onlyQueries w w' /\ cs' = cs
    /\ forall m, r = Ok m ->
         forallb (ctrOK force) cs = true
         /\ m = fold_left (fun m c => <[ctr_ID c := inUse w (ctr_ID c)]> m)
                          cs acc.
Proof.
  induction cs as [|c cs IH]; intros acc w r cs' w' Hfresh Hrun.
  - cbn in Hrun. simplify_eq. split; [apply onlyQueries_refl|].
    split; [done|]. by intros m [= <-].
  - apply Forall_cons in Hfresh as [Hc Hcs]. cbn in Hrun.
    destruct (lockAndCheck env force acc (c, w)) as [[acc'|e] [c1 w1]] eqn:Hstep;
      destruct (lockAndCheck_step _ _ _ _ _ _ _ _ Hc Hstep) as (Hq1 & -> & Hok).
    + destruct (forCtrs (lockAndCheck env force) acc' cs w1)
        as [[r2 cs2] w2] eqn:Hrest.
      simplify_eq.
      assert (Forall (freshView w1) cs) as Hcs1.
      { eapply Forall_impl; [exact Hcs|]. intros x.
        by apply freshView_onlyQueries. }
      destruct (IH _ _ _ _ _ Hcs1 Hrest) as (Hq2 & -> & Hok2).
      destruct (Hok _ eq_refl) as [Hc_ok ->].
      split; [|split; [done|]].
      * by eapply onlyQueries_trans.
      * intros m ->. destruct (Hok2 _ eq_refl) as [Hcs_ok ->].
        cbn. rewrite Hc_ok, Hcs_ok. split; [done|].
        unfold inUse. by rewrite (onlyQueries_st_ctrs _ _ Hq1).
    + simplify_eq. split; [done|]. split; [done|]. by intros m [=].
Qed.

(** Without faults the first loop fails exactly on a container that does
    not pass the checks, and then with ErrCtrStateInvalid. *)
Lemma lockAndCheck_step_total env force acc c w :
  noFaults env -> freshView w c ->
  exists r w',
    lockAndCheck env force acc (c, w) = (r, (c, w'))
    /\ (ctrOK force c = true -> exists m, r = Ok m)
    /\ (ctrOK force c = false ->
        exists e, r = Err e /\ Cause e = ErrCtrStateInvalid).
Proof.
  intros Hnf (rc & Hrc & Hc).
  unfold lockAndCheck, syncCtr, syncContainer, state_ContainerInUse, liftC,
    getCtr, setCtr, call, bind, ret, fail, get.
  cbn. rewrite !Hnf. cbn. rewrite Hrc, (setCtrState_fresh _ _ Hc).
  unfold ctrOK.
  destruct (bool_decide (ctr_State c = ContainerStatePaused)); cbn.
  { do 2 eexists. split; [reflexivity|]. split; [done|eauto]. }
  destruct (bool_decide (ctr_State c = ContainerStateUnknown)); cbn.
  { do 2 eexists. split; [reflexivity|]. split; [done|eauto]. }
  destruct (bool_decide (ctr_State c = ContainerStateRunning) && negb force);
    cbn.
  { do 2 eexists. split; [reflexivity|]. split; [done|eauto]. }
  destruct (negb (length (ctr_ExecSessions c) =? 0)%nat && negb force); cbn.
  { do 2 eexists. split; [reflexivity|]. split; [done|eauto]. }
  rewrite Hnf. cbn.
  do 2 eexists. split; [reflexivity|]. split; [eauto|done].
Qed.

Lemma lockAndCheck_loop_total env force cs :
  noFaults env ->
  forall acc w,
    Forall (freshView w) cs ->
    exists r w',
      forCtrs (lockAndCheck env force) acc cs w = (r, cs, w')
      /\ (forallb (ctrOK force) cs = true -> exists m, r = Ok m)
      /\ (forallb (ctrOK force) cs = false ->
          exists e, r = Err e /\ Cause e = ErrCtrStateInvalid).
Proof.
  intros Hnf. induction cs as [|c cs IH]; intros acc w Hfresh.
  - cbn. do 2 eexists. split; [reflexivity|]. split; [eauto|done].
  - apply Forall_cons in Hfresh as [Hc Hcs].
    destruct (lockAndCheck_step_total env force acc c w Hnf Hc)
      as (r & w1 & Hstep & Hgood & Hbad).
    destruct (lockAndCheck_step _ _ _ _ _ _ _ _ Hc Hstep) as (Hq1 & _ & _).
    cbn. rewrite Hstep.
    destruct (ctrOK force c) eqn:Hok.
    + destruct (Hgood eq_refl) as [m ->].
      assert (Forall (freshView w1) cs) as Hcs1.
      { eapply Forall_impl; [exact Hcs|]. intros x.
        by apply freshView_onlyQueries. }
      destruct (IH m w1 Hcs1) as (r2 & w2 & -> & Hgood2 & Hbad2).
      do 2 eexists. split; [reflexivity|]. cbn. by split.
    + destruct (Hbad eq_refl) as (e & -> & He).
      do 2 eexists. split; [reflexivity|]. cbn. split; [done|]. eauto.
Qed.

Lemma paused_not_OK (force : bool) (id : string) (r : CtrRecord) :
  rec_State r = ContainerStatePaused -> ctrOK force (viewOf id r) = false.
Proof. intros H. unfold ctrOK. cbn. rewrite H. reflexivity. Qed.

Lemma forallb_false_In {A} (f : A -> bool) (l : list A) (x : A) :
  In x l -> f x = false -> forallb f l = false.
Proof.
  intros Hin Hx. destruct (forallb f l) eqn:E; [|done].
  rewrite forallb_forall in E. by rewrite (E _ Hin) in Hx.
Qed.

(** C3, amended. If the store holds a container of the pod whose state is
    Paused, RemovePod fails for every value of force and of removeCtrs, in
    every environment; up to the failure it has made queries only, so no
    container state has changed and nothing is removed, the pod is
    untouched and the container objects are as the store handed them out.
    On a valid runtime and a valid pod the error depends on removeCtrs:
    with removeCtrs set and without collaborator faults it is
    ErrCtrStateInvalid, for force true as for force false; with
    removeCtrs unset it is ErrCtrExists, the error of a pod that is not
    empty, returned once the store has answered for the pod's containers
    and before the state of any of them is looked at. *)
Theorem RemovePod_paused_container (env : Env) (p : Pod) (w : World)
    (id : string) (r : CtrRecord) :
  st_ctrs w !! id = Some r ->
  rec_Pod r = Some (pod_ID p) ->
  rec_State r = ContainerStatePaused ->
  forall removeCtrs force,
  exists e s',
    RemovePod env p removeCtrs force w = (Err e, s')
    /\ onlyQueries w (world s')
    /\ pod s' = p
    /\ Forall (freshView w) (ctrs s')
    /\ (r_valid w = true -> pod_valid p = true -> removeCtrs = true ->
        noFaults env -> Cause e = ErrCtrStateInvalid)
    /\ (r_valid w = true -> pod_valid p = true -> removeCtrs = false ->
        fault env (trace w) (CallPodContainers (pod_ID p)) = None ->
        e = Wrapf ErrCtrExists
              "pod %s contains containers and cannot be removed").
Proof.
  intros Hr Hpod Hpaused removeCtrs force.
  assert (In (viewOf id r) (members (pod_ID p) (st_ctrs w))) as Hin.
  { apply members_In. by exists r. }
  assert (forallb (ctrOK force) (members (pod_ID p) (st_ctrs w)) = false)
    as Hbad.
  { eapply forallb_false_In; [exact Hin|by apply paused_not_OK]. }
  unfold RemovePod, removeContainers, state_PodContainers, rangeCtrs, liftW,
    call, bind, get, modify, ret, fail.
  cbn -[Nat.ltb members forCtrs].
  destruct (r_valid w) eqn:Hvalid; cbn -[Nat.ltb members forCtrs].
  2:{ do 2 eexists. split; [reflexivity|]. cbn.
      split; [apply onlyQueries_refl|]. split; [done|]. split; [done|].
      split; intros; done. }
  destruct (pod_valid p) eqn:Hpvalid; cbn -[Nat.ltb members forCtrs].
  2:{ do 2 eexists. split; [reflexivity|]. cbn.
      split; [apply onlyQueries_refl|]. split; [done|]. split; [done|].
      split; intros; done. }
  set (w1 := withTrace (CallPodContainers (pod_ID p) :: trace w) w).
  assert (onlyQueries w w1) as Hq1
    by (apply onlyQueries_call; [done|apply onlyQueries_refl]).
  destruct (fault env (trace w) (CallPodContainers (pod_ID p))) eqn:Hfault;
    cbn -[Nat.ltb members forCtrs].
  { do 2 eexists. split; [reflexivity|]. cbn.
    split; [done|]. split; [done|]. split; [done|]. split.
    - intros _ _ _ Hnf. by rewrite Hnf in Hfault.
    - intros _ _ _ Hf. done. }
  fold w1.
  destruct (negb removeCtrs
            && (0 <? length (members (pod_ID p) (st_ctrs w)))%nat) eqn:Hempty;
    cbn -[Nat.ltb members forCtrs].
  { do 2 eexists. split; [reflexivity|]. cbn.
    split; [done|]. split; [done|]. split; [apply members_fresh|]. split.
    - intros _ _ -> _. done.
    - intros _ _ _ _. reflexivity. }
  destruct (forCtrs (lockAndCheck env force) ∅
              (members (pod_ID p) (st_ctrs w)) w1) as [[res cs'] w2] eqn:Hloop.
  assert (Forall (freshView w1) (members (pod_ID p) (st_ctrs w))) as Hfresh.
  { eapply Forall_impl; [apply members_fresh|]. intros x.
    by apply freshView_onlyQueries. }
  destruct (lockAndCheck_loop _ _ _ _ _ _ _ _ Hfresh Hloop) as (Hq2 & -> & Hok).
  destruct res as [m|e].
  { destruct (Hok _ eq_refl) as [Hall _]. congruence. }
  cbn. do 2 eexists. split; [reflexivity|]. cbn.
  split; [by eapply onlyQueries_trans|]. split; [done|].
  split; [apply members_fresh|]. split.
  - intros _ _ _ Hnf.
    destruct (lockAndCheck_loop_total env force _ Hnf ∅ w1 Hfresh)
      as (res' & w2' & Hloop' & _ & Hcause).
    rewrite Hloop in Hloop'. simplify_eq.
    destruct (Hcause Hbad) as (e' & [= <-] & He). exact He.
  - intros _ _ -> _. cbn in Hempty.
    destruct (members (pod_ID p) (st_ctrs w)); [by destruct Hin|].
    by cbn in Hempty.
Qed.

Lemma members_ID (pid : string) (w : World) (k : string) :
  k ∈ map ctr_ID (members pid (st_ctrs w)) <-> isMember w pid k.
Proof.
  rewrite list_elem_of_In, in_map_iff. split.
  - intros (c & <- & Hc). apply members_In in Hc as (r & Hr & Hpod & _).
    by exists r.
  - intros (r & Hr & Hpod). exists (viewOf k r). split; [done|].
    apply members_In. by exists r.
Qed.

Lemma depsInPod_false (m : gmap string (list string)) (k : string)
    (deps : list string) (d : string) :
  m !! k = Some deps -> In d deps -> m !! d = None -> depsInPod m = false.
Proof.
  intros Hk Hd Hnone. unfold depsInPod.
  apply (forallb_false_In _ _ (k, deps)).
  - by apply list_elem_of_In, elem_of_map_to_list.
  - cbn. apply (forallb_false_In _ _ d); [done|].
    apply bool_decide_eq_false. rewrite Hnone. by intros [? ?].
Qed.

Lemma members_OK_forced (pid : string) (w : World) :
  (forall id r,
      st_ctrs w !! id = Some r -> rec_Pod r = Some pid ->
      rec_State r <> ContainerStatePaused
      /\ rec_State r <> ContainerStateUnknown) ->
  forallb (ctrOK true) (members pid (st_ctrs w)) = true.
Proof.
  intros Hstates. apply forallb_forall. intros c Hc.
  apply members_In in Hc as (r & Hr & Hpod & ->).
  destruct (Hstates _ _ Hr Hpod) as [Hp Hu].
  unfold ctrOK. cbn.
  rewrite (bool_decide_eq_false_2 _ Hp), (bool_decide_eq_false_2 _ Hu).
  cbn. by rewrite !andb_false_r.
Qed.

(** C2, amended. If a container of the pod has a dependent that is not a
    container of the pod, RemovePod(pod, true, true) fails, in every
    environment, having made queries only: no container is cleaned up,
    deleted or removed from the State Store, and the pod is untouched and
    still in the store. When moreover the runtime and the pod are valid,
    no collaborator fails and no container of the pod is Paused or in an
    unknown state, the error is ErrCtrExists wrapped by the dependency
    check (the DependencyViolation kind). *)
Theorem RemovePod_outside_dependent (env : Env) (p : Pod) (w : World)
    (id : string) (r : CtrRecord) (dep : string) :
  st_ctrs w !! id = Some r ->
  rec_Pod r = Some (pod_ID p) ->
  In dep (rec_InUseBy r) ->
  ~ isMember w (pod_ID p) dep ->
  exists e s',
    RemovePod env p true true w = (Err e, s')
    /\ onlyQueries w (world s')
    /\ pod s' = p
    /\ Forall (freshView w) (ctrs s')
    /\ (noFaults env ->
        r_valid w = true ->
        pod_valid p = true ->
        (forall id' r',
            st_ctrs w !! id' = Some r' -> rec_Pod r' = Some (pod_ID p) ->
            rec_State r' <> ContainerStatePaused
            /\ rec_State r' <> ContainerStateUnknown) ->
        e = Wrapf ErrCtrExists
              "container %s depends on container %s not in pod %s").
Proof.
  intros Hr Hpod Hdep Hout.
  unfold RemovePod, removeContainers, state_PodContainers, rangeCtrs, liftW,
    call, bind, get, modify, ret, fail.
  cbn -[Nat.ltb members forCtrs].
  destruct (r_valid w) eqn:Hvalid; cbn -[Nat.ltb members forCtrs].
  2:{ do 2 eexists. split; [reflexivity|]. cbn.
      split; [apply onlyQueries_refl|]. split; [done|]. split; [done|].
      intros; done. }
  destruct (pod_valid p) eqn:Hpvalid; cbn -[Nat.ltb members forCtrs].
  2:{ do 2 eexists. split; [reflexivity|]. cbn.
      split; [apply onlyQueries_refl|]. split; [done|]. split; [done|].
      intros; done. }
  set (w1 := withTrace (CallPodContainers (pod_ID p) :: trace w) w).
  assert (onlyQueries w w1) as Hq1
    by (apply onlyQueries_call; [done|apply onlyQueries_refl]).
  destruct (fault env (trace w) (CallPodContainers (pod_ID p))) eqn:Hfault;
    cbn -[Nat.ltb members forCtrs].
  { do 2 eexists. split; [reflexivity|]. cbn.
    split; [done|]. split; [done|]. split; [done|].
    intros Hnf. by rewrite Hnf in Hfault. }
  fold w1.
  destruct (forCtrs (lockAndCheck env true) ∅
              (members (pod_ID p) (st_ctrs w)) w1) as [[res cs'] w2] eqn:Hloop.
  assert (Forall (freshView w1) (members (pod_ID p) (st_ctrs w))) as Hfresh.
  { eapply Forall_impl; [apply members_fresh|]. intros x.
    by apply freshView_onlyQueries. }
  destruct (lockAndCheck_loop _ _ _ _ _ _ _ _ Hfresh Hloop) as (Hq2 & -> & Hok).
  destruct res as [m|e]; cbn -[Nat.ltb members forCtrs].
  - destruct (Hok _ eq_refl) as [_ Hm].
    rewrite (depsInPod_false m id (rec_InUseBy r) dep); cbn.
    + do 2 eexists. split; [reflexivity|]. cbn.
      split; [by eapply onlyQueries_trans|]. split; [done|].
      split; [apply members_fresh|]. done.
    + rewrite Hm, dependencies_lookup. rewrite decide_True.
      * unfold inUse. cbn. by rewrite Hr.
      * apply (members_ID _ w). by exists r.
    + done.
    + rewrite Hm, dependencies_lookup. rewrite decide_False; [done|].
      by intros Hin%(members_ID _ w).
  - do 2 eexists. split; [reflexivity|]. cbn.
    split; [by eapply onlyQueries_trans|]. split; [done|].
    split; [apply members_fresh|].
    intros Hnf _ _ Hstates.
    destruct (lockAndCheck_loop_total env true _ Hnf ∅ w1 Hfresh)
      as (res' & w2' & Hloop' & Hgood & _).
    rewrite Hloop in Hloop'. simplify_eq.
    by destruct (Hgood (members_OK_forced _ _ Hstates)) as [m ?].
Qed.

(** *** The run of [removeContainers] *)

Lemma rangeCtrs_sameRuntime {A} (body : A -> M (Container * World) A)
    (w0 : World) :
  (forall acc c w r c' w',
      body acc (c, w) = (r, (c', w')) ->
      sameRuntime w0 w -> sameRuntime w0 w' /\ ctr_ID c' = ctr_ID c) ->
  forall acc s r s',
    rangeCtrs body acc s = (r, s') ->
    sameRuntime w0 (world s) ->
    sameRuntime w0 (world s') /\ pod s' = pod s
    /\ map ctr_ID (ctrs s') = map ctr_ID (ctrs s).
Proof.
  intros Hbody acc s r s' Hrun H0. unfold rangeCtrs in Hrun.
  destruct (forCtrs body acc (ctrs s) (world s)) as [[r1 cs1] w1] eqn:Hloop.
  simplify_eq. cbn.
  destruct (forCtrs_invariant body (sameRuntime w0) Hbody _ _ _ _ _ _ Hloop H0).
  done.
Qed.

Lemma map_ID_setCtrValid (b : bool) (cs : list Container) :
  map ctr_ID (map (setCtrValid b) cs) = map ctr_ID cs.
Proof. rewrite map_map. reflexivity. Qed.

(** When [removeContainers] ends without an error, the pod is untouched,
    the runtime and the pods of the store are as before, every container
    that was a member is out of the store, and the objects of all of them
    are marked invalid. *)
Lemma removeContainers_Ok env removeCtrs force w p s5 :
  removeContainers env removeCtrs force (mkMachine w p []) = (Ok tt, s5) ->
  pod s5 = p
  /\ sameRuntime w (world s5)
  /\ Forall (fun c => ctr_valid c = false) (ctrs s5)
  /\ (forall k, ~ isMember (world s5) (pod_ID p) k)
  /\ map ctr_ID (ctrs s5) = map ctr_ID (members (pod_ID p) (st_ctrs w)).
Proof.
  intros Hrun. unfold removeContainers in Hrun.
  apply bind_Ok_inv in Hrun as (s0 & s0' & Hget & Hrun).
  unfold get in Hget. simplify_eq. cbn [pod] in Hrun.
  apply bind_Ok_inv in Hrun as (cs & s1 & Hpc & Hrun).
  unfold liftW, state_PodContainers, call, bind, get, ret in Hpc.
  cbn in Hpc.
  destruct (fault env (trace w) (CallPodContainers (pod_ID p))); [done|].
  cbn in Hpc. simplify_eq.
  set (w1 := withTrace (CallPodContainers (pod_ID p) :: trace w) w) in *.
  apply bind_Ok_inv in Hrun as ([] & s2 & Hmod & Hrun).
  unfold modify in Hmod. simplify_eq. cbn [world pod] in Hrun.
  destruct (negb removeCtrs
            && (0 <? length (members (pod_ID p) (st_ctrs w)))%nat);
    [by unfold fail in Hrun|].
  apply bind_Ok_inv in Hrun as (deps & s3 & Hloop1 & Hrun).
  assert (sameRuntime w w1) as H1 by (by repeat split).
  destruct (rangeCtrs_sameRuntime _ w (lockAndCheck_sameRuntime env force w)
              _ _ _ _ Hloop1 H1) as (H3 & Hp3 & Hid3).
  cbn in Hp3, Hid3.
  apply bind_Ok_inv in Hrun as ([] & s3' & Hdeps & Hrun).
  assert (s3' = s3) as ->.
  { destruct (depsInPod deps); unfold ret, fail in Hdeps; by simplify_eq. }
  apply bind_Ok_inv in Hrun as ([] & s4 & Hstop & Hrun).
  assert (sameRuntime w (world s4) /\ pod s4 = pod s3
          /\ map ctr_ID (ctrs s4) = map ctr_ID (ctrs s3)) as (H4 & Hp4 & Hid4).
  { destruct force.
    - exact (rangeCtrs_sameRuntime _ w (stopCtr_sameRuntime env w)
               _ _ _ _ Hstop H3).
    - unfold ret in Hstop. by simplify_eq. }
  apply bind_Ok_inv in Hrun as ([] & s5' & Hrem & Hrun).
  destruct (rangeCtrs_sameRuntime _ w (removeCtr_sameRuntime env w)
              _ _ _ _ Hrem H4) as (H5 & Hp5 & Hid5).
  apply bind_Ok_inv in Hrun as ([] & s6 & Hrpc & Hrun).
  unfold liftW, state_RemovePodContainers, call, bind, modify in Hrpc.
  cbn in Hrpc.
  destruct (fault env (trace (world s5'))
              (CallRemovePodContainers (pod_ID p))); [done|].
  cbn in Hrpc. unfold modify in Hrun. simplify_eq. cbn.
  split; [congruence|]. split.
  { eapply sameRuntime_trans; [exact H5|by repeat split]. }
  split.
  { apply Forall_forall. intros c Hc%list_elem_of_In%in_map_iff.
    by destruct Hc as (c0 & <- & _). }
  split.
  { intros k (r & Hr & Hpod). cbn in Hr.
    apply map_lookup_filter_Some in Hr as [_ Hne]. by cbn in Hne. }
  rewrite map_ID_setCtrValid. congruence.
Qed.

(** What [removeContainers] never touches, whatever its result. *)

Lemma keepsRuntime_ret {A} (a : A) : keepsRuntime (ret a).
Proof. intros s r s' [= <- <-]. split; [done|apply sameRuntime_refl]. Qed.

Lemma keepsRuntime_fail {A} (e : error) : keepsRuntime (@fail Machine A e).
Proof. intros s r s' [= <- <-]. split; [done|apply sameRuntime_refl]. Qed.

Lemma keepsRuntime_get : keepsRuntime (@get Machine).
Proof. intros s r s' [= <- <-]. split; [done|apply sameRuntime_refl]. Qed.

Lemma keepsRuntime_bind {A B} (m : M Machine A) (k : A -> M Machine B) :
  keepsRuntime m -> (forall a, keepsRuntime (k a)) -> keepsRuntime (bind m k).
Proof.
  intros Hm Hk s r s' Hrun. unfold bind in Hrun.
  destruct (m s) as [[a|e] s1] eqn:E; destruct (Hm _ _ _ E) as [Hp1 H1].
  - destruct (Hk _ _ _ _ Hrun) as [Hp2 H2].
    split; [congruence|by eapply sameRuntime_trans].
  - by simplify_eq.
Qed.

Lemma keepsRuntime_setCtrs (f : Machine -> list Container) :
  keepsRuntime (modify (fun s => mkMachine (world s) (pod s) (f s))).
Proof. intros s r s' [= <- <-]. split; [done|apply sameRuntime_refl]. Qed.

Lemma keepsRuntime_liftW {A} (m : M World A) :
  keepsRuntimeW m -> keepsRuntime (liftW m).
Proof.
  intros Hm s r s' Hrun. unfold liftW in Hrun.
  destruct (m (world s)) as [r1 w1] eqn:E. simplify_eq. cbn.
  split; [done|by eapply Hm].
Qed.

Lemma keepsRuntime_rangeCtrs {A} (body : A -> M (Container * World) A)
    (acc : A) :
  (forall w0 acc c w r c' w',
      body acc (c, w) = (r, (c', w')) ->
      sameRuntime w0 w -> sameRuntime w0 w' /\ ctr_ID c' = ctr_ID c) ->
  keepsRuntime (rangeCtrs body acc).
Proof.
  intros Hbody s r s' Hrun.
  destruct (rangeCtrs_sameRuntime body (world s) (Hbody (world s))
              _ _ _ _ Hrun (sameRuntime_refl _)) as (H & Hp & _).
  done.
Qed.

Lemma keepsRuntimeW_PodContainers env p :
  keepsRuntimeW (state_PodContainers env p).
Proof.
  intros w r w' Hrun.
  unfold state_PodContainers, call, bind, get, ret in Hrun. cbn in Hrun.
  by destruct (fault env _ _); simplify_eq.
Qed.

Lemma keepsRuntimeW_RemovePodContainers env p :
  keepsRuntimeW (state_RemovePodContainers env p).
Proof.
  intros w r w' Hrun.
  unfold state_RemovePodContainers, call, bind, modify in Hrun. cbn in Hrun.
  by destruct (fault env _ _); simplify_eq.
Qed.

Lemma removeContainers_keepsRuntime env removeCtrs force :
  keepsRuntime (removeContainers env removeCtrs force).
Proof.
  unfold removeContainers.
  apply keepsRuntime_bind; [apply keepsRuntime_get|]; intros s.
  apply keepsRuntime_bind;
    [apply keepsRuntime_liftW, keepsRuntimeW_PodContainers|]; intros cs.
  apply keepsRuntime_bind; [apply keepsRuntime_setCtrs|]; intros _.
  destruct (negb removeCtrs && _); [apply keepsRuntime_fail|].
  apply keepsRuntime_bind.
  { apply keepsRuntime_rangeCtrs. intros w0 acc c w r c' w'.
    apply lockAndCheck_sameRuntime. }
  intros deps. apply keepsRuntime_bind.
  { destruct (depsInPod deps); [apply keepsRuntime_ret|apply keepsRuntime_fail]. }
  intros _. apply keepsRuntime_bind.
  { destruct force; [|apply keepsRuntime_ret].
    apply keepsRuntime_rangeCtrs. intros w0 acc c w r c' w'.
    apply stopCtr_sameRuntime. }
  intros _. apply keepsRuntime_bind.
  { apply keepsRuntime_rangeCtrs. intros w0 acc c w r c' w'.
    apply removeCtr_sameRuntime. }
  intros _. apply keepsRuntime_bind.
  { apply keepsRuntime_liftW, keepsRuntimeW_RemovePodContainers. }
  intros _. apply keepsRuntime_setCtrs.
Qed.

(** *** The last two phases of [RemovePod] *)

Lemma RemovePod_phases env p removeCtrs force w :
  r_valid w = true ->
  pod_valid p = true ->
  RemovePod env p removeCtrs force w
  = bind (removeContainers env removeCtrs force)
         (fun _ => bind (removePodCgroup env)
                        (fun _ => removePodFromState env))
         (mkMachine w p []).
Proof.
  intros Hvalid Hpvalid. unfold RemovePod.
  unfold bind at 1. unfold get. cbn [world pod].
  by rewrite Hvalid, Hpvalid.
Qed.


(** C7. In cgroupfs mode, for a valid pod with a CgroupPath, once the
    containers phase has passed: when loading the cgroup reports
    ErrCgroupDeleted, RemovePod goes on to remove the pod from the state
    and its result is the result of that step (success when the store
    does not fail); any other load error, and any error of the delete, is
    returned and ends the operation with the pod still valid. *)
Theorem RemovePod_cgroup_already_deleted (env : Env) (p : Pod)
    (removeCtrs force : bool) (w : World) (s5 : Machine) :
  r_valid w = true ->
  pod_valid p = true ->
  CgroupPath (pod_state p) <> "" ->
  r_CgroupManager w = CgroupfsCgroupsManager ->
  removeContainers env removeCtrs force (mkMachine w p []) = (Ok tt, s5) ->
  (forall w6,
      cgroups_Load env (CgroupPath (pod_state p)) (world s5)
      = (Err ErrCgroupDeleted, w6) ->
      RemovePod env p removeCtrs force w
      = removePodFromState env (mkMachine w6 p (ctrs s5))
      /\ (fault env (trace w6) (CallRemovePod (pod_ID p)) = None ->
          exists s', RemovePod env p removeCtrs force w = (Ok tt, s')))
  /\ (forall e w6,
        cgroups_Load env (CgroupPath (pod_state p)) (world s5) = (Err e, w6) ->
        e <> ErrCgroupDeleted ->
        RemovePod env p removeCtrs force w
        = (Err e, mkMachine w6 p (ctrs s5)))
  /\ (forall e w6 w7,
        cgroups_Load env (CgroupPath (pod_state p)) (world s5) = (Ok tt, w6) ->
        cgroup_Delete env (CgroupPath (pod_state p)) w6 = (Err e, w7) ->
        RemovePod env p removeCtrs force w
        = (Err e, mkMachine w7 p (ctrs s5))).
Proof.
  intros Hvalid Hpvalid Hpath Hmgr Hrun.
  destruct (removeContainers_Ok _ _ _ _ _ _ Hrun)
    as (Hp & (_ & Hmgr5 & _) & _).
  rewrite RemovePod_phases by done.
  rewrite (bind_Ok _ _ _ _ _ Hrun).
  assert (
    removePodCgroup env s5
    = match liftW (cgroups_Load env (CgroupPath (pod_state p))) s5 with
      | (Err err, s') =>
          if bool_decide (err <> ErrCgroupDeleted) then (Err err, s')
          else (Ok tt, s')
      | (Ok _, s') => liftW (cgroup_Delete env (CgroupPath (pod_state p))) s'
      end) as Hcg.
  { unfold removePodCgroup, bind, get.
    rewrite Hp, Hmgr5, Hmgr.
    apply String.eqb_neq in Hpath. rewrite Hpath. reflexivity. }
  unfold liftW in Hcg. rewrite Hp in Hcg.
  split; [|split].
  - intros w6 Hload. rewrite Hload in Hcg.
    rewrite bool_decide_eq_false_2 in Hcg by (by intros []).
    rewrite (bind_Ok _ _ _ _ _ Hcg). split; [done|].
    intros Hstore. eexists.
    unfold removePodFromState, liftW, state_RemovePod, call, bind, get,
      modify. cbn. rewrite Hstore. reflexivity.
  - intros e w6 Hload He. rewrite Hload in Hcg.
    rewrite bool_decide_eq_true_2 in Hcg by done.
    by apply bind_Err.
  - intros e w6 w7 Hload Hdel. rewrite Hload in Hcg. cbn in Hcg.
    rewrite Hdel in Hcg. by apply bind_Err.
Qed.

(** *** Queries after a removal *)

Lemma lookupPod_In (idOrName : string) (pods : list Pod) (q : Pod) :
  lookupPod idOrName pods = Ok q -> In q pods.
Proof.
  unfold lookupPod. intros H.
  destruct (List.find (hasID idOrName) pods) as [q1|] eqn:E1.
  { simplify_eq. by apply List.find_some in E1 as [? _]. }
  destruct (List.find (hasName idOrName) pods) as [q2|] eqn:E2.
  { simplify_eq. by apply List.find_some in E2 as [? _]. }
  destruct (List.filter (fun p => String.prefix idOrName (pod_ID p)) pods)
    as [|q3 [|? ?]] eqn:E3; simplify_eq.
  assert (In q (List.filter (fun p => String.prefix idOrName (pod_ID p)) pods))
    as Hq by (rewrite E3; by left).
  by apply List.filter_In in Hq as [? _].
Qed.

Lemma removed_not_In (id : string) (pods : list Pod) (q : Pod) :
  In q (List.filter (fun q => negb (hasID id q)) pods) -> pod_ID q <> id.
Proof.
  intros [_ Hq]%List.filter_In. unfold hasID in Hq.
  apply negb_true_iff in Hq. by apply String.eqb_neq.
Qed.

Lemma find_removed (id : string) (pods : list Pod) :
  List.find (hasID id) (List.filter (fun q => negb (hasID id q)) pods) = None.
Proof.
  destruct (List.find _ _) as [q|] eqn:E; [|done].
  apply List.find_some in E as [Hin Hq].
  apply removed_not_In in Hin. unfold hasID in Hq.
  by apply String.eqb_eq in Hq.
Qed.

Lemma existsb_removed (id : string) (pods : list Pod) :
  existsb (hasID id) (List.filter (fun q => negb (hasID id q)) pods) = false.
Proof.
  destruct (existsb _ _) eqn:E; [|done].
  apply List.existsb_exists in E as (q & Hin & Hq).
  apply removed_not_In in Hin. unfold hasID in Hq.
  by apply String.eqb_eq in Hq.
Qed.

Lemma depsInPod_empty : depsInPod ∅ = true.
Proof. unfold depsInPod. by rewrite map_to_list_empty. Qed.

(** A pod without containers passes [removeContainers] with two calls on
    the store. *)
Lemma removeContainers_no_members env removeCtrs force w p :
  noFaults env ->
  members (pod_ID p) (st_ctrs w) = [] ->
  exists w5,
    removeContainers env removeCtrs force (mkMachine w p [])
    = (Ok tt, mkMachine w5 p [])
    /\ sameRuntime w w5
    /\ trace w5 = CallRemovePodContainers (pod_ID p)
                   :: CallPodContainers (pod_ID p) :: trace w.
Proof.
  intros Hnf Hmembers.
  unfold removeContainers, state_PodContainers, state_RemovePodContainers,
    rangeCtrs, liftW, call, bind, get, modify, ret, fail.
  cbn -[members depsInPod]. rewrite Hnf. cbn -[members depsInPod].
  rewrite Hmembers. cbn. rewrite andb_false_r. cbn.
  rewrite depsInPod_empty.
  destruct force; cbn; rewrite Hnf; cbn;
    (eexists; split; [reflexivity|]); by cbn.
Qed.

(** C4, amended. For a valid pod with no container, on a valid runtime
    whose collaborators do not fail, and provided the pod has no
    CgroupPath or the cgroup manager is systemd or cgroupfs,
    RemovePod(pod, false, false) succeeds, marks the pod invalid and
    removes it from the State Store: afterwards GetPod answers
    ErrNoSuchPod, HasPod answers false, and no LookupPod returns a pod
    with that ID. *)
Theorem RemovePod_empty_pod (env : Env) (p : Pod) (w : World) :
  noFaults env ->
  r_valid w = true ->
  pod_valid p = true ->
  (forall k, ~ isMember w (pod_ID p) k) ->
  CgroupPath (pod_state p) = ""
  \/ r_CgroupManager w = SystemdCgroupsManager
  \/ r_CgroupManager w = CgroupfsCgroupsManager ->
  exists s',
    RemovePod env p false false w = (Ok tt, s')
    /\ pod s' = setPodValid false p
    /\ (forall q, In q (st_pods (world s')) -> pod_ID q <> pod_ID p)
    /\ (GetPod env (pod_ID p) (world s')).1 = Err ErrNoSuchPod
    /\ (HasPod env (pod_ID p) (world s')).1 = Ok false
    /\ (forall idOrName q,
          (LookupPod env idOrName (world s')).1 = Ok q ->
          pod_ID q <> pod_ID p).
Proof.
  intros Hnf Hvalid Hpvalid Hnone Hcgroup.
  assert (members (pod_ID p) (st_ctrs w) = []) as Hmembers.
  { apply members_nil. intros id r Hr Hpod. apply (Hnone id). by exists r. }
  destruct (removeContainers_no_members env false false w p Hnf Hmembers)
    as (w5 & Hrun5 & (Hvalid5 & Hmgr5 & Hpods5 & Hcg5) & _).
  assert (exists s',
    RemovePod env p false false w = (Ok tt, s')
    /\ pod s' = setPodValid false p
    /\ r_valid (world s') = true
    /\ st_pods (world s')
       = List.filter (fun q => negb (hasID (pod_ID p) q)) (st_pods w))
    as (s' & Hrun & Hpod & Hvalid' & Hpods).
  { rewrite RemovePod_phases by done.
    rewrite (bind_Ok _ _ _ _ _ Hrun5).
    unfold removePodCgroup, removePodFromState, state_RemovePod,
      cgroups_Load, cgroup_Delete, liftW, call, bind, get, modify, ret, fail.
    cbn. rewrite Hmgr5.
    destruct (String.eqb (CgroupPath (pod_state p)) "") eqn:Hpath; cbn.
    { rewrite Hnf. cbn. eexists. split; [reflexivity|]. cbn. by rewrite Hvalid5, Hpods5. }
    destruct (String.eqb (r_CgroupManager w) SystemdCgroupsManager) eqn:Hsys;
      cbn.
    { rewrite Hnf. cbn. eexists. split; [reflexivity|]. cbn. by rewrite Hvalid5, Hpods5. }
    destruct (String.eqb (r_CgroupManager w) CgroupfsCgroupsManager) eqn:Hfs;
      cbn.
    2:{ apply String.eqb_neq in Hpath, Hsys, Hfs.
        by destruct Hcgroup as [?|[?|?]]. }
    rewrite Hnf. cbn.
    assert (bool_decide (ErrCgroupDeleted <> ErrCgroupDeleted) = false)
      as Hdeleted by (by apply bool_decide_eq_false_2; intros H).
    destruct (bool_decide (CgroupPath (pod_state p) ∈ cgroups w5)); cbn;
      rewrite ?Hdeleted, ?Hnf; cbn; eexists; (split; [reflexivity|]); cbn;
      by rewrite Hvalid5, Hpods5. }
  exists s'. split; [done|]. split; [done|]. split.
  { intros q. rewrite Hpods. apply removed_not_In. }
  unfold GetPod, HasPod, LookupPod, state_Pod, state_HasPod, state_LookupPod,
    liftResult, call, bind, get, ret, fail.
  cbn. rewrite Hvalid'. cbn. rewrite !Hnf. cbn. rewrite Hpods.
  rewrite find_removed, existsb_removed. split; [done|]. split; [done|].
  intros idOrName q. rewrite ?Hnf. cbn. intros Hq%lookupPod_In.
  rewrite Hpods in Hq. by apply removed_not_In in Hq.
Qed.

(** *** The theorems at concrete worlds *)

Lemma env0_noFaults : noFaults Examples.env0.
Proof. intros t c. reflexivity. Qed.

Lemma depWorld_C_outside (stateA : ContainerStatus) :
  ~ isMember (Examples.depWorld stateA) "p1" "C".
Proof. intros (r & Hr & Hpod). vm_compute in Hr. by simplify_eq. Qed.

Lemma depWorld_states (id : string) (r : CtrRecord) :
  st_ctrs (Examples.depWorld ContainerStateStopped) !! id = Some r ->
  rec_Pod r = Some "p1" ->
  rec_State r <> ContainerStatePaused /\ rec_State r <> ContainerStateUnknown.
Proof.
  cbn. intros Hr Hpod.
  repeat (rewrite lookup_insert in Hr;
          destruct (decide _) in Hr; [by simplify_eq|]).
  by rewrite lookup_empty in Hr.
Qed.

Lemma podsWorld_idle_empty (manager k : string) :
  ~ isMember (Examples.podsWorld manager) "p3" k.
Proof.
  intros (r & Hr & Hpod). cbn in Hr.
  repeat (rewrite lookup_insert in Hr;
          destruct (decide _) in Hr; [by simplify_eq|]).
  by rewrite lookup_empty in Hr.
Qed.

Lemma RemovePod_paused_container_witness :
  (exists e s',
      RemovePod Examples.env0 Examples.web true true
                (Examples.depWorld ContainerStatePaused) = (Err e, s')
      /\ Cause e = ErrCtrStateInvalid
      /\ onlyQueries (Examples.depWorld ContainerStatePaused) (world s'))
  /\ (exists e s',
        RemovePod Examples.env0 Examples.web true false
                  (Examples.depWorld ContainerStatePaused) = (Err e, s')
        /\ Cause e = ErrCtrStateInvalid
        /\ onlyQueries (Examples.depWorld ContainerStatePaused) (world s'))
  /\ (exists s',
        RemovePod Examples.env0 Examples.web false true
                  (Examples.depWorld ContainerStatePaused)
        = (Err (Wrapf ErrCtrExists
                  "pod %s contains containers and cannot be removed"), s')
        /\ onlyQueries (Examples.depWorld ContainerStatePaused) (world s')).
Proof.
  split; [|split].
  - destruct (RemovePod_paused_container Examples.env0 Examples.web
                (Examples.depWorld ContainerStatePaused) "A"
                (Examples.rec ContainerStatePaused (Some "p1") ["C"])
                eq_refl eq_refl eq_refl true true)
      as (e & s' & Hrun & Hq & _ & _ & Hcause & _).
    exists e, s'. split; [exact Hrun|]. split; [|exact Hq].
    exact (Hcause eq_refl eq_refl eq_refl env0_noFaults).
  - destruct (RemovePod_paused_container Examples.env0 Examples.web
                (Examples.depWorld ContainerStatePaused) "A"
                (Examples.rec ContainerStatePaused (Some "p1") ["C"])
                eq_refl eq_refl eq_refl true false)
      as (e & s' & Hrun & Hq & _ & _ & Hcause & _).
    exists e, s'. split; [exact Hrun|]. split; [|exact Hq].
    exact (Hcause eq_refl eq_refl eq_refl env0_noFaults).
  - destruct (RemovePod_paused_container Examples.env0 Examples.web
                (Examples.depWorld ContainerStatePaused) "A"
                (Examples.rec ContainerStatePaused (Some "p1") ["C"])
                eq_refl eq_refl eq_refl false true)
      as (e & s' & Hrun & Hq & _ & _ & _ & Hexists).
    exists s'. rewrite <- (Hexists eq_refl eq_refl eq_refl eq_refl).
    split; [exact Hrun | exact Hq].
Defined.

(** C3 without its amendment fails. Container [A] of pod [p1] is paused;
    the runtime and the pod are valid and every collaborator works.
    Without removeCtrs, RemovePod fails with ErrCtrExists, the error of a
    pod that is not empty, and not with ErrCtrStateInvalid, for force
    true as for force false. *)
Lemma RemovePod_paused_container_counterexample :
  r_valid (Examples.depWorld ContainerStatePaused) = true
  /\ pod_valid Examples.web = true
  /\ st_ctrs (Examples.depWorld ContainerStatePaused) !! "A"
     = Some (Examples.rec ContainerStatePaused (Some (pod_ID Examples.web))
               ["C"])
  /\ (exists e s',
        RemovePod Examples.env0 Examples.web false true
                  (Examples.depWorld ContainerStatePaused) = (Err e, s')
        /\ Cause e = ErrCtrExists
        /\ Cause e <> ErrCtrStateInvalid)
  /\ (exists e s',
        RemovePod Examples.env0 Examples.web false false
                  (Examples.depWorld ContainerStatePaused) = (Err e, s')
        /\ Cause e = ErrCtrExists
        /\ Cause e <> ErrCtrStateInvalid).
Proof.
  split; [reflexivity|]. split; [reflexivity|]. split; [reflexivity|].
  split; (do 2 eexists; split; [by vm_compute|]; by cbn).
Qed.

(** C2 without its amendment fails. Container [A] of pod [p1] is paused
    and has the dependent [C], which is not in the pod; every collaborator
    works. RemovePod(pod, true, true) fails with ErrCtrStateInvalid, not
    with the error of the dependency check. *)
Lemma RemovePod_outside_dependent_counterexample :
  isMember (Examples.depWorld ContainerStatePaused) "p1" "A"
  /\ In "C" (inUse (Examples.depWorld ContainerStatePaused) "A")
  /\ ~ isMember (Examples.depWorld ContainerStatePaused) "p1" "C"
  /\ exists e s',
       RemovePod Examples.env0 Examples.web true true
                 (Examples.depWorld ContainerStatePaused) = (Err e, s')
       /\ Cause e = ErrCtrStateInvalid
       /\ Cause e <> ErrCtrExists.
Proof.
  split.
  { exists (Examples.rec ContainerStatePaused (Some "p1") ["C"]).
    split; reflexivity. }
  split; [by left|]. split; [apply depWorld_C_outside|].
  do 2 eexists. split; [by vm_compute|]. by cbn.
Qed.

Lemma RemovePod_outside_dependent_witness :
  exists s',
    RemovePod Examples.env0 Examples.web true true
              (Examples.depWorld ContainerStateStopped)
    = (Err (Wrapf ErrCtrExists
              "container %s depends on container %s not in pod %s"), s')
    /\ onlyQueries (Examples.depWorld ContainerStateStopped) (world s')
    /\ pod s' = Examples.web.
Proof.
  destruct (RemovePod_outside_dependent Examples.env0 Examples.web
              (Examples.depWorld ContainerStateStopped) "A"
              (Examples.rec ContainerStateStopped (Some "p1") ["C"]) "C"
              eq_refl eq_refl (or_introl eq_refl)
              (depWorld_C_outside ContainerStateStopped))
    as (e & s' & Hrun & Hq & Hpod & _ & Herr).
  exists s'. rewrite <- (Herr env0_noFaults eq_refl eq_refl depWorld_states).
  split; [exact Hrun|]. split; [exact Hq | exact Hpod].
Defined.

(** C4 without its amendment fails. Pod [p3] is valid, has no container
    and has a CgroupPath; the runtime is valid, its cgroup manager is
    neither cgroupfs nor systemd, and every collaborator works.
    RemovePod(pod, false, false) fails with ErrInvalidArg; the pod stays
    valid and HasPod still finds it. *)
Lemma RemovePod_empty_pod_counterexample :
  r_valid (Examples.podsWorld "none") = true
  /\ pod_valid Examples.idle = true
  /\ members (pod_ID Examples.idle) (st_ctrs (Examples.podsWorld "none")) = []
  /\ (RemovePod Examples.env0 Examples.idle false false
        (Examples.podsWorld "none")).1
     = Err (Wrapf ErrInvalidArg "unknown cgroups manager %s specified")
  /\ pod_valid (pod (RemovePod Examples.env0 Examples.idle false false
                       (Examples.podsWorld "none")).2) = true
  /\ (HasPod Examples.env0 "p3"
        (world (RemovePod Examples.env0 Examples.idle false false
                  (Examples.podsWorld "none")).2)).1 = Ok true.
Proof. by vm_compute. Qed.

Lemma RemovePod_empty_pod_witness :
  exists s',
    RemovePod Examples.env0 Examples.idle false false
              (Examples.podsWorld CgroupfsCgroupsManager) = (Ok tt, s')
    /\ pod_valid (pod s') = false
    /\ (HasPod Examples.env0 "p3" (world s')).1 = Ok false.
Proof.
  destruct (RemovePod_empty_pod Examples.env0 Examples.idle
              (Examples.podsWorld CgroupfsCgroupsManager)
              env0_noFaults eq_refl eq_refl
              (podsWorld_idle_empty CgroupfsCgroupsManager)
              (or_intror (or_intror eq_refl)))
    as (s' & Hrun & Hpod & _ & _ & Hhas & _).
  exists s'. split; [exact Hrun|]. split; [by rewrite Hpod | exact Hhas].
Defined.

Lemma afterContainers_run (manager : string) :
  removeContainers Examples.env0 true true
    (mkMachine (Examples.podsWorld manager) Examples.db [])
  = (Ok tt, Examples.afterContainers manager).
Proof. by vm_compute. Qed.


Lemma RemovePod_cgroup_already_deleted_witness :
  exists s',
    RemovePod Examples.env0 Examples.db true true
              (Examples.podsWorld CgroupfsCgroupsManager) = (Ok tt, s').
Proof.
  destruct (RemovePod_cgroup_already_deleted Examples.env0 Examples.db
              true true (Examples.podsWorld CgroupfsCgroupsManager)
              (Examples.afterContainers CgroupfsCgroupsManager)
              eq_refl eq_refl ltac:(discriminate) eq_refl
              (afterContainers_run CgroupfsCgroupsManager))
    as (Hdeleted & _ & _).
  destruct (Hdeleted _ ltac:(by vm_compute)) as [_ Hok].
  exact (Hok eq_refl).
Defined.

(** ** Further properties of the pod API *)

(** *** Pod creation: options, names and cgroup parents *)

(** The options run in order up to the first that fails. *)
Lemma runOptions_app (pre post : list PodCreateOption) (p : Pod) :
  runOptions (pre ++ post) p
  = match runOptions pre p with
    | Ok p1 => runOptions post p1
    | Err e => Err e
    end.
Proof.
  revert p. induction pre as [|o pre IH]; intros p; cbn; [done|].
  destruct (o p); [apply IH|done].
Qed.

Ltac cbn_go :=
  cbn -[runOptions GoPath.HasSuffix GoPath.Base GoPath.Join Nat.ltb].

Ltac cbn_go_all :=
  cbn -[runOptions GoPath.HasSuffix GoPath.Base GoPath.Join Nat.ltb] in *.

Ltac run_NewPod :=
  unfold NewPod, newPod, generateName, state_AddPod, wrapErr, liftResult,
    call, bind, get, modify, ret, fail;
  cbn_go.

(** X1. A failing option ends pod creation. *)
Theorem NewPod_failing_option (env : Env)
    (pre post : list PodCreateOption) (bad : PodCreateOption)
    (w : World) (p1 : Pod) (e : error) :
  r_valid w = true ->
  fault env (trace w) CallNewPod = None ->
  runOptions pre (freshPod env w) = Ok p1 ->
  bad p1 = Err e ->
  NewPod env (pre ++ bad :: post) w
  = (Err (Wrapf e "error running pod create option"),
     withTrace (CallNewPod :: trace w) w).
Proof.
  intros Hvalid Hnew Hpre Hbad. run_NewPod.
  rewrite Hvalid. cbn_go. rewrite Hnew. cbn_go.
  fold (freshPod env w). rewrite runOptions_app, Hpre. cbn. by rewrite Hbad.
Qed.

(** X2. In cgroupfs mode a cgroup parent that looks like a systemd slice
    is refused before anything is persisted. *)
Theorem NewPod_cgroupfs_rejects_slice (env : Env)
    (options : list PodCreateOption) (w : World) (p1 : Pod) :
  r_valid w = true ->
  (forall t, fault env t CallNewPod = None) ->
  (forall t, fault env t CallGenerateName = None) ->
  runOptions options (freshPod env w) = Ok p1 ->
  r_CgroupManager w = CgroupfsCgroupsManager ->
  CgroupParent (pod_config p1) <> "" ->
  GoPath.HasSuffix (GoPath.Base (CgroupParent (pod_config p1))) ".slice"
  = true ->
  NewPod env options w
  = (Err (Wrapf ErrInvalidArg
            "systemd slice received as cgroup parent when using cgroupfs"),
     withTrace (namingCalls p1 ++ trace w) w).
Proof.
  intros Hvalid Hnew Hgen Hrun Hmgr Hparent Hslice.
  apply String.eqb_neq in Hparent. run_NewPod.
  rewrite Hvalid. cbn_go. rewrite Hnew. cbn_go.
  fold (freshPod env w). rewrite Hrun. unfold namingCalls.
  destruct (String.eqb (Name (pod_config p1)) ""); cbn;
    rewrite ?Hgen; cbn; rewrite Hmgr; cbn; rewrite Hparent, Hslice;
    reflexivity.
Qed.

(** X3. In systemd mode a cgroup parent that is not a slice name is
    refused before anything is persisted. *)
Theorem NewPod_systemd_rejects_non_slice (env : Env)
    (options : list PodCreateOption) (w : World) (p1 : Pod) :
  r_valid w = true ->
  (forall t, fault env t CallNewPod = None) ->
  (forall t, fault env t CallGenerateName = None) ->
  runOptions options (freshPod env w) = Ok p1 ->
  r_CgroupManager w = SystemdCgroupsManager ->
  CgroupParent (pod_config p1) <> "" ->
  String.length (CgroupParent (pod_config p1)) < 6
  \/ GoPath.HasSuffix (GoPath.Base (CgroupParent (pod_config p1))) ".slice"
     = false ->
  NewPod env options w
  = (Err (Wrapf ErrInvalidArg
            "did not receive systemd slice as cgroup parent when using systemd to manage cgroups"),
     withTrace (namingCalls p1 ++ trace w) w).
Proof.
  intros Hvalid Hnew Hgen Hrun Hmgr Hparent Hbad.
  apply String.eqb_neq in Hparent.
  assert ((String.length (CgroupParent (pod_config p1)) <? 6)%nat
          || negb (GoPath.HasSuffix
                     (GoPath.Base (CgroupParent (pod_config p1))) ".slice")
          = true) as Hcheck.
  { destruct Hbad as [Hshort%Nat.ltb_lt | Hsuffix].
    - by rewrite Hshort.
    - rewrite Hsuffix. by rewrite orb_true_r. }
  run_NewPod.
  rewrite Hvalid. cbn_go. rewrite Hnew. cbn_go.
  fold (freshPod env w). rewrite Hrun. unfold namingCalls.
  destruct (String.eqb (Name (pod_config p1)) "");
    cbn_go;
    rewrite ?Hgen; cbn_go;
    rewrite Hmgr; cbn_go;
    rewrite Hparent, Hcheck; reflexivity.
Qed.

(** X4. Under a cgroup manager that is neither cgroupfs nor systemd no
    pod can be created. *)
Theorem NewPod_unsupported_manager (env : Env)
    (options : list PodCreateOption) (w : World) (p1 : Pod) :
  r_valid w = true ->
  (forall t, fault env t CallNewPod = None) ->
  (forall t, fault env t CallGenerateName = None) ->
  runOptions options (freshPod env w) = Ok p1 ->
  r_CgroupManager w <> CgroupfsCgroupsManager ->
  r_CgroupManager w <> SystemdCgroupsManager ->
  NewPod env options w
  = (Err (Wrapf ErrInvalidArg
            "unsupported CGroup manager: %s - cannot validate cgroup parent"),
     withTrace (namingCalls p1 ++ trace w) w).
Proof.
  intros Hvalid Hnew Hgen Hrun Hfs%String.eqb_neq Hsys%String.eqb_neq.
  run_NewPod.
  rewrite Hvalid. cbn_go. rewrite Hnew. cbn_go.
  fold (freshPod env w). rewrite Hrun. unfold namingCalls.
  destruct (String.eqb (Name (pod_config p1)) ""); cbn_go;
    rewrite ?Hgen; cbn_go; rewrite Hfs, Hsys; reflexivity.
Qed.

Lemma NewPod_store_invariant_run (env : Env)
    (options : list PodCreateOption) (w : World) (r : Result Pod)
    (w' : World) :
  NewPod env options w = (r, w') ->
  r_valid w' = r_valid w
  /\ r_CgroupManager w' = r_CgroupManager w
  /\ st_ctrs w' = st_ctrs w
  /\ cgroups w' = cgroups w
  /\ (st_pods w' = st_pods w
      \/ exists pod,
           st_pods w'
           = (List.filter (fun q => negb (hasID (pod_ID pod) q)) (st_pods w)
              ++ [pod])%list
           /\ pod_valid pod = true
           /\ parentFits env (r_CgroupManager w) pod).
Proof.
  intros Hrun. revert Hrun. run_NewPod. unfold parentFits.
  repeat (case_match; cbn_go_all; simplify_eq);
    intros; simplify_eq; cbn_go; (do 4 (split; [done|])).
  all: try (by left).
  all: right;
    match goal with
    | |- exists pod, (_ ++ [?p])%list = _ /\ _ => exists p
    end;
    (split; [reflexivity|]); (split; [done|]); cbn_go.
  all: repeat match goal with
         | H : String.eqb _ _ = true |- _ => apply String.eqb_eq in H
         | H : (_ || _) = false |- _ => apply orb_false_elim in H as [? ?]
         | H : negb _ = false |- _ => apply negb_false_iff in H
         | H : (_ <? _)%nat = false |- _ => apply Nat.ltb_ge in H
         end.
  all: try (left; split; [done|]; first [by left | by right]).
  all: try (right; split; [done|]; first [by left | right; by split]).
Qed.


Lemma NewPod_adds_pod (env : Env) (options : list PodCreateOption)
    (w : World) (p1 : Pod) :
  noFaults env ->
  r_valid w = true ->
  runOptions options (freshPod env w) = Ok p1 ->
  (r_CgroupManager w = CgroupfsCgroupsManager
   /\ (CgroupParent (pod_config p1) = ""
       \/ GoPath.HasSuffix (GoPath.Base (CgroupParent (pod_config p1)))
            ".slice" = false))
  \/ (r_CgroupManager w = SystemdCgroupsManager
      /\ (CgroupParent (pod_config p1) = ""
          \/ (6 <= String.length (CgroupParent (pod_config p1))
              /\ GoPath.HasSuffix (GoPath.Base (CgroupParent (pod_config p1)))
                   ".slice" = true))) ->
  exists pod,
    st_pods (NewPod env options w).2
    = (List.filter (fun q => negb (hasID (pod_ID p1) q)) (st_pods w)
       ++ [pod])%list
    /\ trace (NewPod env options w).2
       = (CallAddPod (pod_ID p1) :: namingCalls p1 ++ trace w)%list
    /\ pod_ID pod = pod_ID p1
    /\ Name (pod_config pod) = nameFor env w p1
    /\ CgroupParent (pod_config pod) = parentFor env (r_CgroupManager w) p1
    /\ UsePodCgroup (pod_config pod) = UsePodCgroup (pod_config p1)
    /\ pod_valid pod = true.
Proof.
  intros Hnf Hvalid Hrun Hfits.
  run_NewPod. rewrite Hvalid. cbn_go. rewrite Hnf. cbn_go.
  fold (freshPod env w). rewrite Hrun.
  unfold namingCalls, nameFor, parentFor.
  destruct Hfits as [[Hmgr Hparent] | [Hmgr Hparent]]; rewrite Hmgr; cbn_go.
  - destruct (String.eqb (Name (pod_config p1)) "") eqn:Hname; cbn_go;
      rewrite ?Hnf; cbn_go;
      destruct (String.eqb (CgroupParent (pod_config p1)) "") eqn:Hempty;
      cbn_go; rewrite ?Hnf; cbn_go.
    all: try (eexists; split; [reflexivity|]; cbn_go; by rewrite ?Hname).
    all: destruct Hparent as [Hparent | Hparent];
      [by apply String.eqb_neq in Hempty|].
    all: rewrite Hparent; cbn_go; rewrite Hnf; cbn_go.
    all: eexists; split; [reflexivity|]; cbn_go; by rewrite ?Hname.
  - assert (CgroupParent (pod_config p1) <> "" ->
            (String.length (CgroupParent (pod_config p1)) <? 6)%nat
            || negb (GoPath.HasSuffix
                       (GoPath.Base (CgroupParent (pod_config p1))) ".slice")
            = false) as Hcheck.
    { intros Hne. destruct Hparent as [?|[Hlen Hsuffix]]; [done|].
      apply Nat.ltb_ge in Hlen. by rewrite Hlen, Hsuffix. }
    destruct (String.eqb (Name (pod_config p1)) "") eqn:Hname; cbn_go;
      rewrite ?Hnf; cbn_go;
      destruct (String.eqb (CgroupParent (pod_config p1)) "") eqn:Hempty;
      cbn_go; rewrite ?Hnf; cbn_go.
    all: try (apply String.eqb_neq in Hempty; rewrite (Hcheck Hempty); cbn_go).
    all: destruct (UsePodCgroup (pod_config p1)) eqn:Huse; cbn_go;
      rewrite ?Hnf; cbn_go.
    all: eexists; split; [reflexivity|]; cbn_go; by rewrite ?Hname, ?Huse.
Qed.

(** *** Listing pods: how filters compose *)

Lemma filter_andb_compose {A} (f g : A -> bool) (l : list A) :
  List.filter (fun x => f x && g x) l = List.filter g (List.filter f l).
Proof.
  induction l as [|x l IH]; cbn; [done|].
  destruct (f x); cbn; [|done]. destruct (g x); by rewrite IH.
Qed.

Lemma Pods_run (env : Env) (filters : list PodFilter) (w : World) :
  Pods env filters w
  = if negb (r_valid w) then (Err ErrRuntimeStopped, w)
    else match fault env (trace w) CallAllPods with
         | Some e => (Err e, withTrace (CallAllPods :: trace w) w)
         | None =>
             (Ok (List.filter
                    (fun pod => forallb (fun filter => filter pod) filters)
                    (st_pods w)),
              withTrace (CallAllPods :: trace w) w)
         end.
Proof.
  unfold Pods, state_AllPods, call, bind, get, ret, fail. cbn.
  destruct (negb (r_valid w)); [done|].
  destruct (fault env (trace w) CallAllPods); cbn; [done|].
  rewrite (append_loop_filter
             (fun pod => fold_left (fun include filter => include && filter pod)
                           filters true)).
  cbn. do 2 f_equal. apply List.filter_ext. intros pod.
  by rewrite include_forallb.
Qed.

(** X6. Passing two lists of filters at once is filtering the result of
    the first list by the second, and the order of the filters does not
    matter; an error (a stopped runtime, a failure of the store) is the
    same with any filters. *)
Theorem Pods_filters_compose (env : Env) (f1 f2 : list PodFilter)
    (w : World) :
  Pods env (f1 ++ f2) w
  = match Pods env f1 w with
    | (Ok out, w') =>
        (Ok (List.filter
               (fun pod => forallb (fun filter => filter pod) f2) out), w')
    | (Err e, w') => (Err e, w')
    end
  /\ Pods env (f1 ++ f2) w = Pods env (f2 ++ f1) w.
Proof.
  rewrite !Pods_run.
  destruct (negb (r_valid w)); [done|].
  destruct (fault env (trace w) CallAllPods); [done|].
  split.
  - do 2 f_equal. rewrite <- filter_andb_compose.
    apply List.filter_ext. intros pod. apply forallb_app.
  - do 2 f_equal. apply List.filter_ext. intros pod.
    rewrite !forallb_app. apply andb_comm.
Qed.

(** *** A pod that was created can be found *)

Lemma find_added (p : Pod) (pods : list Pod) :
  List.find (hasID (pod_ID p))
    (List.filter (fun q => negb (hasID (pod_ID p) q)) pods ++ [p])
  = Some p.
Proof.
  induction pods as [|q pods IH]; cbn.
  - unfold hasID. by rewrite String.eqb_refl.
  - destruct (hasID (pod_ID p) q) eqn:Hq; cbn; [done|]. by rewrite Hq.
Qed.

(** X7. When the options succeed, the cgroup parent they leave fits the
    manager and no collaborator fails, NewPod adds to the store the pod
    the options left, now valid, under the name the options set or else
    the generated one, and with the default parent of the manager if the
    options set none; the name is generated only when none was set. The
    pod is then found under its ID by GetPod, HasPod and LookupPod. *)
Theorem NewPod_persists (env : Env) (options : list PodCreateOption)
    (w : World) (p1 : Pod) :
  noFaults env ->
  r_valid w = true ->
  runOptions options (freshPod env w) = Ok p1 ->
  (r_CgroupManager w = CgroupfsCgroupsManager
   /\ (CgroupParent (pod_config p1) = ""
       \/ GoPath.HasSuffix (GoPath.Base (CgroupParent (pod_config p1)))
            ".slice" = false))
  \/ (r_CgroupManager w = SystemdCgroupsManager
      /\ (CgroupParent (pod_config p1) = ""
          \/ (6 <= String.length (CgroupParent (pod_config p1))
              /\ GoPath.HasSuffix (GoPath.Base (CgroupParent (pod_config p1)))
                   ".slice" = true))) ->
  exists pod,
    st_pods (NewPod env options w).2
    = (List.filter (fun q => negb (hasID (pod_ID p1) q)) (st_pods w)
       ++ [pod])%list
    /\ trace (NewPod env options w).2
       = (CallAddPod (pod_ID p1) :: namingCalls p1 ++ trace w)%list
    /\ pod_ID pod = pod_ID p1
    /\ Name (pod_config pod) = nameFor env w p1
    /\ CgroupParent (pod_config pod) = parentFor env (r_CgroupManager w) p1
    /\ UsePodCgroup (pod_config pod) = UsePodCgroup (pod_config p1)
    /\ pod_valid pod = true
    /\ (GetPod env (pod_ID p1) (NewPod env options w).2).1 = Ok pod
    /\ (HasPod env (pod_ID p1) (NewPod env options w).2).1 = Ok true
    /\ (LookupPod env (pod_ID p1) (NewPod env options w).2).1 = Ok pod.
Proof.
  intros Hnf Hvalid Hrun Hfits.
  destruct (NewPod_adds_pod env options w p1 Hnf Hvalid Hrun Hfits)
    as (pod & Hpods & Htrace & Hid & Hname & Hparent & Huse & Hpvalid).
  destruct (NewPod env options w) as [r1 w1] eqn:HNew.
  destruct (NewPod_store_invariant_run _ _ _ _ _ HNew) as (Hvalid' & _).
  cbn [snd] in *.
  exists pod. do 7 (split; [done|]).
  unfold GetPod, HasPod, LookupPod, state_Pod, state_HasPod, state_LookupPod,
    liftResult, lookupPod, call, bind, get, ret, fail.
  cbn. rewrite Hvalid', Hvalid. cbn. rewrite !Hnf. cbn.
  rewrite Hpods, <- Hid, find_added.
  split; [done|]. split; [|done].
  f_equal. apply existsb_exists. exists pod. split.
  - apply in_or_app. right. by left.
  - unfold hasID. apply String.eqb_refl.
Qed.

(** *** The calls a computation can make *)

Section Emits.

Context {S : Type} (tr : S -> list Call) (ok : Call -> bool).

Lemma emits_ret {A} (a : A) : emits tr ok (ret a).
Proof. intros s r s' [= <- <-]. by exists []. Qed.

Lemma emits_fail {A} (e : error) : emits tr ok (@fail S A e).
Proof. intros s r s' [= <- <-]. by exists []. Qed.

Lemma emits_get : emits tr ok (@get S).
Proof. intros s r s' [= <- <-]. by exists []. Qed.

Lemma emits_modify (f : S -> S) :
  (forall s, tr (f s) = tr s) -> emits tr ok (modify f).
Proof. intros Hf s r s' [= <- <-]. exists []. by rewrite Hf. Qed.

Lemma emits_bind {A B} (m : M S A) (k : A -> M S B) :
  emits tr ok m -> (forall a, emits tr ok (k a)) -> emits tr ok (bind m k).
Proof.
  intros Hm Hk s r s' Hrun. unfold bind in Hrun.
  destruct (m s) as [[a|e] s1] eqn:E;
    destruct (Hm _ _ _ E) as (n1 & Ht1 & Hn1).
  - destruct (Hk _ _ _ _ Hrun) as (n2 & Ht2 & Hn2).
    exists (n2 ++ n1)%list. rewrite Ht2, Ht1, app_assoc.
    split; [done|]. by rewrite forallb_app, Hn2, Hn1.
  - simplify_eq. by exists n1.
Qed.

Lemma emits_wrapErr {A} (format : string) (m : M S A) :
  emits tr ok m -> emits tr ok (wrapErr format m).
Proof.
  intros Hm s r s' Hrun. unfold wrapErr in Hrun.
  destruct (m s) as [[a|e] s1] eqn:E;
    destruct (Hm _ _ _ E) as (n1 & Ht1 & Hn1); simplify_eq; by exists n1.
Qed.

End Emits.

Lemma emits_call (env : Env) (ok : Call -> bool) (c : Call) :
  ok c = true -> emits trace ok (call env c).
Proof.
  intros Hc w r w' Hrun. unfold call in Hrun. exists [c]. cbn.
  rewrite Hc. by destruct (fault env (trace w) c); simplify_eq.
Qed.

Lemma emits_liftC {A} (ok : Call -> bool) (m : M World A) :
  emits trace ok m ->
  emits (fun s : Container * World => trace s.2) ok (liftC m).
Proof.
  intros Hm [c w] r [c' w'] Hrun. unfold liftC in Hrun. cbn in *.
  destruct (m w) as [r1 w1] eqn:E. simplify_eq. by eapply Hm.
Qed.

Lemma emits_liftW {A} (ok : Call -> bool) (m : M World A) :
  emits trace ok m -> emits (fun s => trace (world s)) ok (liftW m).
Proof.
  intros Hm s r s' Hrun. unfold liftW in Hrun.
  destruct (m (world s)) as [r1 w1] eqn:E. simplify_eq. by eapply Hm.
Qed.

Lemma emits_forCtrs {A} (ok : Call -> bool)
    (body : A -> M (Container * World) A) :
  (forall acc, emits (fun s : Container * World => trace s.2) ok (body acc)) ->
  forall cs acc w r cs' w',
    forCtrs body acc cs w = (r, cs', w') ->
    exists new, trace w' = (new ++ trace w)%list /\ forallb ok new = true.
Proof.
  intros Hbody cs. induction cs as [|c cs IH]; intros acc w r cs' w' Hrun.
  - cbn in Hrun. simplify_eq. by exists [].
  - cbn in Hrun.
    destruct (body acc (c, w)) as [[acc'|e] [c1 w1]] eqn:Hstep;
      destruct (Hbody _ _ _ _ Hstep) as (n1 & Ht1 & Hn1); cbn in Ht1.
    + destruct (forCtrs body acc' cs w1) as [[r2 cs2] w2] eqn:Hrest.
      simplify_eq. destruct (IH _ _ _ _ _ Hrest) as (n2 & Ht2 & Hn2).
      exists (n2 ++ n1)%list. rewrite Ht2, Ht1, app_assoc.
      split; [done|]. by rewrite forallb_app, Hn2, Hn1.
    + simplify_eq. by exists n1.
Qed.

Lemma emits_rangeCtrs {A} (ok : Call -> bool)
    (body : A -> M (Container * World) A) (acc : A) :
  (forall acc, emits (fun s : Container * World => trace s.2) ok (body acc)) ->
  emits (fun s => trace (world s)) ok (rangeCtrs body acc).
Proof.
  intros Hbody s r s' Hrun. unfold rangeCtrs in Hrun.
  destruct (forCtrs body acc (ctrs s) (world s)) as [[r1 cs1] w1] eqn:Hloop.
  simplify_eq. cbn. by eapply emits_forCtrs.
Qed.

Lemma emits_getCtr (ok : Call -> bool) :
  emits (fun s : Container * World => trace s.2) ok getCtr.
Proof. intros s r s' [= <- <-]. by exists []. Qed.

Lemma emits_setCtr (ok : Call -> bool) (c : Container) :
  emits (fun s : Container * World => trace s.2) ok (setCtr c).
Proof. intros s r s' [= <- <-]. by exists []. Qed.

(** Breaks a computation down to its calls. *)
Ltac emits_step :=
  first
    [ apply emits_ret | apply emits_fail | apply emits_get
    | apply emits_getCtr | apply emits_setCtr
    | apply emits_rangeCtrs; intros ?
    | apply emits_modify; intros; reflexivity
    | apply emits_call; reflexivity
    | apply emits_wrapErr
    | apply emits_liftC | apply emits_liftW
    | apply emits_bind; [|intros ?]
    | match goal with
      | |- emits _ _ (if ?b then _ else _) => destruct b
      | |- emits _ _ (match ?x with _ => _ end) => destruct x
      end ].

Ltac solve_emits :=
  unfold lockAndCheck, stopCtr, removeCtr, syncCtr, syncContainer, state_ContainerInUse, state_PodContainers,
    state_RemovePodContainers, state_RemovePod, ociRuntime_stopContainer,
    ociRuntime_execStopContainer, cleanup, teardownStorage, delete,
    cgroups_Load, cgroup_Delete;
  repeat emits_step.

Lemma emits_removePodCgroup (env : Env) (ok : Call -> bool) :
  (forall path, ok (CallCgroupsLoad path) = true) ->
  (forall path, ok (CallCgroupDelete path) = true) ->
  emits (fun s => trace (world s)) ok (removePodCgroup env).
Proof.
  intros Hload Hdelete. unfold removePodCgroup.
  apply emits_bind; [apply emits_get|]. intros s0.
  destruct (negb _); [|apply emits_ret].
  destruct (String.eqb _ SystemdCgroupsManager); [apply emits_ret|].
  destruct (String.eqb _ CgroupfsCgroupsManager); [|apply emits_fail].
  intros s r s' Hrun.
  assert (emits (fun s => trace (world s)) ok
            (liftW (cgroups_Load env (CgroupPath (pod_state (pod s0))))))
    as HL.
  { unfold cgroups_Load. apply emits_liftW.
    apply emits_bind; [by apply emits_call|]. intros _.
    apply emits_bind; [apply emits_get|]. intros w0.
    destruct (bool_decide _); [apply emits_ret|apply emits_fail]. }
  assert (emits (fun s => trace (world s)) ok
            (liftW (cgroup_Delete env (CgroupPath (pod_state (pod s0))))))
    as HD.
  { unfold cgroup_Delete. apply emits_liftW.
    apply emits_bind; [by apply emits_call|]. intros _.
    apply emits_modify. reflexivity. }
  destruct (liftW _ s) as [[[]|e] s1] eqn:EL;
    destruct (HL _ _ _ EL) as (n1 & Ht1 & Hn1).
  - destruct (HD _ _ _ Hrun) as (n2 & Ht2 & Hn2).
    exists (n2 ++ n1)%list. rewrite Ht2, Ht1, app_assoc.
    split; [done|]. by rewrite forallb_app, Hn2, Hn1.
  - destruct (bool_decide _); simplify_eq; by exists n1.
Qed.

Lemma emits_removePodFromState (env : Env) (ok : Call -> bool) :
  (forall id, ok (CallRemovePod id) = true) ->
  emits (fun s => trace (world s)) ok (removePodFromState env).
Proof.
  intros Hrm. unfold removePodFromState, state_RemovePod.
  apply emits_bind; [apply emits_get|]. intros s0.
  apply emits_bind; [|intros _; apply emits_modify; reflexivity].
  apply emits_liftW. apply emits_bind; [by apply emits_call|]. intros _.
  apply emits_modify. reflexivity.
Qed.

Lemma emits_RemovePod (env : Env) (ok : Call -> bool) (p : Pod)
    (removeCtrs force : bool) (w : World) :
  emits (fun s => trace (world s)) ok (removeContainers env removeCtrs force) ->
  emits (fun s => trace (world s)) ok (removePodCgroup env) ->
  emits (fun s => trace (world s)) ok (removePodFromState env) ->
  exists new,
    traceAfter (RemovePod env p removeCtrs force w) = (new ++ trace w)%list
    /\ forallb ok new = true.
Proof.
  intros Hctrs Hcg Hpod. unfold traceAfter.
  destruct (RemovePod env p removeCtrs force w) as [r s'] eqn:Hrun.
  unfold RemovePod in Hrun.
  match type of Hrun with
  | ?m _ = _ => assert (emits (fun s => trace (world s)) ok m) as H
  end.
  { apply emits_bind; [apply emits_get|]. intros s0.
    destruct (negb _); [apply emits_fail|].
    destruct (negb _); [apply emits_fail|].
    apply emits_bind; [done|]. intros _.
    apply emits_bind; [done|]. intros _. done. }
  destruct (H _ _ _ Hrun) as (new & Ht & Hn). by exists new.
Qed.

(** X8. Without [force] RemovePod stops no container and no exec
    session, whatever the pod, the world and the environment. *)
Theorem RemovePod_without_force_stops_nothing (env : Env) (p : Pod)
    (removeCtrs : bool) (w : World) :
  exists new,
    traceAfter (RemovePod env p removeCtrs false w) = (new ++ trace w)%list
    /\ forallb notStop new = true.
Proof.
  apply emits_RemovePod.
  - unfold removeContainers. solve_emits.
  - by apply emits_removePodCgroup.
  - by apply emits_removePodFromState.
Qed.

(** *** What a run of [RemovePod] leaves *)

(** The last two phases: they change no container, and the pod leaves
    the store, and is marked invalid, exactly when they end without an
    error. *)
Lemma removePod_tail (env : Env) (s5 : Machine) (r : Result unit)
    (s' : Machine) :
  bind (removePodCgroup env) (fun _ => removePodFromState env) s5 = (r, s') ->
  r_valid (world s') = r_valid (world s5)
  /\ r_CgroupManager (world s') = r_CgroupManager (world s5)
  /\ st_ctrs (world s') = st_ctrs (world s5)
  /\ ctrs s' = ctrs s5
  /\ match r with
     | Ok _ =>
         pod s' = setPodValid false (pod s5)
         /\ st_pods (world s')
            = List.filter (fun q => negb (hasID (pod_ID (pod s5)) q))
                          (st_pods (world s5))
     | Err _ => pod s' = pod s5 /\ st_pods (world s') = st_pods (world s5)
     end.
Proof.
  unfold removePodCgroup, removePodFromState, state_RemovePod, cgroups_Load,
    cgroup_Delete, liftW, call, bind, get, modify, ret, fail.
  cbn. intros Hrun.
  repeat (case_match; cbn in *; simplify_eq); done.
Qed.

Lemma RemovePod_outcome_run (env : Env) (p : Pod) (removeCtrs force : bool)
    (w : World) (r : Result unit) (s' : Machine) :
  RemovePod env p removeCtrs force w = (r, s') ->
  r_valid (world s') = r_valid w
  /\ r_CgroupManager (world s') = r_CgroupManager w
  /\ match r with
     | Ok _ =>
         r_valid w = true /\ pod_valid p = true
         /\ pod s' = setPodValid false p
         /\ st_pods (world s')
            = List.filter (fun q => negb (hasID (pod_ID p) q)) (st_pods w)
     | Err _ => pod s' = p /\ st_pods (world s') = st_pods w
     end.
Proof.
  intros Hrun.
  destruct (r_valid w) eqn:Hvalid.
  2:{ unfold RemovePod, bind, get, fail in Hrun. cbn in Hrun.
      rewrite Hvalid in Hrun. cbn in Hrun. by simplify_eq. }
  destruct (pod_valid p) eqn:Hpvalid.
  2:{ unfold RemovePod, bind, get, fail in Hrun. cbn in Hrun.
      rewrite Hvalid, Hpvalid in Hrun. cbn in Hrun. by simplify_eq. }
  rewrite RemovePod_phases in Hrun by done.
  unfold bind at 1 in Hrun.
  destruct (removeContainers env removeCtrs force (mkMachine w p []))
    as [[[]|e] s5] eqn:Hctrs;
    destruct (removeContainers_keepsRuntime _ _ _ _ _ _ Hctrs)
      as (Hp5 & Hv5 & Hm5 & Hpods5 & _); cbn in Hp5, Hv5, Hm5, Hpods5.
  - destruct (removePod_tail _ _ _ _ Hrun) as (Hv & Hm & _ & _ & Hr).
    split; [congruence|]. split; [congruence|].
    destruct r; rewrite Hp5, Hpods5 in Hr; [|done].
    by destruct Hr.
  - simplify_eq. repeat split; congruence.
Qed.

(** X9. The pod is removed all or nothing: when RemovePod returns
    without an error, the runtime and the pod were valid, the pod object
    is marked invalid and the store holds the pods it held but the one
    with this ID; when it returns an error, the pod object and the pods
    of the store are as they were. *)
Theorem RemovePod_outcome (env : Env) (p : Pod) (removeCtrs force : bool)
    (w : World) :
  match (RemovePod env p removeCtrs force w).1 with
  | Ok _ =>
      r_valid w = true /\ pod_valid p = true
      /\ pod (RemovePod env p removeCtrs force w).2 = setPodValid false p
      /\ st_pods (world (RemovePod env p removeCtrs force w).2)
         = List.filter (fun q => negb (hasID (pod_ID p) q)) (st_pods w)
  | Err _ =>
      pod (RemovePod env p removeCtrs force w).2 = p
      /\ st_pods (world (RemovePod env p removeCtrs force w).2) = st_pods w
  end.
Proof.
  destruct (RemovePod env p removeCtrs force w) as [r s'] eqn:Hrun.
  by destruct (RemovePod_outcome_run _ _ _ _ _ _ _ Hrun) as (_ & _ & Hr).
Qed.

(** X10. A pod is removed once: after RemovePod has returned without an
    error, RemovePod on the same pod object returns ErrPodRemoved and
    makes no call. *)
Theorem RemovePod_twice (env : Env) (p : Pod) (removeCtrs force : bool)
    (w : World) (s' : Machine) :
  RemovePod env p removeCtrs force w = (Ok tt, s') ->
  forall removeCtrs' force',
    RemovePod env (pod s') removeCtrs' force' (world s')
    = (Err ErrPodRemoved, mkMachine (world s') (pod s') []).
Proof.
  intros Hrun removeCtrs' force'.
  destruct (RemovePod_outcome_run _ _ _ _ _ _ _ Hrun)
    as (Hvalid' & _ & Hvalid & _ & Hpod & _).
  unfold RemovePod, bind, get, fail. cbn.
  rewrite Hvalid', Hvalid, Hpod. reflexivity.
Qed.

(** *** The checks before anything is removed *)

Lemma members_nonempty (pid : string) (w : World) (k : string) :
  isMember w pid k -> (0 <? length (members pid (st_ctrs w)))%nat = true.
Proof.
  intros Hk%members_ID.
  destruct (members pid (st_ctrs w)); [by apply elem_of_nil in Hk|done].
Qed.

(** X11. Without [removeCtrs] a pod that has a container is not removed:
    RemovePod returns ErrCtrExists after its one query for the pod's
    containers, whatever [force] is. *)
Theorem RemovePod_pod_not_empty (env : Env) (p : Pod) (force : bool)
    (w : World) (k : string) :
  r_valid w = true ->
  pod_valid p = true ->
  fault env (trace w) (CallPodContainers (pod_ID p)) = None ->
  isMember w (pod_ID p) k ->
  RemovePod env p false force w
  = (Err (Wrapf ErrCtrExists
            "pod %s contains containers and cannot be removed"),
     mkMachine (withTrace (CallPodContainers (pod_ID p) :: trace w) w) p
               (members (pod_ID p) (st_ctrs w))).
Proof.
  intros Hvalid Hpvalid Hquery Hk.
  unfold RemovePod, removeContainers, state_PodContainers, liftW, call,
    bind, get, modify, ret, fail.
  cbn -[Nat.ltb members forCtrs].
  rewrite Hvalid. cbn -[Nat.ltb members forCtrs].
  rewrite Hpvalid. cbn -[Nat.ltb members forCtrs].
  rewrite Hquery. cbn -[Nat.ltb members forCtrs].
  by rewrite (members_nonempty _ _ _ Hk).
Qed.

Lemma RemovePod_check_fails (env : Env) (p : Pod) (force : bool) (w : World) :
  noFaults env ->
  r_valid w = true ->
  pod_valid p = true ->
  forallb (ctrOK force) (members (pod_ID p) (st_ctrs w)) = false ->
  exists e s',
    RemovePod env p true force w = (Err e, s')
    /\ Cause e = ErrCtrStateInvalid
    /\ onlyQueries w (world s')
    /\ pod s' = p
    /\ ctrs s' = members (pod_ID p) (st_ctrs w).
Proof.
  intros Hnf Hvalid Hpvalid Hbad.
  unfold RemovePod, removeContainers, state_PodContainers, rangeCtrs, liftW,
    call, bind, get, modify, ret, fail.
  cbn -[Nat.ltb members forCtrs].
  rewrite Hvalid. cbn -[Nat.ltb members forCtrs].
  rewrite Hpvalid. cbn -[Nat.ltb members forCtrs].
  rewrite Hnf. cbn -[Nat.ltb members forCtrs].
  set (w1 := withTrace (CallPodContainers (pod_ID p) :: trace w) w).
  assert (onlyQueries w w1) as Hq1
    by (apply onlyQueries_call; [done|apply onlyQueries_refl]).
  assert (Forall (freshView w1) (members (pod_ID p) (st_ctrs w))) as Hfresh.
  { eapply Forall_impl; [apply members_fresh|]. intros x.
    by apply freshView_onlyQueries. }
  destruct (lockAndCheck_loop_total env force _ Hnf ∅ w1 Hfresh)
    as (res & w2 & Hloop & _ & Hcause).
  destruct (lockAndCheck_loop _ _ _ _ _ _ _ _ Hfresh Hloop) as (Hq2 & _ & _).
  destruct (Hcause Hbad) as (e & -> & He).
  rewrite Hloop. cbn.
  do 2 eexists. split; [reflexivity|]. cbn.
  split; [done|]. split; [by eapply onlyQueries_trans|]. done.
Qed.

(** X12. With [removeCtrs], a container of the pod in an unknown state,
    or, without [force], one that is running or has an exec session,
    makes RemovePod fail with ErrCtrStateInvalid after queries only. *)
Theorem RemovePod_bad_state (env : Env) (p : Pod) (force : bool) (w : World)
    (id : string) (r : CtrRecord) :
  noFaults env ->
  r_valid w = true ->
  pod_valid p = true ->
  st_ctrs w !! id = Some r ->
  rec_Pod r = Some (pod_ID p) ->
  rec_State r = ContainerStateUnknown
  \/ (force = false
      /\ (rec_State r = ContainerStateRunning \/ rec_ExecSessions r <> [])) ->
  exists e s',
    RemovePod env p true force w = (Err e, s')
    /\ Cause e = ErrCtrStateInvalid
    /\ onlyQueries w (world s')
    /\ pod s' = p
    /\ ctrs s' = members (pod_ID p) (st_ctrs w).
Proof.
  intros Hnf Hvalid Hpvalid Hr Hpod Hbad.
  apply RemovePod_check_fails; try done.
  apply (forallb_false_In _ _ (viewOf id r)).
  { apply members_In. by exists r. }
  unfold ctrOK. cbn.
  destruct Hbad as [Hu | [-> [Hrun | Hexec]]].
  - rewrite Hu. cbn. by rewrite andb_false_r.
  - rewrite Hrun. cbn. by rewrite andb_false_r.
  - destruct (rec_ExecSessions r); [done|]. cbn. by rewrite andb_false_r.
Qed.

(** *** A removal that goes through *)

Lemma forCtrs_total {A} (body : A -> M (Container * World) A) :
  (forall acc c w,
      exists acc' c' w', body acc (c, w) = (Ok acc', (c', w'))) ->
  forall cs acc w,
    exists acc' cs' w', forCtrs body acc cs w = (Ok acc', cs', w').
Proof.
  intros Hbody cs. induction cs as [|c cs IH]; intros acc w; cbn.
  - by do 3 eexists.
  - destruct (Hbody acc c w) as (acc1 & c1 & w1 & ->).
    destruct (IH acc1 w1) as (acc2 & cs2 & w2 & ->). by do 3 eexists.
Qed.

Ltac run_noFaults Hnf :=
  repeat (rewrite ?Hnf; cbn;
          try match goal with
            | |- context [bool_decide ?P] => destruct (bool_decide P)
            | |- context [(length ?l =? 0)%nat] => destruct (length l =? 0)%nat
            | |- context [match ?m !! ?k with _ => _ end] => destruct (m !! k)
            end).

Lemma stopCtr_total (env : Env) (acc : unit) (c : Container) (w : World) :
  noFaults env ->
  exists acc' c' w', stopCtr env acc (c, w) = (Ok acc', (c', w')).
Proof.
  intros Hnf.
  unfold stopCtr, syncCtr, syncContainer, ociRuntime_stopContainer,
    ociRuntime_execStopContainer, wrapErr, liftC, getCtr, setCtr, call, bind,
    ret, fail, get, modify.
  cbn. run_noFaults Hnf; by do 3 eexists.
Qed.

Lemma removeCtr_total (env : Env) (acc : unit) (c : Container) (w : World) :
  noFaults env ->
  exists acc' c' w', removeCtr env acc (c, w) = (Ok acc', (c', w')).
Proof.
  intros Hnf.
  unfold removeCtr, cleanup, teardownStorage, delete, liftC, getCtr, call,
    bind, ret.
  cbn. run_noFaults Hnf; by do 3 eexists.
Qed.

Lemma depsInPod_true (m : gmap string (list string)) :
  (forall k deps d, m !! k = Some deps -> In d deps -> is_Some (m !! d)) ->
  depsInPod m = true.
Proof.
  intros Hclosed. unfold depsInPod. apply forallb_forall.
  intros [k deps] Hk%list_elem_of_In%elem_of_map_to_list. cbn.
  apply forallb_forall. intros d Hd. apply bool_decide_eq_true. eauto.
Qed.

(** The containers pass the state checks of lines 133-149. *)
Lemma members_OK (force : bool) (pid : string) (w : World) :
  (forall k r,
      st_ctrs w !! k = Some r -> rec_Pod r = Some pid ->
      rec_State r <> ContainerStatePaused
      /\ rec_State r <> ContainerStateUnknown
      /\ (force = false ->
          rec_State r <> ContainerStateRunning /\ rec_ExecSessions r = [])) ->
  forallb (ctrOK force) (members pid (st_ctrs w)) = true.
Proof.
  intros Hstates. apply forallb_forall. intros c Hc.
  apply members_In in Hc as (r & Hr & Hpod & ->).
  destruct (Hstates _ _ Hr Hpod) as (Hp & Hu & Hforce).
  unfold ctrOK. cbn.
  rewrite (bool_decide_eq_false_2 _ Hp), (bool_decide_eq_false_2 _ Hu).
  destruct force; cbn; [by rewrite !andb_false_r|].
  destruct (Hforce eq_refl) as [Hrun ->].
  by rewrite (bool_decide_eq_false_2 _ Hrun).
Qed.

Lemma removeContainers_total (env : Env) (p : Pod) (force : bool)
    (w : World) :
  noFaults env ->
  forallb (ctrOK force) (members (pod_ID p) (st_ctrs w)) = true ->
  (forall k r d,
      st_ctrs w !! k = Some r -> rec_Pod r = Some (pod_ID p) ->
      In d (rec_InUseBy r) -> isMember w (pod_ID p) d) ->
  exists s5,
    removeContainers env true force (mkMachine w p []) = (Ok tt, s5).
Proof.
  intros Hnf Hok Hclosed.
  unfold removeContainers, state_PodContainers, state_RemovePodContainers,
    rangeCtrs, liftW, call, bind, get, modify, ret, fail.
  cbn -[Nat.ltb members forCtrs depsInPod].
  rewrite Hnf. cbn -[Nat.ltb members forCtrs depsInPod].
  set (w1 := withTrace (CallPodContainers (pod_ID p) :: trace w) w).
  assert (onlyQueries w w1) as Hq1
    by (apply onlyQueries_call; [done|apply onlyQueries_refl]).
  assert (Forall (freshView w1) (members (pod_ID p) (st_ctrs w))) as Hfresh.
  { eapply Forall_impl; [apply members_fresh|]. intros x.
    by apply freshView_onlyQueries. }
  destruct (lockAndCheck_loop_total env force _ Hnf ∅ w1 Hfresh)
    as (res & w2 & Hloop & Hgood & _).
  destruct (Hgood Hok) as [m ->].
  destruct (lockAndCheck_loop _ _ _ _ _ _ _ _ Hfresh Hloop) as (_ & _ & Hm).
  destruct (Hm _ eq_refl) as [_ ->].
  rewrite Hloop. cbn -[Nat.ltb members forCtrs depsInPod].
  rewrite depsInPod_true; cbn -[Nat.ltb members forCtrs depsInPod].
  2:{ intros k deps d Hk Hd. rewrite dependencies_lookup in Hk.
      destruct (decide _) as [Hin|]; [|by rewrite lookup_empty in Hk].
      apply (members_ID _ w) in Hin as (r & Hr & Hpod).
      simplify_eq. unfold inUse in Hd. cbn in Hd. rewrite Hr in Hd.
      rewrite dependencies_lookup, decide_True; [done|].
      apply (members_ID _ w). by eapply Hclosed. }
  destruct force; cbn -[Nat.ltb members forCtrs depsInPod].
  - destruct (forCtrs_total (stopCtr env)
                (fun acc c w => stopCtr_total env acc c w Hnf)
                (members (pod_ID p) (st_ctrs w)) tt w2)
      as ([] & cs3 & w3 & ->).
    cbn -[Nat.ltb members forCtrs depsInPod].
    destruct (forCtrs_total (removeCtr env)
                (fun acc c w => removeCtr_total env acc c w Hnf) cs3 tt w3)
      as ([] & cs4 & w4 & ->).
    cbn. rewrite Hnf. cbn. by eexists.
  - destruct (forCtrs_total (removeCtr env)
                (fun acc c w => removeCtr_total env acc c w Hnf)
                (members (pod_ID p) (st_ctrs w)) tt w2)
      as ([] & cs4 & w4 & ->).
    cbn. rewrite Hnf. cbn. by eexists.
Qed.

Lemma removePod_tail_ok (env : Env) (s5 : Machine) :
  noFaults env ->
  CgroupPath (pod_state (pod s5)) = ""
  \/ r_CgroupManager (world s5) = SystemdCgroupsManager
  \/ r_CgroupManager (world s5) = CgroupfsCgroupsManager ->
  exists s',
    bind (removePodCgroup env) (fun _ => removePodFromState env) s5
    = (Ok tt, s')
    /\ (CgroupPath (pod_state (pod s5)) <> "" ->
        r_CgroupManager (world s5) = CgroupfsCgroupsManager ->
        ~ In (CgroupPath (pod_state (pod s5))) (cgroups (world s'))).
Proof.
  intros Hnf Hcgroup.
  unfold removePodCgroup, removePodFromState, state_RemovePod, cgroups_Load,
    cgroup_Delete, liftW, call, bind, get, modify, ret, fail.
  cbn.
  assert (bool_decide (ErrCgroupDeleted <> ErrCgroupDeleted) = false)
    as Hdeleted by (by apply bool_decide_eq_false_2; intros H).
  destruct (String.eqb (CgroupPath (pod_state (pod s5))) "") eqn:Hpath; cbn.
  { rewrite Hnf. cbn. eexists. split; [reflexivity|].
    by apply String.eqb_eq in Hpath. }
  destruct (String.eqb (r_CgroupManager (world s5)) SystemdCgroupsManager)
    eqn:Hsys; cbn.
  { rewrite Hnf. cbn. eexists. split; [reflexivity|].
    apply String.eqb_eq in Hsys. by rewrite Hsys. }
  destruct (String.eqb (r_CgroupManager (world s5)) CgroupfsCgroupsManager)
    eqn:Hfs; cbn.
  2:{ apply String.eqb_neq in Hpath, Hsys, Hfs.
      by destruct Hcgroup as [?|[?|?]]. }
  rewrite Hnf. cbn.
  destruct (bool_decide
              (CgroupPath (pod_state (pod s5)) ∈ cgroups (world s5)))
    eqn:Hthere; cbn; rewrite ?Hdeleted, ?Hnf; cbn;
    (eexists; split; [reflexivity|]); cbn; intros _ _.
  - intros [_ Hq]%List.filter_In. by rewrite String.eqb_refl in Hq.
  - apply bool_decide_eq_false in Hthere. by rewrite <- list_elem_of_In.
Qed.

(** X13. RemovePod with [removeCtrs] goes through when nothing stands in
    its way: on a valid runtime and pod, without collaborator failures,
    when no container of the pod is paused or in an unknown state (nor,
    without [force], running or with an exec session), every container
    that depends on one of them is in the pod, and the pod has no cgroup
    path or the manager is systemd or cgroupfs. Then the pod is marked
    invalid and is out of the store, no container of the pod is left in
    the store, their objects are all marked invalid, and in cgroupfs mode
    the pod's cgroup is gone. *)
Theorem RemovePod_succeeds (env : Env) (p : Pod) (force : bool) (w : World) :
  noFaults env ->
  r_valid w = true ->
  pod_valid p = true ->
  (forall k r,
      st_ctrs w !! k = Some r -> rec_Pod r = Some (pod_ID p) ->
      rec_State r <> ContainerStatePaused
      /\ rec_State r <> ContainerStateUnknown
      /\ (force = false ->
          rec_State r <> ContainerStateRunning /\ rec_ExecSessions r = [])) ->
  (forall k r d,
      st_ctrs w !! k = Some r -> rec_Pod r = Some (pod_ID p) ->
      In d (rec_InUseBy r) -> isMember w (pod_ID p) d) ->
  CgroupPath (pod_state p) = ""
  \/ r_CgroupManager w = SystemdCgroupsManager
  \/ r_CgroupManager w = CgroupfsCgroupsManager ->
  exists s',
    RemovePod env p true force w = (Ok tt, s')
    /\ pod s' = setPodValid false p
    /\ st_pods (world s')
       = List.filter (fun q => negb (hasID (pod_ID p) q)) (st_pods w)
    /\ (forall k, ~ isMember (world s') (pod_ID p) k)
    /\ Forall (fun c => ctr_valid c = false) (ctrs s')
    /\ map ctr_ID (ctrs s') = map ctr_ID (members (pod_ID p) (st_ctrs w))
    /\ (CgroupPath (pod_state p) <> "" ->
        r_CgroupManager w = CgroupfsCgroupsManager ->
        ~ In (CgroupPath (pod_state p)) (cgroups (world s'))).
Proof.
  intros Hnf Hvalid Hpvalid Hstates Hclosed Hcgroup.
  destruct (removeContainers_total env p force w Hnf
              (members_OK _ _ _ Hstates) Hclosed) as (s5 & Hctrs).
  destruct (removeContainers_Ok _ _ _ _ _ _ Hctrs)
    as (Hp5 & (_ & Hmgr5 & Hpods5 & _) & Hinvalid & Hgone & Hids).
  destruct (removePod_tail_ok env s5 Hnf) as (s' & Htail & Hcg).
  { by rewrite Hp5, Hmgr5. }
  destruct (removePod_tail _ _ _ _ Htail) as (_ & _ & Hctrs' & Hobjs & Hpod & Hpods).
  rewrite Hp5 in Hpod. rewrite Hp5, Hpods5 in Hpods.
  exists s'. rewrite RemovePod_phases by done.
  rewrite (bind_Ok _ _ _ _ _ Hctrs).
  split; [done|]. split; [done|]. split; [done|].
  split. { intros k (r & Hr & Hpodr). apply (Hgone k). exists r.
           by rewrite <- Hctrs'. }
  split; [by rewrite Hobjs|]. split; [by rewrite Hobjs|].
  rewrite Hp5, Hmgr5 in Hcg. done.
Qed.

(** *** The containers of other pods *)

Ltac run_ctr_body :=
  unfold lockAndCheck, stopCtr, removeCtr, syncCtr, syncContainer,
    state_ContainerInUse, ociRuntime_stopContainer,
    ociRuntime_execStopContainer, cleanup, teardownStorage, delete,
    wrapErr, liftC, getCtr, setCtr, call, bind, ret, fail, get, modify in *;
  cbn in *;
  repeat (case_match; cbn in *; simplify_eq).

(** A round of any of the three loops changes no record but that of its
    own container. *)
Lemma lockAndCheck_others env force acc c w r c' w' :
  lockAndCheck env force acc (c, w) = (r, (c', w')) ->
  ctr_ID c' = ctr_ID c
  /\ forall k, k <> ctr_ID c -> st_ctrs w' !! k = st_ctrs w !! k.
Proof. intros Hrun. run_ctr_body; by split. Qed.

Lemma stopCtr_others env acc c w r c' w' :
  stopCtr env acc (c, w) = (r, (c', w')) ->
  ctr_ID c' = ctr_ID c
  /\ forall k, k <> ctr_ID c -> st_ctrs w' !! k = st_ctrs w !! k.
Proof.
  intros Hrun. run_ctr_body; (split; [done|]); intros k Hk;
    by rewrite ?lookup_alter_ne.
Qed.

Lemma removeCtr_others env acc c w r c' w' :
  removeCtr env acc (c, w) = (r, (c', w')) ->
  ctr_ID c' = ctr_ID c
  /\ forall k, k <> ctr_ID c -> st_ctrs w' !! k = st_ctrs w !! k.
Proof. intros Hrun. run_ctr_body; by split. Qed.

Lemma forCtrs_others {A} (body : A -> M (Container * World) A) :
  (forall acc c w r c' w',
      body acc (c, w) = (r, (c', w')) ->
      ctr_ID c' = ctr_ID c
      /\ forall k, k <> ctr_ID c -> st_ctrs w' !! k = st_ctrs w !! k) ->
  forall cs acc w r cs' w',
    forCtrs body acc cs w = (r, cs', w') ->
    map ctr_ID cs' = map ctr_ID cs
    /\ forall k, k ∉ map ctr_ID cs -> st_ctrs w' !! k = st_ctrs w !! k.
Proof.
  intros Hbody cs. induction cs as [|c cs IH]; intros acc w r cs' w' Hrun.
  - cbn in Hrun. by simplify_eq.
  - cbn in Hrun.
    destruct (body acc (c, w)) as [[acc'|e] [c1 w1]] eqn:Hstep;
      destruct (Hbody _ _ _ _ _ _ Hstep) as [Hid Hkeep].
    + destruct (forCtrs body acc' cs w1) as [[r2 cs2] w2] eqn:Hrest.
      simplify_eq. destruct (IH _ _ _ _ _ Hrest) as [Hids Hkeep2].
      split; [cbn; by rewrite Hid, Hids|].
      intros k Hk. cbn in Hk. apply not_elem_of_cons in Hk as [Hne Hk].
      rewrite Hkeep2 by done. by apply Hkeep.
    + simplify_eq. split; [cbn; by rewrite Hid|].
      intros k Hk. cbn in Hk. apply not_elem_of_cons in Hk as [Hne Hk].
      by apply Hkeep.
Qed.

Lemma filter_keeps_other (pid : string) (m0 m : gmap string CtrRecord)
    (k : string) :
  (forall r, m0 !! k = Some r -> rec_Pod r <> Some pid) ->
  m !! k = m0 !! k ->
  filter (fun kr : string * CtrRecord => rec_Pod kr.2 <> Some pid) m !! k
  = m0 !! k.
Proof.
  intros Hout Hk. destruct (m0 !! k) as [r|] eqn:E.
  - apply map_lookup_filter_Some. split; [done|]. by apply Hout.
  - apply map_lookup_filter_None. by left.
Qed.

(** One loop of [removeContainers], from a state whose containers are
    listed by [ids]. *)
Lemma rangeCtrs_others {A} (body : A -> M (Container * World) A) (acc : A)
    (s : Machine) (r : Result A) (s' : Machine) :
  (forall acc c w r c' w',
      body acc (c, w) = (r, (c', w')) ->
      ctr_ID c' = ctr_ID c
      /\ forall k, k <> ctr_ID c -> st_ctrs w' !! k = st_ctrs w !! k) ->
  rangeCtrs body acc s = (r, s') ->
  map ctr_ID (ctrs s') = map ctr_ID (ctrs s)
  /\ forall k, k ∉ map ctr_ID (ctrs s) ->
       st_ctrs (world s') !! k = st_ctrs (world s) !! k.
Proof.
  intros Hbody Hrun. unfold rangeCtrs in Hrun.
  destruct (forCtrs body acc (ctrs s) (world s)) as [[r1 cs1] w1] eqn:Hloop.
  simplify_eq. cbn. by eapply forCtrs_others.
Qed.

Lemma removeContainers_others env removeCtrs force w p r s' :
  removeContainers env removeCtrs force (mkMachine w p []) = (r, s') ->
  forall k, ~ isMember w (pod_ID p) k -> st_ctrs (world s') !! k = st_ctrs w !! k.
Proof.
  intros Hrun k Hk.
  assert (k ∉ map ctr_ID (members (pod_ID p) (st_ctrs w))) as Hnotin.
  { by intros Hin%(members_ID _ w). }
  unfold removeContainers in Hrun.
  unfold bind at 1 in Hrun. unfold get at 1 in Hrun. cbn [pod] in Hrun.
  unfold bind at 1 in Hrun.
  destruct (liftW (state_PodContainers env p) (mkMachine w p []))
    as [[cs|e] s1] eqn:Hpc.
  2:{ simplify_eq.
      unfold liftW, state_PodContainers, call, bind, get, ret in Hpc.
      cbn in Hpc. by destruct (fault env _ _); simplify_eq. }
  assert (cs = members (pod_ID p) (st_ctrs w)
          /\ st_ctrs (world s1) = st_ctrs w) as [-> Hs1].
  { unfold liftW, state_PodContainers, call, bind, get, ret in Hpc.
    cbn in Hpc. by destruct (fault env _ _); simplify_eq. }
  unfold bind at 1 in Hrun. unfold modify at 1 in Hrun.
  set (s2 := mkMachine (world s1) (pod s1) (members (pod_ID p) (st_ctrs w)))
    in Hrun.
  destruct (negb removeCtrs && _).
  { unfold fail in Hrun. simplify_eq. cbn. by rewrite Hs1. }
  unfold bind at 1 in Hrun.
  destruct (rangeCtrs (lockAndCheck env force) ∅ s2) as [[deps|e] s3] eqn:H1;
    destruct (rangeCtrs_others _ _ _ _ _ (lockAndCheck_others env force) H1)
      as [Hid3 Hk3]; cbn in Hid3, Hk3.
  2:{ simplify_eq. rewrite Hk3 by done. by rewrite Hs1. }
  unfold bind at 1 in Hrun.
  destruct (depsInPod deps).
  2:{ unfold fail at 1 in Hrun. simplify_eq.
      rewrite Hk3 by done. by rewrite Hs1. }
  unfold ret at 1 in Hrun. unfold bind at 1 in Hrun.
  destruct ((if force then rangeCtrs (stopCtr env) tt else ret tt) s3)
    as [[[]|e] s4] eqn:H2.
  2:{ simplify_eq. destruct force; [|by unfold ret in H2].
      destruct (rangeCtrs_others _ _ _ _ _ (stopCtr_others env) H2)
        as [_ Hk4].
      rewrite Hk4 by (by rewrite Hid3). rewrite Hk3 by done. by rewrite Hs1. }
  assert (map ctr_ID (ctrs s4) = map ctr_ID (ctrs s3)
          /\ st_ctrs (world s4) !! k = st_ctrs (world s3) !! k) as [Hid4 Hk4].
  { destruct force; [|unfold ret in H2; by simplify_eq].
    destruct (rangeCtrs_others _ _ _ _ _ (stopCtr_others env) H2)
      as [Hid4 Hk4].
    split; [done|]. apply Hk4. by rewrite Hid3. }
  unfold bind at 1 in Hrun.
  destruct (rangeCtrs (removeCtr env) tt s4) as [[[]|e] s5] eqn:H3;
    destruct (rangeCtrs_others _ _ _ _ _ (removeCtr_others env) H3)
      as [Hid5 Hk5].
  2:{ simplify_eq. rewrite Hk5 by (by rewrite Hid4, Hid3).
      rewrite Hk4, Hk3 by done. by rewrite Hs1. }
  assert (st_ctrs (world s5) !! k = st_ctrs w !! k) as Hs5.
  { rewrite Hk5 by (by rewrite Hid4, Hid3).
    rewrite Hk4, Hk3 by done. by rewrite Hs1. }
  unfold liftW, state_RemovePodContainers, call, bind, modify in Hrun.
  cbn in Hrun.
  destruct (fault env _ _); cbn in Hrun; simplify_eq; cbn; [done|].
  apply filter_keeps_other; [|done].
  intros r0 Hr0 Hpod. apply Hk. by exists r0.
Qed.

(** X14. Whatever happens, RemovePod leaves the store's record of every
    container that is not in the pod as it was. *)
Theorem RemovePod_leaves_other_containers (env : Env) (p : Pod)
    (removeCtrs force : bool) (w : World) (k : string) :
  ~ isMember w (pod_ID p) k ->
  st_ctrs (world (RemovePod env p removeCtrs force w).2) !! k
  = st_ctrs w !! k.
Proof.
  intros Hk.
  destruct (RemovePod env p removeCtrs force w) as [r s'] eqn:Hrun. cbn.
  destruct (r_valid w) eqn:Hvalid.
  2:{ unfold RemovePod, bind, get, fail in Hrun. cbn in Hrun.
      rewrite Hvalid in Hrun. cbn in Hrun. by simplify_eq. }
  destruct (pod_valid p) eqn:Hpvalid.
  2:{ unfold RemovePod, bind, get, fail in Hrun. cbn in Hrun.
      rewrite Hvalid, Hpvalid in Hrun. cbn in Hrun. by simplify_eq. }
  rewrite RemovePod_phases in Hrun by done.
  unfold bind at 1 in Hrun.
  destruct (removeContainers env removeCtrs force (mkMachine w p []))
    as [[[]|e] s5] eqn:Hctrs.
  - destruct (removePod_tail _ _ _ _ Hrun) as (_ & _ & -> & _).
    by eapply removeContainers_others.
  - simplify_eq. by eapply removeContainers_others.
Qed.

(** *** The phases of [removeContainers], one after the other *)

Lemma removeContainers_unfold env removeCtrs force w p :
  removeContainers env removeCtrs force (mkMachine w p [])
  = let w1 := withTrace (CallPodContainers (pod_ID p) :: trace w) w in
    let cs := members (pod_ID p) (st_ctrs w) in
    match fault env (trace w) (CallPodContainers (pod_ID p)) with
    | Some e => (Err e, mkMachine w1 p [])
    | None =>
        if negb removeCtrs && (0 <? length cs)%nat then
          (Err (Wrapf ErrCtrExists
                  "pod %s contains containers and cannot be removed"),
           mkMachine w1 p cs)
        else
          let '(r1, cs1, w2) := forCtrs (lockAndCheck env force) ∅ cs w1 in
          match r1 with
          | Err e => (Err e, mkMachine w2 p cs1)
          | Ok deps =>
              if depsInPod deps then
                let '(r3, cs3, w3) :=
                  if force then forCtrs (stopCtr env) tt cs1 w2
                  else (Ok tt, cs1, w2) in
                match r3 with
                | Err e => (Err e, mkMachine w3 p cs3)
                | Ok _ =>
                    let '(r4, cs4, w4) := forCtrs (removeCtr env) tt cs3 w3 in
                    match r4 with
                    | Err e => (Err e, mkMachine w4 p cs4)
                    | Ok _ =>
                        let w5 :=
                          withTrace
                            (CallRemovePodContainers (pod_ID p) :: trace w4) w4 in
                        match fault env (trace w4)
                                (CallRemovePodContainers (pod_ID p)) with
                        | Some e => (Err e, mkMachine w5 p cs4)
                        | None =>
                            (Ok tt,
                             mkMachine
                               (withCtrs
                                  (filter
                                     (fun kr : string * CtrRecord =>
                                        rec_Pod kr.2 <> Some (pod_ID p))
                                     (st_ctrs w4)) w5)
                               p (map (setCtrValid false) cs4))
                        end
                    end
                end
              else
                (Err (Wrapf ErrCtrExists
                        "container %s depends on container %s not in pod %s"),
                 mkMachine w2 p cs1)
          end
    end.
Proof.
  unfold removeContainers, state_PodContainers, state_RemovePodContainers,
    rangeCtrs, liftW, call, bind, get, modify, ret, fail.
  cbn -[Nat.ltb members forCtrs depsInPod].
  destruct (fault env (trace w) (CallPodContainers (pod_ID p))); [done|].
  cbn -[Nat.ltb members forCtrs depsInPod].
  destruct (negb removeCtrs && _); [done|].
  destruct (forCtrs (lockAndCheck env force) _ _ _) as [[[deps|e] cs1] w2];
    [|done].
  cbn -[Nat.ltb members forCtrs depsInPod].
  destruct (depsInPod deps); [|done].
  cbn -[Nat.ltb members forCtrs depsInPod].
  destruct force; cbn -[Nat.ltb members forCtrs depsInPod].
  - destruct (forCtrs (stopCtr env) _ _ _) as [[[[]|e] cs3] w3]; [|done].
    cbn -[Nat.ltb members forCtrs depsInPod].
    destruct (forCtrs (removeCtr env) _ _ _) as [[[[]|e] cs4] w4]; [|done].
    cbn. by destruct (fault env _ _).
  - destruct (forCtrs (removeCtr env) _ _ _) as [[[[]|e] cs4] w4]; [|done].
    cbn. by destruct (fault env _ _).
Qed.

(** *** Without [removeCtrs] *)

Lemma members_nil_inv (pid : string) (cs : gmap string CtrRecord) :
  members pid cs = [] ->
  forall k r, cs !! k = Some r -> rec_Pod r <> Some pid.
Proof.
  intros Hnil k r Hr Hpod.
  assert (In (viewOf k r) (members pid cs)) as Hin.
  { apply members_In. by exists r. }
  by rewrite Hnil in Hin.
Qed.

Lemma removeContainers_without_removeCtrs env force w p r s5 :
  removeContainers env false force (mkMachine w p []) = (r, s5) ->
  st_ctrs (world s5) = st_ctrs w
  /\ exists new,
       trace (world s5) = (new ++ trace w)%list
       /\ forallb notCtrAction new = true.
Proof.
  rewrite removeContainers_unfold. cbn zeta.
  destruct (fault env (trace w) (CallPodContainers (pod_ID p))).
  { intros [= <- <-]. cbn. split; [done|].
    by exists [CallPodContainers (pod_ID p)]. }
  destruct (members (pod_ID p) (st_ctrs w)) as [|c cs] eqn:Hmembers.
  2:{ cbn. intros [= <- <-]. cbn. split; [done|].
      by exists [CallPodContainers (pod_ID p)]. }
  cbn. rewrite depsInPod_empty.
  assert ((if force
           then (Ok tt, [],
                 withTrace (CallPodContainers (pod_ID p) :: trace w) w)
           else (Ok tt, [],
                 withTrace (CallPodContainers (pod_ID p) :: trace w) w))
          = (@Ok unit tt, @nil Container,
             withTrace (CallPodContainers (pod_ID p) :: trace w) w)) as ->
    by (by destruct force).
  cbn. destruct (fault env _ _); intros [= <- <-]; cbn.
  - split; [done|].
    by exists [CallRemovePodContainers (pod_ID p);
               CallPodContainers (pod_ID p)].
  - split.
    + apply map_filter_id. intros k r0 Hr0. cbn.
      by eapply members_nil_inv.
    + by exists [CallRemovePodContainers (pod_ID p);
                 CallPodContainers (pod_ID p)].
Qed.

(** X15. Without [removeCtrs] RemovePod never stops, cleans up, tears
    down or deletes a container, and leaves every record of the store's
    containers as it was, whatever the pod, the world and the
    environment. *)
Theorem RemovePod_without_removeCtrs (env : Env) (p : Pod) (force : bool)
    (w : World) :
  st_ctrs (world (RemovePod env p false force w).2) = st_ctrs w
  /\ exists new,
       traceAfter (RemovePod env p false force w) = (new ++ trace w)%list
       /\ forallb notCtrAction new = true.
Proof.
  unfold traceAfter.
  destruct (RemovePod env p false force w) as [r s'] eqn:Hrun. cbn.
  destruct (r_valid w) eqn:Hvalid.
  2:{ unfold RemovePod, bind, get, fail in Hrun. cbn in Hrun.
      rewrite Hvalid in Hrun. cbn in Hrun. simplify_eq.
      split; [done|]. by exists []. }
  destruct (pod_valid p) eqn:Hpvalid.
  2:{ unfold RemovePod, bind, get, fail in Hrun. cbn in Hrun.
      rewrite Hvalid, Hpvalid in Hrun. cbn in Hrun. simplify_eq.
      split; [done|]. by exists []. }
  rewrite RemovePod_phases in Hrun by done.
  unfold bind at 1 in Hrun.
  destruct (removeContainers env false force (mkMachine w p []))
    as [[[]|e] s5] eqn:Hctrs;
    destruct (removeContainers_without_removeCtrs _ _ _ _ _ _ Hctrs)
      as (Hst & n1 & Ht1 & Hn1).
  2:{ simplify_eq. split; [done|]. by exists n1. }
  destruct (removePod_tail _ _ _ _ Hrun) as (_ & _ & -> & _).
  split; [done|].
  assert (emits (fun s => trace (world s)) notCtrAction
            (bind (removePodCgroup env) (fun _ => removePodFromState env)))
    as Htail.
  { apply emits_bind; [by apply emits_removePodCgroup|]. intros _.
    by apply emits_removePodFromState. }
  destruct (Htail _ _ _ Hrun) as (n2 & Ht2 & Hn2).
  exists (n2 ++ n1)%list. rewrite Ht2, Ht1, app_assoc.
  split; [done|]. by rewrite forallb_app, Hn2, Hn1.
Qed.

(** *** The cgroup backend *)


(** *** Containers that were never started *)

Lemma forCtrs_Forall {A} (body : A -> M (Container * World) A)
    (Q : Container -> Prop) :
  (forall acc c w r c' w', body acc (c, w) = (r, (c', w')) -> Q c -> Q c') ->
  forall cs acc w r cs' w',
    forCtrs body acc cs w = (r, cs', w') -> Forall Q cs -> Forall Q cs'.
Proof.
  intros Hbody cs. induction cs as [|c cs IH]; intros acc w r cs' w' Hrun HQ.
  - cbn in Hrun. by simplify_eq.
  - apply Forall_cons in HQ as [Hc Hcs]. cbn in Hrun.
    destruct (body acc (c, w)) as [[acc'|e] [c1 w1]] eqn:Hstep;
      pose proof (Hbody _ _ _ _ _ _ Hstep Hc) as Hc1.
    + destruct (forCtrs body acc' cs w1) as [[r2 cs2] w2] eqn:Hrest.
      simplify_eq. apply Forall_cons. split; [done|]. by eapply IH.
    + simplify_eq. by apply Forall_cons.
Qed.

Lemma forCtrs_emits_on {A} (ok : Call -> bool)
    (body : A -> M (Container * World) A) (Q : Container -> Prop) :
  (forall acc c w r c' w',
      Q c -> body acc (c, w) = (r, (c', w')) ->
      exists new, trace w' = (new ++ trace w)%list /\ forallb ok new = true) ->
  forall cs acc w r cs' w',
    Forall Q cs ->
    forCtrs body acc cs w = (r, cs', w') ->
    exists new, trace w' = (new ++ trace w)%list /\ forallb ok new = true.
Proof.
  intros Hbody cs. induction cs as [|c cs IH]; intros acc w r cs' w' HQ Hrun.
  - cbn in Hrun. simplify_eq. by exists [].
  - apply Forall_cons in HQ as [Hc Hcs]. cbn in Hrun.
    destruct (body acc (c, w)) as [[acc'|e] [c1 w1]] eqn:Hstep;
      destruct (Hbody _ _ _ _ _ _ Hc Hstep) as (n1 & Ht1 & Hn1).
    + destruct (forCtrs body acc' cs w1) as [[r2 cs2] w2] eqn:Hrest.
      simplify_eq. destruct (IH _ _ _ _ _ Hcs Hrest) as (n2 & Ht2 & Hn2).
      exists (n2 ++ n1)%list. rewrite Ht2, Ht1, app_assoc.
      split; [done|]. by rewrite forallb_app, Hn2, Hn1.
    + simplify_eq. by exists n1.
Qed.

Lemma stopCtr_keeps_configured env (id : string) acc c w r c' w' :
  stopCtr env acc (c, w) = (r, (c', w')) ->
  (ctr_ID c = id -> ctr_State c = ContainerStateConfigured) ->
  (ctr_ID c' = id -> ctr_State c' = ContainerStateConfigured).
Proof.
  intros Hrun Hc Hid.
  destruct (stopCtr_others _ _ _ _ _ _ _ Hrun) as [Hsame _].
  rewrite Hsame in Hid. specialize (Hc Hid).
  unfold stopCtr, syncCtr, syncContainer, ociRuntime_stopContainer,
    ociRuntime_execStopContainer, wrapErr, liftC, getCtr, setCtr, call, bind,
    ret, fail, get, modify in Hrun.
  cbn in Hrun. rewrite Hc in Hrun.
  rewrite bool_decide_eq_false_2 in Hrun by done. cbn in Hrun.
  destruct (negb _); cbn in Hrun; [|by simplify_eq].
  by destruct (fault env _ _); simplify_eq.
Qed.

Lemma removeCtr_spares_configured env (id : string) acc c w r c' w' :
  (ctr_ID c = id -> ctr_State c = ContainerStateConfigured) ->
  removeCtr env acc (c, w) = (r, (c', w')) ->
  exists new,
    trace w' = (new ++ trace w)%list /\ forallb (notDelete id) new = true.
Proof.
  intros Hc Hrun.
  assert (ctr_State c <> ContainerStateConfigured ->
          notDelete id (CallDelete (ctr_ID c)) = true) as Hdel.
  { intros Hne. cbn. apply negb_true_iff, String.eqb_neq. naive_solver. }
  unfold removeCtr, cleanup, teardownStorage, delete, liftC, getCtr, call,
    bind, ret in Hrun.
  cbn in Hrun.
  destruct (fault env (trace w) _); cbn in Hrun.
  { simplify_eq. by eexists [_]. }
  destruct (fault env (_ :: trace w) _); cbn in Hrun.
  { simplify_eq. by eexists [_; _]. }
  destruct (bool_decide (ctr_State c = ContainerStateConfigured)) eqn:Hst;
    cbn in Hrun.
  { simplify_eq. by eexists [_; _]. }
  apply bool_decide_eq_false in Hst.
  destruct (fault env _ _); simplify_eq; eexists [_; _; _]; cbn;
    by rewrite (Hdel Hst).
Qed.

Lemma removeContainers_spares_configured env removeCtrs force w p
    (id : string) (rc : CtrRecord) r s5 :
  st_ctrs w !! id = Some rc ->
  rec_State rc = ContainerStateConfigured ->
  removeContainers env removeCtrs force (mkMachine w p []) = (r, s5) ->
  exists new,
    trace (world s5) = (new ++ trace w)%list
    /\ forallb (notDelete id) new = true.
Proof.
  intros Hrc Hconf. rewrite removeContainers_unfold. cbn zeta.
  set (w1 := withTrace (CallPodContainers (pod_ID p) :: trace w) w).
  assert (trace w1 = ([CallPodContainers (pod_ID p)] ++ trace w)%list) as Ht0
    by done.
  destruct (fault env (trace w) (CallPodContainers (pod_ID p))).
  { intros [= <- <-]. by exists [CallPodContainers (pod_ID p)]. }
  destruct (negb removeCtrs && _).
  { intros [= <- <-]. by exists [CallPodContainers (pod_ID p)]. }
  assert (forall (n t : list Call),
    t = (n ++ trace w1)%list -> forallb (notDelete id) n = true ->
    exists new,
      t = (new ++ trace w)%list /\ forallb (notDelete id) new = true)
    as Hglue.
  { intros n t Ht Hn. exists (n ++ [CallPodContainers (pod_ID p)])%list.
    rewrite Ht, Ht0, app_assoc. split; [done|].
    by rewrite forallb_app, Hn. }
  assert (Forall (freshView w1) (members (pod_ID p) (st_ctrs w))) as Hfresh.
  { eapply Forall_impl; [apply members_fresh|]. intros x.
    apply freshView_onlyQueries.
    apply onlyQueries_call; [done|apply onlyQueries_refl]. }
  destruct (forCtrs (lockAndCheck env force) ∅ _ w1)
    as [[r1 cs1] w2] eqn:H1.
  destruct (emits_forCtrs (notDelete id) (lockAndCheck env force)
              ltac:(intros ?; solve_emits) _ _ _ _ _ _ H1)
    as (n1 & Ht1 & Hn1).
  destruct (lockAndCheck_loop _ _ _ _ _ _ _ _ Hfresh H1) as (_ & -> & _).
  destruct r1 as [deps|e].
  2:{ intros [= <- <-]. by apply (Hglue n1). }
  destruct (depsInPod deps).
  2:{ intros [= <- <-]. by apply (Hglue n1). }
  assert (Forall (fun c => ctr_ID c = id ->
                           ctr_State c = ContainerStateConfigured)
            (members (pod_ID p) (st_ctrs w))) as Hconfigured.
  { apply Forall_forall. intros c Hc%list_elem_of_In%members_In Hid.
    destruct Hc as (r0 & Hr0 & _ & ->). cbn in *. by simplify_eq. }
  destruct (if force
            then forCtrs (stopCtr env) tt (members (pod_ID p) (st_ctrs w)) w2
            else (Ok tt, members (pod_ID p) (st_ctrs w), w2))
    as [[r3 cs3] w3] eqn:H3.
  assert ((exists n3, trace w3 = (n3 ++ trace w2)%list
                      /\ forallb (notDelete id) n3 = true)
          /\ Forall (fun c => ctr_ID c = id ->
                              ctr_State c = ContainerStateConfigured) cs3)
    as [(n3 & Ht3 & Hn3) Hconfigured3].
  { destruct force.
    - split.
      + exact (emits_forCtrs (notDelete id) (stopCtr env)
                 ltac:(intros ?; solve_emits) _ _ _ _ _ _ H3).
      + eapply (forCtrs_Forall (stopCtr env)); [|exact H3|exact Hconfigured].
        intros acc c w0 r0 c' w' Hstep.
        by apply (stopCtr_keeps_configured env id acc c w0 r0 c' w').
    - simplify_eq. split; [by exists []|done]. }
  assert (forallb (notDelete id) (n3 ++ n1) = true) as Hn31
    by (by rewrite forallb_app, Hn3, Hn1).
  assert (trace w3 = ((n3 ++ n1) ++ trace w1)%list) as Ht31
    by (by rewrite Ht3, Ht1, app_assoc).
  destruct r3 as [[]|e].
  2:{ intros [= <- <-]. by apply (Hglue (n3 ++ n1)%list). }
  destruct (forCtrs (removeCtr env) tt cs3 w3) as [[r4 cs4] w4] eqn:H4.
  destruct (forCtrs_emits_on (notDelete id) (removeCtr env) _
              (removeCtr_spares_configured env id) _ _ _ _ _ _
              Hconfigured3 H4) as (n4 & Ht4 & Hn4).
  assert (forallb (notDelete id) (n4 ++ n3 ++ n1) = true) as Hn431
    by (by rewrite forallb_app, Hn4, Hn31).
  assert (trace w4 = ((n4 ++ n3 ++ n1) ++ trace w1)%list) as Ht431
    by (by rewrite Ht4, Ht31, app_assoc).
  destruct r4 as [[]|e].
  2:{ intros [= <- <-]. by apply (Hglue (n4 ++ n3 ++ n1)%list). }
  destruct (fault env _ _); intros [= <- <-]; cbn;
    apply (Hglue (CallRemovePodContainers (pod_ID p) :: n4 ++ n3 ++ n1)%list);
    cbn; by rewrite ?Ht431, ?Hn431.
Qed.

(** X17. A container that the store records as never started (state
    Configured) is never deleted from the OCI runtime by RemovePod,
    whatever the pod, the flags and the environment. *)
Theorem RemovePod_never_deletes_configured (env : Env) (p : Pod)
    (removeCtrs force : bool) (w : World) (id : string) (rc : CtrRecord) :
  st_ctrs w !! id = Some rc ->
  rec_State rc = ContainerStateConfigured ->
  exists new,
    traceAfter (RemovePod env p removeCtrs force w) = (new ++ trace w)%list
    /\ forallb (notDelete id) new = true.
Proof.
  intros Hrc Hconf. unfold traceAfter.
  destruct (RemovePod env p removeCtrs force w) as [r s'] eqn:Hrun. cbn.
  destruct (r_valid w) eqn:Hvalid.
  2:{ unfold RemovePod, bind, get, fail in Hrun. cbn in Hrun.
      rewrite Hvalid in Hrun. cbn in Hrun. simplify_eq. by exists []. }
  destruct (pod_valid p) eqn:Hpvalid.
  2:{ unfold RemovePod, bind, get, fail in Hrun. cbn in Hrun.
      rewrite Hvalid, Hpvalid in Hrun. cbn in Hrun. simplify_eq.
      by exists []. }
  rewrite RemovePod_phases in Hrun by done.
  unfold bind at 1 in Hrun.
  destruct (removeContainers env removeCtrs force (mkMachine w p []))
    as [[[]|e] s5] eqn:Hctrs;
    destruct (removeContainers_spares_configured _ _ _ _ _ _ _ _ _
                Hrc Hconf Hctrs) as (n1 & Ht1 & Hn1).
  2:{ simplify_eq. by exists n1. }
  assert (emits (fun s => trace (world s)) (notDelete id)
            (bind (removePodCgroup env) (fun _ => removePodFromState env)))
    as Htail.
  { apply emits_bind; [by apply emits_removePodCgroup|]. intros _.
    by apply emits_removePodFromState. }
  destruct (Htail _ _ _ Hrun) as (n2 & Ht2 & Hn2).
  exists (n2 ++ n1)%list. rewrite Ht2, Ht1, app_assoc.
  split; [done|]. by rewrite forallb_app, Hn2, Hn1.
Qed.

(** *** Checks first, stops next, removal last *)

Lemma members_OK_inv (force : bool) (pid : string) (w : World) :
  forallb (ctrOK force) (members pid (st_ctrs w)) = true ->
  forall k r,
    st_ctrs w !! k = Some r -> rec_Pod r = Some pid ->
    rec_State r <> ContainerStatePaused
    /\ rec_State r <> ContainerStateUnknown
    /\ (force = false ->
        rec_State r <> ContainerStateRunning /\ rec_ExecSessions r = []).
Proof.
  intros Hall k r Hr Hpod. rewrite forallb_forall in Hall.
  assert (In (viewOf k r) (members pid (st_ctrs w))) as Hin.
  { apply members_In. by exists r. }
  specialize (Hall _ Hin). unfold ctrOK in Hall. cbn in Hall.
  apply andb_prop in Hall as [Hall Hexec].
  apply andb_prop in Hall as [Hall Hrun].
  apply andb_prop in Hall as [Hpaused Hunknown].
  apply negb_true_iff, bool_decide_eq_false in Hpaused, Hunknown.
  split; [done|]. split; [done|]. intros ->.
  rewrite andb_true_r in Hrun, Hexec.
  apply negb_true_iff, bool_decide_eq_false in Hrun.
  split; [done|]. apply negb_true_iff, negb_false_iff in Hexec.
  by destruct (rec_ExecSessions r).
Qed.

Lemma depsInPod_true_inv (m : gmap string (list string)) (k : string)
    (deps : list string) (d : string) :
  depsInPod m = true -> m !! k = Some deps -> In d deps -> is_Some (m !! d).
Proof.
  unfold depsInPod. rewrite forallb_forall. intros Hall Hk Hd.
  assert (In (k, deps) (map_to_list m)) as Hin
    by (by apply list_elem_of_In, elem_of_map_to_list).
  specialize (Hall _ Hin). cbn in Hall. rewrite forallb_forall in Hall.
  specialize (Hall _ Hd). by apply bool_decide_eq_true in Hall.
Qed.

Lemma removeContainers_validates_first env removeCtrs force w p r s5 :
  removeContainers env removeCtrs force (mkMachine w p []) = (r, s5) ->
  (exists e, r = Err e /\ onlyQueries w (world s5))
  \/ ((forall k rc,
          st_ctrs w !! k = Some rc -> rec_Pod rc = Some (pod_ID p) ->
          rec_State rc <> ContainerStatePaused
          /\ rec_State rc <> ContainerStateUnknown
          /\ (force = false ->
              rec_State rc <> ContainerStateRunning
              /\ rec_ExecSessions rc = []))
      /\ (forall k rc d,
             st_ctrs w !! k = Some rc -> rec_Pod rc = Some (pod_ID p) ->
             In d (rec_InUseBy rc) -> isMember w (pod_ID p) d)).
Proof.
  rewrite removeContainers_unfold. cbn zeta.
  set (w1 := withTrace (CallPodContainers (pod_ID p) :: trace w) w).
  assert (onlyQueries w w1) as Hq1
    by (apply onlyQueries_call; [done|apply onlyQueries_refl]).
  destruct (fault env (trace w) (CallPodContainers (pod_ID p))).
  { intros [= <- <-]. left. by eexists. }
  destruct (negb removeCtrs && _).
  { intros [= <- <-]. left. by eexists. }
  assert (Forall (freshView w1) (members (pod_ID p) (st_ctrs w))) as Hfresh.
  { eapply Forall_impl; [apply members_fresh|]. intros x.
    by apply freshView_onlyQueries. }
  destruct (forCtrs (lockAndCheck env force) ∅ _ w1)
    as [[r1 cs1] w2] eqn:H1.
  destruct (lockAndCheck_loop _ _ _ _ _ _ _ _ Hfresh H1) as (Hq2 & -> & Hok).
  assert (onlyQueries w w2) as Hq by (by eapply onlyQueries_trans).
  destruct r1 as [deps|e].
  2:{ intros [= <- <-]. left. by eexists. }
  destruct (Hok _ eq_refl) as [Hall ->].
  destruct (depsInPod _) eqn:Hdeps.
  2:{ intros [= <- <-]. left. by eexists. }
  intros _. right. split; [by apply members_OK_inv|].
  intros k rc d Hrc Hpod Hd.
  apply (members_ID _ w).
  destruct (depsInPod_true_inv _ k (rec_InUseBy rc) d Hdeps) as [x Hx];
    [|done|].
  { rewrite dependencies_lookup, decide_True.
    - unfold inUse. cbn. by rewrite Hrc.
    - apply (members_ID _ w). by exists rc. }
  rewrite dependencies_lookup in Hx.
  destruct (decide _); [done|]. by rewrite lookup_empty in Hx.
Qed.

(** X18. RemovePod checks before it acts: in every run, either it has
    made queries only (and has returned an error), or every container of
    the pod passed the state checks and every container that depends on
    one of them is in the pod. *)
Theorem RemovePod_validates_first (env : Env) (p : Pod)
    (removeCtrs force : bool) (w : World) :
  (exists e,
      (RemovePod env p removeCtrs force w).1 = Err e
      /\ onlyQueries w (world (RemovePod env p removeCtrs force w).2))
  \/ ((forall k rc,
          st_ctrs w !! k = Some rc -> rec_Pod rc = Some (pod_ID p) ->
          rec_State rc <> ContainerStatePaused
          /\ rec_State rc <> ContainerStateUnknown
          /\ (force = false ->
              rec_State rc <> ContainerStateRunning
              /\ rec_ExecSessions rc = []))
      /\ (forall k rc d,
             st_ctrs w !! k = Some rc -> rec_Pod rc = Some (pod_ID p) ->
             In d (rec_InUseBy rc) -> isMember w (pod_ID p) d)).
Proof.
  destruct (r_valid w) eqn:Hvalid.
  2:{ left. unfold RemovePod, bind, get, fail. cbn. rewrite Hvalid. cbn.
      eexists. split; [done|apply onlyQueries_refl]. }
  destruct (pod_valid p) eqn:Hpvalid.
  2:{ left. unfold RemovePod, bind, get, fail. cbn.
      rewrite Hvalid, Hpvalid. cbn.
      eexists. split; [done|apply onlyQueries_refl]. }
  rewrite RemovePod_phases by done.
  destruct (removeContainers env removeCtrs force (mkMachine w p []))
    as [r5 s5] eqn:Hctrs.
  destruct (removeContainers_validates_first _ _ _ _ _ _ _ Hctrs)
    as [(e & -> & Hq) | Hchecked]; [|by right].
  left. rewrite (bind_Err _ _ _ _ _ Hctrs). by eexists.
Qed.

Lemma removeContainers_stops_first env removeCtrs force w p r s5 :
  removeContainers env removeCtrs force (mkMachine w p []) = (r, s5) ->
  exists late early,
    trace (world s5) = (late ++ early ++ trace w)%list
    /\ forallb notStop late = true
    /\ forallb notTakedown early = true.
Proof.
  rewrite removeContainers_unfold. cbn zeta.
  set (w1 := withTrace (CallPodContainers (pod_ID p) :: trace w) w).
  assert (forall (late early t : list Call),
    t = (late ++ early ++ trace w1)%list ->
    forallb notStop late = true -> forallb notTakedown early = true ->
    exists late' early',
      t = (late' ++ early' ++ trace w)%list
      /\ forallb notStop late' = true
      /\ forallb notTakedown early' = true) as Hglue.
  { intros late early t -> Hl He.
    exists late, (early ++ [CallPodContainers (pod_ID p)])%list.
    split; [by rewrite <- !app_assoc|]. split; [done|].
    by rewrite forallb_app, He. }
  destruct (fault env (trace w) (CallPodContainers (pod_ID p))).
  { intros [= <- <-]. by apply (Hglue [] []). }
  destruct (negb removeCtrs && _).
  { intros [= <- <-]. by apply (Hglue [] []). }
  destruct (forCtrs (lockAndCheck env force) ∅ _ w1)
    as [[r1 cs1] w2] eqn:H1.
  destruct (emits_forCtrs notTakedown (lockAndCheck env force)
              ltac:(intros ?; solve_emits) _ _ _ _ _ _ H1)
    as (n1 & Ht1 & Hn1).
  destruct r1 as [deps|e].
  2:{ intros [= <- <-]. by apply (Hglue [] n1). }
  destruct (depsInPod deps).
  2:{ intros [= <- <-]. by apply (Hglue [] n1). }
  destruct (if force then forCtrs (stopCtr env) tt cs1 w2
            else (Ok tt, cs1, w2)) as [[r3 cs3] w3] eqn:H3.
  assert (exists n3, trace w3 = (n3 ++ trace w2)%list
                     /\ forallb notTakedown n3 = true) as (n3 & Ht3 & Hn3).
  { destruct force; [|simplify_eq; by exists []].
    exact (emits_forCtrs notTakedown (stopCtr env)
             ltac:(intros ?; solve_emits) _ _ _ _ _ _ H3). }
  assert (forallb notTakedown (n3 ++ n1) = true) as Hearly
    by (by rewrite forallb_app, Hn3, Hn1).
  assert (trace w3 = ([] ++ (n3 ++ n1) ++ trace w1)%list) as Ht31
    by (cbn; by rewrite Ht3, Ht1, app_assoc).
  destruct r3 as [[]|e].
  2:{ intros [= <- <-]. by apply (Hglue [] (n3 ++ n1)%list). }
  destruct (forCtrs (removeCtr env) tt cs3 w3) as [[r4 cs4] w4] eqn:H4.
  destruct (emits_forCtrs notStop (removeCtr env)
              ltac:(intros ?; solve_emits) _ _ _ _ _ _ H4)
    as (n4 & Ht4 & Hn4).
  assert (trace w4 = (n4 ++ (n3 ++ n1) ++ trace w1)%list) as Ht431
    by (by rewrite Ht4, Ht31).
  destruct r4 as [[]|e].
  2:{ intros [= <- <-]. by apply (Hglue n4 (n3 ++ n1)%list). }
  destruct (fault env _ _); intros [= <- <-]; cbn;
    apply (Hglue (CallRemovePodContainers (pod_ID p) :: n4) (n3 ++ n1)%list);
    cbn; by rewrite ?Ht431.
Qed.

(** X19. RemovePod stops before it removes: in every run the calls it
    adds to the trace split in two, an earlier part with no cleanup,
    storage teardown or deletion of a container, and a later part with no
    stop of a container or of its exec sessions. *)
Theorem RemovePod_stops_before_removing (env : Env) (p : Pod)
    (removeCtrs force : bool) (w : World) :
  exists late early,
    traceAfter (RemovePod env p removeCtrs force w)
    = (late ++ early ++ trace w)%list
    /\ forallb notStop late = true
    /\ forallb notTakedown early = true.
Proof.
  unfold traceAfter.
  destruct (RemovePod env p removeCtrs force w) as [r s'] eqn:Hrun. cbn.
  destruct (r_valid w) eqn:Hvalid.
  2:{ unfold RemovePod, bind, get, fail in Hrun. cbn in Hrun.
      rewrite Hvalid in Hrun. cbn in Hrun. simplify_eq. by exists [], []. }
  destruct (pod_valid p) eqn:Hpvalid.
  2:{ unfold RemovePod, bind, get, fail in Hrun. cbn in Hrun.
      rewrite Hvalid, Hpvalid in Hrun. cbn in Hrun. simplify_eq.
      by exists [], []. }
  rewrite RemovePod_phases in Hrun by done.
  unfold bind at 1 in Hrun.
  destruct (removeContainers env removeCtrs force (mkMachine w p []))
    as [[[]|e] s5] eqn:Hctrs;
    destruct (removeContainers_stops_first _ _ _ _ _ _ _ Hctrs)
      as (late & early & Ht & Hlate & Hearly).
  2:{ simplify_eq. by exists late, early. }
  assert (emits (fun s => trace (world s)) notStop
            (bind (removePodCgroup env) (fun _ => removePodFromState env)))
    as Htail.
  { apply emits_bind; [by apply emits_removePodCgroup|]. intros _.
    by apply emits_removePodFromState. }
  destruct (Htail _ _ _ Hrun) as (n2 & Ht2 & Hn2).
  exists (n2 ++ late)%list, early. rewrite Ht2, Ht, <- app_assoc.
  split; [done|]. split; [|done]. by rewrite forallb_app, Hn2, Hlate.
Qed.

(** *** The further properties at concrete worlds *)

Lemma NewPod_failing_option_witness :
  NewPod Examples.env0
    [Examples.withParent "custom.slice"; MoreExamples.refuse;
     Examples.withPodCgroup]
    (Examples.emptyWorld SystemdCgroupsManager)
  = (Err (Wrapf (ErrOther "refused") "error running pod create option"),
     withTrace [CallNewPod] (Examples.emptyWorld SystemdCgroupsManager)).
Proof.
  exact (NewPod_failing_option Examples.env0
           [Examples.withParent "custom.slice"] [Examples.withPodCgroup]
           MoreExamples.refuse (Examples.emptyWorld SystemdCgroupsManager)
           _ (ErrOther "refused") eq_refl eq_refl eq_refl eq_refl).
Defined.

Lemma NewPod_cgroupfs_rejects_slice_witness :
  NewPod Examples.env0 [Examples.withParent "/machine/custom.slice"]
    (Examples.emptyWorld CgroupfsCgroupsManager)
  = (Err (Wrapf ErrInvalidArg
            "systemd slice received as cgroup parent when using cgroupfs"),
     withTrace [CallGenerateName; CallNewPod]
       (Examples.emptyWorld CgroupfsCgroupsManager)).
Proof.
  exact (NewPod_cgroupfs_rejects_slice Examples.env0
           [Examples.withParent "/machine/custom.slice"]
           (Examples.emptyWorld CgroupfsCgroupsManager) _
           eq_refl (fun _ => eq_refl) (fun _ => eq_refl) eq_refl eq_refl
           ltac:(discriminate) eq_refl).
Defined.

Lemma NewPod_systemd_rejects_non_slice_witness :
  NewPod Examples.env0 [Examples.withParent "/libpod_parent"]
    (Examples.emptyWorld SystemdCgroupsManager)
  = (Err (Wrapf ErrInvalidArg
            "did not receive systemd slice as cgroup parent when using systemd to manage cgroups"),
     withTrace [CallGenerateName; CallNewPod]
       (Examples.emptyWorld SystemdCgroupsManager))
  /\ NewPod Examples.env0 [Examples.withParent "abc"]
       (Examples.emptyWorld SystemdCgroupsManager)
     = (Err (Wrapf ErrInvalidArg
               "did not receive systemd slice as cgroup parent when using systemd to manage cgroups"),
        withTrace [CallGenerateName; CallNewPod]
          (Examples.emptyWorld SystemdCgroupsManager)).
Proof.
  split.
  - exact (NewPod_systemd_rejects_non_slice Examples.env0
             [Examples.withParent "/libpod_parent"]
             (Examples.emptyWorld SystemdCgroupsManager) _
             eq_refl (fun _ => eq_refl) (fun _ => eq_refl) eq_refl eq_refl
             ltac:(discriminate) (or_intror eq_refl)).
  - apply (NewPod_systemd_rejects_non_slice Examples.env0
             [Examples.withParent "abc"]
             (Examples.emptyWorld SystemdCgroupsManager)
             (setCgroupParent "abc"
                (freshPod Examples.env0
                   (Examples.emptyWorld SystemdCgroupsManager))));
      [reflexivity | reflexivity | reflexivity | reflexivity | reflexivity
      | discriminate | left; cbn; lia].
Defined.

Lemma NewPod_unsupported_manager_witness :
  NewPod Examples.env0 [Examples.withPodCgroup] (Examples.emptyWorld "none")
  = (Err (Wrapf ErrInvalidArg
            "unsupported CGroup manager: %s - cannot validate cgroup parent"),
     withTrace [CallGenerateName; CallNewPod] (Examples.emptyWorld "none")).
Proof.
  exact (NewPod_unsupported_manager Examples.env0 [Examples.withPodCgroup]
           (Examples.emptyWorld "none") _
           eq_refl (fun _ => eq_refl) (fun _ => eq_refl) eq_refl
           ltac:(discriminate) ltac:(discriminate)).
Defined.

Lemma NewPod_persists_witness :
  exists pod,
    st_pods (NewPod Examples.env0 [Examples.withParent "custom.slice"]
               (Examples.emptyWorld SystemdCgroupsManager)).2 = [pod]
    /\ Name (pod_config pod) = "quiet_pod"
    /\ CgroupParent (pod_config pod) = "custom.slice"
    /\ (HasPod Examples.env0 "5f3c"
          (NewPod Examples.env0 [Examples.withParent "custom.slice"]
             (Examples.emptyWorld SystemdCgroupsManager)).2).1 = Ok true.
Proof.
  assert (6 <= String.length "custom.slice") as Hlen by (cbn; lia).
  destruct (NewPod_persists Examples.env0 [Examples.withParent "custom.slice"]
              (Examples.emptyWorld SystemdCgroupsManager)
              (setCgroupParent "custom.slice"
                 (freshPod Examples.env0
                    (Examples.emptyWorld SystemdCgroupsManager)))
              env0_noFaults eq_refl eq_refl
              (or_intror (conj eq_refl (or_intror (conj Hlen eq_refl)))))
    as (pod & Hpods & _ & _ & Hname & Hparent & _ & _ & _ & Hhas & _).
  exists pod. split; [exact Hpods|]. split; [exact Hname|].
  split; [exact Hparent | exact Hhas].
Defined.

Lemma twoPods_A_outside : ~ isMember MoreExamples.twoPods "p2" "A".
Proof. intros (r & Hr & Hpod). vm_compute in Hr. by simplify_eq. Qed.

Lemma twoPods_p2_states (k : string) (r : CtrRecord) :
  st_ctrs MoreExamples.twoPods !! k = Some r ->
  rec_Pod r = Some "p2" ->
  rec_State r <> ContainerStatePaused
  /\ rec_State r <> ContainerStateUnknown
  /\ (true = false ->
      rec_State r <> ContainerStateRunning /\ rec_ExecSessions r = []).
Proof.
  intros Hr Hpod. cbn in Hr.
  repeat (rewrite lookup_insert in Hr;
          destruct (decide _) in Hr; [by simplify_eq|]).
  by rewrite lookup_empty in Hr.
Qed.

Lemma twoPods_p2_closed (k : string) (r : CtrRecord) (d : string) :
  st_ctrs MoreExamples.twoPods !! k = Some r ->
  rec_Pod r = Some "p2" ->
  In d (rec_InUseBy r) ->
  isMember MoreExamples.twoPods "p2" d.
Proof.
  intros Hr Hpod Hd. cbn in Hr.
  repeat (rewrite lookup_insert in Hr;
          destruct (decide _) in Hr;
          [simplify_eq; cbn in Hd; try done|]).
  - destruct Hd as [<-|[]].
    exists (Examples.rec ContainerStateConfigured (Some "p2") []).
    split; reflexivity.
  - by rewrite lookup_empty in Hr.
Qed.

Lemma RemovePod_twice_witness :
  RemovePod Examples.env0
    (pod (RemovePod Examples.env0 Examples.idle false false
            (Examples.podsWorld CgroupfsCgroupsManager)).2)
    true true
    (world (RemovePod Examples.env0 Examples.idle false false
              (Examples.podsWorld CgroupfsCgroupsManager)).2)
  = (Err ErrPodRemoved,
     mkMachine
       (world (RemovePod Examples.env0 Examples.idle false false
                 (Examples.podsWorld CgroupfsCgroupsManager)).2)
       (pod (RemovePod Examples.env0 Examples.idle false false
               (Examples.podsWorld CgroupfsCgroupsManager)).2)
       []).
Proof.
  apply (RemovePod_twice Examples.env0 Examples.idle false false
           (Examples.podsWorld CgroupfsCgroupsManager)).
  by vm_compute.
Defined.

Lemma RemovePod_pod_not_empty_witness :
  (RemovePod Examples.env0 Examples.web false true
     (Examples.depWorld ContainerStateStopped)).1
  = Err (Wrapf ErrCtrExists
           "pod %s contains containers and cannot be removed")
  /\ trace (world (RemovePod Examples.env0 Examples.web false true
                     (Examples.depWorld ContainerStateStopped)).2)
     = [CallPodContainers "p1"].
Proof.
  rewrite (RemovePod_pod_not_empty Examples.env0 Examples.web true
             (Examples.depWorld ContainerStateStopped) "A"
             eq_refl eq_refl eq_refl).
  - split; reflexivity.
  - exists (Examples.rec ContainerStateStopped (Some "p1") ["C"]).
    split; reflexivity.
Defined.

Lemma RemovePod_bad_state_witness :
  exists e s',
    RemovePod Examples.env0 Examples.db true false MoreExamples.twoPods
    = (Err e, s')
    /\ Cause e = ErrCtrStateInvalid
    /\ onlyQueries MoreExamples.twoPods (world s').
Proof.
  destruct (RemovePod_bad_state Examples.env0 Examples.db false
              MoreExamples.twoPods "D"
              (mkCtrRecord ContainerStateRunning ["s1"] 10 (Some "p2") ["E"])
              env0_noFaults eq_refl eq_refl eq_refl eq_refl
              (or_intror (conj eq_refl (or_introl eq_refl))))
    as (e & s' & Hrun & Hcause & Hq & _).
  exists e, s'. split; [exact Hrun|]. split; [exact Hcause | exact Hq].
Defined.

Lemma RemovePod_succeeds_witness :
  exists s',
    RemovePod Examples.env0 Examples.db true true MoreExamples.twoPods
    = (Ok tt, s')
    /\ map pod_ID (st_pods (world s')) = ["p1"]
    /\ map ctr_ID (ctrs s') = ["E"; "D"]
    /\ cgroups (world s') = [].
Proof.
  destruct (RemovePod_succeeds Examples.env0 Examples.db true
              MoreExamples.twoPods env0_noFaults eq_refl eq_refl
              twoPods_p2_states twoPods_p2_closed
              (or_intror (or_intror eq_refl)))
    as (s' & Hrun & _).
  exists s'. split; [exact Hrun|].
  revert Hrun. vm_compute. intros [= <-]. repeat split.
Defined.

Lemma RemovePod_leaves_other_containers_witness :
  st_ctrs (world (RemovePod Examples.env0 Examples.db true true
                    MoreExamples.twoPods).2) !! "A"
  = Some (Examples.rec ContainerStateRunning (Some "p1") []).
Proof.
  rewrite (RemovePod_leaves_other_containers Examples.env0 Examples.db
             true true MoreExamples.twoPods "A" twoPods_A_outside).
  reflexivity.
Defined.


Lemma RemovePod_never_deletes_configured_witness :
  exists new,
    traceAfter (RemovePod Examples.env0 Examples.db true true
                  MoreExamples.twoPods)
    = (new ++ [])%list
    /\ forallb (notDelete "E") new = true.
Proof.
  exact (RemovePod_never_deletes_configured Examples.env0 Examples.db
           true true MoreExamples.twoPods "E"
           (Examples.rec ContainerStateConfigured (Some "p2") [])
           eq_refl eq_refl).
Defined.

(** *** More on pod creation *)

(** X20. The cgroup path of the pod that NewPod persists: in systemd
    mode with UsePodCgroup it is the join of the pod's cgroup parent (the
    default one if the options set none) and its ID; in systemd mode
    without UsePodCgroup, and in cgroupfs mode whatever UsePodCgroup is,
    it is what the options left. *)
Theorem NewPod_pod_cgroup_path (env : Env) (options : list PodCreateOption)
    (w : World) (p1 : Pod) :
  noFaults env ->
  r_valid w = true ->
  runOptions options (freshPod env w) = Ok p1 ->
  (r_CgroupManager w = CgroupfsCgroupsManager
   /\ (CgroupParent (pod_config p1) = ""
       \/ GoPath.HasSuffix (GoPath.Base (CgroupParent (pod_config p1)))
            ".slice" = false))
  \/ (r_CgroupManager w = SystemdCgroupsManager
      /\ (CgroupParent (pod_config p1) = ""
          \/ (6 <= String.length (CgroupParent (pod_config p1))
              /\ GoPath.HasSuffix (GoPath.Base (CgroupParent (pod_config p1)))
                   ".slice" = true))) ->
  exists pod,
    st_pods (NewPod env options w).2
    = (List.filter (fun q => negb (hasID (pod_ID p1) q)) (st_pods w)
       ++ [pod])%list
    /\ CgroupPath (pod_state pod)
       = cgroupPathFor env (r_CgroupManager w) p1.
Proof.
  intros Hnf Hvalid Hrun Hfits.
  run_NewPod. rewrite Hvalid. cbn_go. rewrite Hnf. cbn_go.
  fold (freshPod env w). rewrite Hrun.
  unfold cgroupPathFor, parentFor.
  destruct Hfits as [[Hmgr Hparent] | [Hmgr Hparent]]; rewrite Hmgr; cbn_go.
  - destruct (String.eqb (Name (pod_config p1)) "") eqn:Hname; cbn_go;
      rewrite ?Hnf; cbn_go;
      destruct (String.eqb (CgroupParent (pod_config p1)) "") eqn:Hempty;
      cbn_go; rewrite ?Hnf; cbn_go.
    all: try (eexists; split; [reflexivity|]; by cbn_go).
    all: destruct Hparent as [Hparent | Hparent];
      [by apply String.eqb_neq in Hempty|].
    all: rewrite Hparent; cbn_go; rewrite Hnf; cbn_go.
    all: eexists; split; [reflexivity|]; by cbn_go.
  - assert (CgroupParent (pod_config p1) <> "" ->
            (String.length (CgroupParent (pod_config p1)) <? 6)%nat
            || negb (GoPath.HasSuffix
                       (GoPath.Base (CgroupParent (pod_config p1))) ".slice")
            = false) as Hcheck.
    { intros Hne. destruct Hparent as [?|[Hlen Hsuffix]]; [done|].
      apply Nat.ltb_ge in Hlen. by rewrite Hlen, Hsuffix. }
    destruct (String.eqb (Name (pod_config p1)) "") eqn:Hname; cbn_go;
      rewrite ?Hnf; cbn_go;
      destruct (String.eqb (CgroupParent (pod_config p1)) "") eqn:Hempty;
      cbn_go; rewrite ?Hnf; cbn_go.
    all: try (apply String.eqb_neq in Hempty; rewrite (Hcheck Hempty); cbn_go).
    all: destruct (UsePodCgroup (pod_config p1)) eqn:Huse; cbn_go;
      rewrite ?Hnf; cbn_go.
    all: eexists; split; [reflexivity|]; by cbn_go.
Qed.

(** X21. The error of NewPod tells whether a pod was persisted: unless
    NewPod returns ErrNotImplemented itself, it has left the world as it
    was but for the calls it made. *)
Theorem NewPod_error_tells (env : Env) (options : list PodCreateOption)
    (w : World) :
  (NewPod env options w).1 = Err ErrNotImplemented
  \/ exists new, (NewPod env options w).2 = withTrace (new ++ trace w) w.
Proof.
  destruct (NewPod env options w) as [r w'] eqn:Hrun. cbn [fst snd].
  revert Hrun. run_NewPod.
  destruct w as [valid manager pods cs cg t]. cbn_go.
  repeat (case_match; cbn_go_all; simplify_eq);
    intros; simplify_eq; cbn_go.
  all: try (by left).
  all: right; unfold withTrace; cbn_go.
  all: first [ by exists [] | by eexists [_] | by eexists [_; _]
             | by eexists [_; _; _] ].
Qed.

(** *** What a run of [RemovePod] leaves of the runtime *)





(** *** The containers of the pod: all of them stay, or none *)

Lemma samePods_refl (cs : gmap string CtrRecord) : samePods cs cs.
Proof. by intros k. Qed.

Lemma samePods_trans (cs1 cs2 cs3 : gmap string CtrRecord) :
  samePods cs1 cs2 -> samePods cs2 cs3 -> samePods cs1 cs3.
Proof. intros H12 H23 k. by rewrite H23, H12. Qed.

Lemma samePods_alter (f : CtrRecord -> CtrRecord) (id : string)
    (cs : gmap string CtrRecord) :
  (forall r, rec_Pod (f r) = rec_Pod r) ->
  samePods cs (alter f id cs).
Proof.
  intros Hf k. destruct (decide (id = k)) as [->|Hne].
  - rewrite lookup_alter_eq. destruct (cs !! k); cbn; [|done].
    by rewrite Hf.
  - by rewrite lookup_alter_ne.
Qed.

Lemma samePods_isMember (w w' : World) (pid k : string) :
  samePods (st_ctrs w) (st_ctrs w') ->
  isMember w' pid k <-> isMember w pid k.
Proof.
  intros Hsame. specialize (Hsame k). unfold isMember.
  destruct (st_ctrs w' !! k) as [r'|], (st_ctrs w !! k) as [r|];
    cbn in Hsame; simplify_eq.
  - split; intros (r0 & [= <-] & Hpod); eexists; (split; [done|]);
      congruence.
  - split; by intros (r0 & [=] & _).
Qed.

Lemma lockAndCheck_samePods env force cs0 acc c w r c' w' :
  lockAndCheck env force acc (c, w) = (r, (c', w')) ->
  samePods cs0 (st_ctrs w) ->
  samePods cs0 (st_ctrs w') /\ ctr_ID c' = ctr_ID c.
Proof. intros Hrun H0. run_ctr_body; by split. Qed.

Lemma stopCtr_samePods env cs0 acc c w r c' w' :
  stopCtr env acc (c, w) = (r, (c', w')) ->
  samePods cs0 (st_ctrs w) ->
  samePods cs0 (st_ctrs w') /\ ctr_ID c' = ctr_ID c.
Proof.
  intros Hrun H0. run_ctr_body; (split; [|done]); try done.
  all: repeat (eapply samePods_trans; [|by apply samePods_alter]); done.
Qed.

Lemma removeCtr_samePods env cs0 acc c w r c' w' :
  removeCtr env acc (c, w) = (r, (c', w')) ->
  samePods cs0 (st_ctrs w) ->
  samePods cs0 (st_ctrs w') /\ ctr_ID c' = ctr_ID c.
Proof. intros Hrun H0. run_ctr_body; by split. Qed.

Lemma removeContainers_all_or_none env removeCtrs force w p r s5 :
  removeContainers env removeCtrs force (mkMachine w p []) = (r, s5) ->
  samePods (st_ctrs w) (st_ctrs (world s5))
  \/ (r = Ok tt /\ forall k, ~ isMember (world s5) (pod_ID p) k).
Proof.
  rewrite removeContainers_unfold. cbn zeta.
  set (w1 := withTrace (CallPodContainers (pod_ID p) :: trace w) w).
  assert (samePods (st_ctrs w) (st_ctrs w1)) as H1 by apply samePods_refl.
  destruct (fault env (trace w) (CallPodContainers (pod_ID p))).
  { intros [= <- <-]. by left. }
  destruct (negb removeCtrs && _).
  { intros [= <- <-]. by left. }
  destruct (forCtrs (lockAndCheck env force) ∅ _ w1)
    as [[r1 cs1] w2] eqn:Hloop1.
  destruct (forCtrs_invariant _ (fun w' => samePods (st_ctrs w) (st_ctrs w'))
              (lockAndCheck_samePods env force (st_ctrs w))
              _ _ _ _ _ _ Hloop1 H1) as [H2 _].
  destruct r1 as [deps|e]; [|intros [= <- <-]; by left].
  destruct (depsInPod deps); [|intros [= <- <-]; by left].
  destruct (if force then forCtrs (stopCtr env) tt cs1 w2
            else (Ok tt, cs1, w2)) as [[r3 cs3] w3] eqn:Hloop2.
  assert (samePods (st_ctrs w) (st_ctrs w3)) as H3.
  { destruct force; [|by simplify_eq].
    by destruct (forCtrs_invariant _
                   (fun w' => samePods (st_ctrs w) (st_ctrs w'))
                   (stopCtr_samePods env (st_ctrs w))
                   _ _ _ _ _ _ Hloop2 H2). }
  destruct r3 as [[]|e]; [|intros [= <- <-]; by left].
  destruct (forCtrs (removeCtr env) tt cs3 w3) as [[r4 cs4] w4] eqn:Hloop3.
  destruct (forCtrs_invariant _ (fun w' => samePods (st_ctrs w) (st_ctrs w'))
              (removeCtr_samePods env (st_ctrs w))
              _ _ _ _ _ _ Hloop3 H3) as [H4 _].
  destruct r4 as [[]|e]; [|intros [= <- <-]; by left].
  destruct (fault env (trace w4) _); intros [= <- <-]; [by left|].
  right. split; [done|]. intros k (r0 & Hr0 & Hpod). cbn in Hr0.
  apply map_lookup_filter_Some in Hr0 as [_ Hne]. by cbn in Hne.
Qed.

(** X23. Of the containers of the pod RemovePod removes all or none from
    the store: after any run, either every record of the store belongs
    to the pod it belonged to and no record has come or gone, or the run
    got past the removal of the containers and the store holds no
    container of the pod. *)
Theorem RemovePod_containers_all_or_none (env : Env) (p : Pod)
    (removeCtrs force : bool) (w : World) :
  samePods (st_ctrs w)
           (st_ctrs (world (RemovePod env p removeCtrs force w).2))
  \/ forall k,
       ~ isMember (world (RemovePod env p removeCtrs force w).2) (pod_ID p) k.
Proof.
  destruct (RemovePod env p removeCtrs force w) as [r s'] eqn:Hrun. cbn.
  destruct (r_valid w) eqn:Hvalid.
  2:{ unfold RemovePod, bind, get, fail in Hrun. cbn in Hrun.
      rewrite Hvalid in Hrun. cbn in Hrun. simplify_eq. cbn.
      left. apply samePods_refl. }
  destruct (pod_valid p) eqn:Hpvalid.
  2:{ unfold RemovePod, bind, get, fail in Hrun. cbn in Hrun.
      rewrite Hvalid, Hpvalid in Hrun. cbn in Hrun. simplify_eq. cbn.
      left. apply samePods_refl. }
  rewrite RemovePod_phases in Hrun by done.
  unfold bind at 1 in Hrun.
  destruct (removeContainers env removeCtrs force (mkMachine w p []))
    as [r5 s5] eqn:Hctrs.
  assert (st_ctrs (world s') = st_ctrs (world s5)) as Heq.
  { destruct r5 as [[]|e]; [|by simplify_eq].
    by destruct (removePod_tail _ _ _ _ Hrun) as (_ & _ & -> & _). }
  destruct (removeContainers_all_or_none _ _ _ _ _ _ _ Hctrs)
    as [Hsame | [_ Hnone]].
  - left. by rewrite Heq.
  - right. intros k (r0 & Hr0 & Hpod). apply (Hnone k). exists r0.
    by rewrite <- Heq.
Qed.

(** *** A pod that was just created can be removed *)

Lemma filter_added (id : string) (p : Pod) (pods : list Pod) :
  pod_ID p = id ->
  List.filter (fun q => negb (hasID id q))
    (List.filter (fun q => negb (hasID id q)) pods ++ [p])
  = List.filter (fun q => negb (hasID id q)) pods.
Proof.
  intros Hid. rewrite List.filter_app. cbn. unfold hasID at 3.
  rewrite Hid, String.eqb_refl. cbn. rewrite app_nil_r.
  induction pods as [|q pods IH]; cbn; [done|].
  destruct (hasID id q) eqn:Hq; cbn; [done|]. by rewrite Hq, IH.
Qed.

(** X24. What NewPod persisted RemovePod takes back: when NewPod has
    added a pod to the store (options that succeed, a cgroup parent that
    fits, no collaborator failure) and no container claims the new ID,
    RemovePod on that pod succeeds with any flags, marks it invalid, and
    leaves in the store the pods that were there before NewPod but any
    of the same ID, and the containers as they were. *)
Theorem NewPod_then_RemovePod (env : Env) (options : list PodCreateOption)
    (removeCtrs force : bool) (w : World) (p1 : Pod) :
  noFaults env ->
  r_valid w = true ->
  runOptions options (freshPod env w) = Ok p1 ->
  (r_CgroupManager w = CgroupfsCgroupsManager
   /\ (CgroupParent (pod_config p1) = ""
       \/ GoPath.HasSuffix (GoPath.Base (CgroupParent (pod_config p1)))
            ".slice" = false))
  \/ (r_CgroupManager w = SystemdCgroupsManager
      /\ (CgroupParent (pod_config p1) = ""
          \/ (6 <= String.length (CgroupParent (pod_config p1))
              /\ GoPath.HasSuffix (GoPath.Base (CgroupParent (pod_config p1)))
                   ".slice" = true))) ->
  (forall k, ~ isMember w (pod_ID p1) k) ->
  exists created s',
    st_pods (NewPod env options w).2
    = (List.filter (fun q => negb (hasID (pod_ID p1) q)) (st_pods w)
       ++ [created])%list
    /\ RemovePod env created removeCtrs force (NewPod env options w).2
       = (Ok tt, s')
    /\ pod s' = setPodValid false created
    /\ st_pods (world s')
       = List.filter (fun q => negb (hasID (pod_ID p1) q)) (st_pods w)
    /\ st_ctrs (world s') = st_ctrs w.
Proof.
  intros Hnf Hvalid Hrun Hfits Hfresh.
  destruct (NewPod_adds_pod env options w p1 Hnf Hvalid Hrun Hfits)
    as (created & Hpods & _ & Hid & _ & _ & _ & Hpvalid).
  destruct (NewPod env options w) as [r1 w1] eqn:HNew.
  destruct (NewPod_store_invariant_run _ _ _ _ _ HNew)
    as (Hv1 & Hm1 & Hc1 & _).
  cbn [snd] in *.
  assert (members (pod_ID created) (st_ctrs w1) = []) as Hnone.
  { apply members_nil. intros k r Hr Hpod. apply (Hfresh k). exists r.
    by rewrite <- Hc1, <- Hid. }
  destruct (removeContainers_no_members env removeCtrs force w1 created Hnf Hnone)
    as (w5 & Hctrs & (_ & Hm5 & Hp5 & _) & _).
  destruct (removePod_tail_ok env (mkMachine w5 created []) Hnf) as (s' & Htail & _).
  { cbn. rewrite Hm5, Hm1. right.
    destruct Hfits as [[-> _]|[-> _]]; [by right | by left]. }
  destruct (removePod_tail _ _ _ _ Htail)
    as (_ & _ & Hctrs' & _ & Hpod' & Hpods').
  cbn in Hctrs', Hpod', Hpods'.
  exists created, s'. split; [done|].
  rewrite RemovePod_phases by congruence.
  rewrite (bind_Ok _ _ _ _ _ Hctrs).
  split; [done|]. split; [done|]. split.
  - rewrite Hpods', Hp5, Hpods, Hid. by apply filter_added.
  - rewrite Hctrs', <- Hc1. apply map_eq. intros k.
    apply (removeContainers_others _ _ _ _ _ _ _ Hctrs k).
    intros (r & Hr & Hpod). apply (Hfresh k). exists r.
    by rewrite <- Hc1, <- Hid.
Qed.

(** *** Every container of a removed pod was taken down *)

Lemma grows_refl (w : World) : grows w w.
Proof. by exists []. Qed.

Lemma grows_trans (w1 w2 w3 : World) :
  grows w1 w2 -> grows w2 w3 -> grows w1 w3.
Proof.
  intros [n1 H1] [n2 H2]. exists (n2 ++ n1)%list.
  by rewrite H2, H1, app_assoc.
Qed.

Lemma calledSince_before (w1 w2 w3 : World) (c : Call) :
  grows w1 w2 -> calledSince w2 w3 c -> calledSince w1 w3 c.
Proof.
  intros [n1 H1] (n2 & H2 & Hin). exists (n2 ++ n1)%list.
  rewrite H2, H1, app_assoc. split; [done|]. apply in_or_app. by left.
Qed.

Lemma calledSince_after (w1 w2 w3 : World) (c : Call) :
  calledSince w1 w2 c -> grows w2 w3 -> calledSince w1 w3 c.
Proof.
  intros (n1 & H1 & Hin) [n2 H2]. exists (n2 ++ n1)%list.
  rewrite H2, H1, app_assoc. split; [done|]. apply in_or_app. by right.
Qed.

Lemma onlyQueries_grows (w w' : World) : onlyQueries w w' -> grows w w'.
Proof. intros (new & -> & _). by exists new. Qed.

Lemma forCtrs_grows {A} (body : A -> M (Container * World) A) :
  (forall acc,
      emits (fun s : Container * World => trace s.2) (fun _ => true)
            (body acc)) ->
  forall cs acc w r cs' w',
    forCtrs body acc cs w = (r, cs', w') -> grows w w'.
Proof.
  intros Hbody cs acc w r cs' w' Hrun.
  destruct (emits_forCtrs _ _ Hbody _ _ _ _ _ _ Hrun) as (new & Ht & _).
  by exists new.
Qed.

Lemma stopCtr_grows env acc c w r c' w' :
  stopCtr env acc (c, w) = (r, (c', w')) -> grows w w'.
Proof.
  intros Hrun.
  assert (emits (fun s : Container * World => trace s.2) (fun _ => true)
            (stopCtr env acc)) as H by solve_emits.
  destruct (H _ _ _ Hrun) as (new & Ht & _). by exists new.
Qed.

Lemma removeCtr_grows env acc c w r c' w' :
  removeCtr env acc (c, w) = (r, (c', w')) -> grows w w'.
Proof.
  intros Hrun.
  assert (emits (fun s : Container * World => trace s.2) (fun _ => true)
            (removeCtr env acc)) as H by solve_emits.
  destruct (H _ _ _ Hrun) as (new & Ht & _). by exists new.
Qed.

Lemma removeCtr_calls env acc c w a c' w' :
  removeCtr env acc (c, w) = (Ok a, (c', w')) ->
  calledSince w w' (CallCleanup (ctr_ID c))
  /\ calledSince w w' (CallTeardownStorage (ctr_ID c))
  /\ (ctr_State c <> ContainerStateConfigured ->
      calledSince w w' (CallDelete (ctr_ID c))).
Proof.
  intros Hrun. run_ctr_body.
  - split; [|split; [|intros _]].
    + eexists [_; _; _]. split; [reflexivity|]. cbn. tauto.
    + eexists [_; _; _]. split; [reflexivity|]. cbn. tauto.
    + eexists [_; _; _]. split; [reflexivity|]. cbn. tauto.
  - split; [|split].
    + eexists [_; _]. split; [reflexivity|]. cbn. tauto.
    + eexists [_; _]. split; [reflexivity|]. cbn. tauto.
    + intros Hne.
      match goal with
      | H : negb (bool_decide _) = false |- _ =>
          apply negb_false_iff, bool_decide_eq_true in H
      end.
      done.
Qed.

Lemma remove_loop_calls env cs :
  forall acc w a cs' w',
    forCtrs (removeCtr env) acc cs w = (Ok a, cs', w') ->
    grows w w'
    /\ Forall (fun c =>
                 calledSince w w' (CallCleanup (ctr_ID c))
                 /\ calledSince w w' (CallTeardownStorage (ctr_ID c))
                 /\ (ctr_State c <> ContainerStateConfigured ->
                     calledSince w w' (CallDelete (ctr_ID c)))) cs.
Proof.
  induction cs as [|c cs IH]; intros acc w a cs' w' Hrun.
  - cbn in Hrun. simplify_eq. split; [apply grows_refl|constructor].
  - cbn [forCtrs] in Hrun.
    destruct (removeCtr env acc (c, w)) as [[acc'|e] [c1 w1]] eqn:Hstep;
      [|done].
    destruct (forCtrs (removeCtr env) acc' cs w1) as [[r2 cs2] w2] eqn:Hrest.
    simplify_eq.
    destruct (IH _ _ _ _ _ Hrest) as [Hg2 Hall].
    pose proof (removeCtr_grows _ _ _ _ _ _ _ Hstep) as Hg1.
    destruct (removeCtr_calls _ _ _ _ _ _ _ Hstep) as (Hc & Ht & Hd).
    split; [by eapply grows_trans|]. constructor.
    + split; [by eapply calledSince_after|].
      split; [by eapply calledSince_after|].
      intros Hne. eapply calledSince_after; [by apply Hd|done].
    + eapply Forall_impl; [exact Hall|]. cbn. intros c2 (Hc2 & Ht2 & Hd2).
      split; [by eapply calledSince_before|].
      split; [by eapply calledSince_before|].
      intros Hne. eapply calledSince_before; [done|by apply Hd2].
Qed.

Ltac called :=
  first [ eexists [_]; split; [reflexivity | cbn; tauto]
        | eexists [_; _]; split; [reflexivity | cbn; tauto]
        | eexists [_; _; _]; split; [reflexivity | cbn; tauto] ].

Lemma stopCtr_calls env acc c w a c' w' :
  freshView w c ->
  stopCtr env acc (c, w) = (Ok a, (c', w')) ->
  ctr_ID c' = ctr_ID c
  /\ (ctr_State c <> ContainerStateConfigured ->
      ctr_State c' <> ContainerStateConfigured)
  /\ (ctr_State c = ContainerStateRunning ->
      calledSince w w'
        (CallStopContainer (ctr_ID c) (ctr_StopTimeout c)))
  /\ (ctr_ExecSessions c <> [] ->
      calledSince w w'
        (CallExecStopContainer (ctr_ID c) (ctr_StopTimeout c))).
Proof.
  intros (rc & Hrc & Hc) Hrun.
  assert (ctr_ExecSessions c = rec_ExecSessions rc) as Hexec
    by (by rewrite Hc).
  run_ctr_body.
  all: repeat match goal with
         | H : alter _ ?k _ !! ?k = _ |- _ => rewrite lookup_alter_eq in H; cbn in H
         | H : _ <$> _ !! _ = _ |- _ => rewrite Hrc in H; cbn in H
         | H : bool_decide _ = true |- _ => apply bool_decide_eq_true in H
         | H : bool_decide _ = false |- _ => apply bool_decide_eq_false in H
         | H : negb _ = true |- _ => apply negb_true_iff in H
         | H : negb _ = false |- _ => apply negb_false_iff in H
         | H : (_ =? _)%nat = true |- _ => apply Nat.eqb_eq in H
         | H : (_ =? _)%nat = false |- _ => apply Nat.eqb_neq in H
         end.
  all: simplify_eq; cbn in *.
  all: (split; [done|]); (split; [done|]).
  all: split; intros Hyes; try done; try called.
  all: exfalso; apply Hyes; apply length_zero_iff_nil; congruence.
Qed.

Lemma freshView_others (w w' : World) (c : Container) :
  st_ctrs w' !! ctr_ID c = st_ctrs w !! ctr_ID c ->
  freshView w c -> freshView w' c.
Proof. intros Hk (r & Hr & Hc). exists r. by rewrite Hk. Qed.

Lemma stop_loop_calls env cs :
  forall acc w a cs' w',
    NoDup (map ctr_ID cs) ->
    Forall (freshView w) cs ->
    forCtrs (stopCtr env) acc cs w = (Ok a, cs', w') ->
    grows w w'
    /\ Forall2
         (fun c c' =>
            ctr_ID c' = ctr_ID c
            /\ (ctr_State c <> ContainerStateConfigured ->
                ctr_State c' <> ContainerStateConfigured)
            /\ (ctr_State c = ContainerStateRunning ->
                calledSince w w'
                  (CallStopContainer (ctr_ID c) (ctr_StopTimeout c)))
            /\ (ctr_ExecSessions c <> [] ->
                calledSince w w'
                  (CallExecStopContainer (ctr_ID c) (ctr_StopTimeout c))))
         cs cs'.
Proof.
  induction cs as [|c cs IH]; intros acc w a cs' w' Hnodup Hfresh Hrun.
  - cbn in Hrun. simplify_eq. split; [apply grows_refl|constructor].
  - cbn [forCtrs] in Hrun.
    destruct (stopCtr env acc (c, w)) as [[acc'|e] [c1 w1]] eqn:Hstep;
      [|done].
    destruct (forCtrs (stopCtr env) acc' cs w1) as [[r2 cs2] w2] eqn:Hrest.
    simplify_eq.
    cbn in Hnodup. apply NoDup_cons in Hnodup as [Hnotin Hnodup].
    apply Forall_cons in Hfresh as [Hc Hfresh].
    destruct (stopCtr_others _ _ _ _ _ _ _ Hstep) as [_ Hkeep].
    assert (Forall (freshView w1) cs) as Hfresh1.
    { apply Forall_forall. intros c2 Hc2.
      apply freshView_others with w.
      - apply Hkeep. intros Heq. apply Hnotin. rewrite <- Heq.
        by apply list_elem_of_fmap_2.
      - by apply (proj1 (Forall_forall _ _) Hfresh). }
    destruct (IH _ _ _ _ _ Hnodup Hfresh1 Hrest) as [Hg2 Hall].
    pose proof (stopCtr_grows _ _ _ _ _ _ _ Hstep) as Hg1.
    destruct (stopCtr_calls _ _ _ _ _ _ _ Hc Hstep) as (Hid & Hst & Hs & He).
    split; [by eapply grows_trans|]. constructor.
    + split; [done|]. split; [done|].
      split; intros Hyes; (eapply calledSince_after; [|done]); auto.
    + eapply Forall2_impl; [exact Hall|]. cbn.
      intros c2 c2' (Hid2 & Hst2 & Hs2 & He2).
      split; [done|]. split; [done|].
      split; intros Hyes; (eapply calledSince_before; [done|]); auto.
Qed.

Lemma members_NoDup (pid : string) (cs : gmap string CtrRecord) :
  NoDup (map ctr_ID (members pid cs)).
Proof.
  unfold members. rewrite map_map. cbn.
  pose proof (NoDup_fst_map_to_list cs) as Hnd.
  induction (map_to_list cs) as [|[k r] l IH]; cbn; [constructor|].
  cbn in Hnd. apply NoDup_cons in Hnd as [Hk Hnd].
  destruct (memberOf pid r); cbn; [|by apply IH].
  apply NoDup_cons. split; [|by apply IH].
  intros Hin. apply Hk.
  apply list_elem_of_fmap in Hin as ([k2 r2] & -> & Hin).
  apply list_elem_of_In, List.filter_In in Hin as [Hin _].
  apply list_elem_of_fmap. exists (k2, r2). split; [done|].
  by apply list_elem_of_In.
Qed.

Lemma Forall2_In_l {A B} (R : A -> B -> Prop) (l : list A) (k : list B)
    (x : A) :
  Forall2 R l k -> In x l -> exists y, In y k /\ R x y.
Proof.
  induction 1 as [|a b l k Hab _ IH]; intros Hin; [done|].
  destruct Hin as [->|Hin].
  - exists b. split; [by left|done].
  - destruct (IH Hin) as (y & Hy & Hxy). exists y. split; [by right|done].
Qed.

Lemma removeContainers_takes_down env removeCtrs force w p s5 k r :
  st_ctrs w !! k = Some r ->
  rec_Pod r = Some (pod_ID p) ->
  removeContainers env removeCtrs force (mkMachine w p []) = (Ok tt, s5) ->
  calledSince w (world s5) (CallCleanup k)
  /\ calledSince w (world s5) (CallTeardownStorage k)
  /\ (rec_State r <> ContainerStateConfigured ->
      calledSince w (world s5) (CallDelete k))
  /\ (rec_State r = ContainerStateRunning ->
      calledSince w (world s5) (CallStopContainer k (rec_StopTimeout r)))
  /\ (rec_ExecSessions r <> [] ->
      calledSince w (world s5)
        (CallExecStopContainer k (rec_StopTimeout r))).
Proof.
  intros Hr Hpod.
  assert (In (viewOf k r) (members (pod_ID p) (st_ctrs w))) as Hin.
  { apply members_In. by exists r. }
  rewrite removeContainers_unfold. cbn zeta.
  set (w1 := withTrace (CallPodContainers (pod_ID p) :: trace w) w).
  assert (grows w w1) as Hg1 by (by eexists [_]).
  assert (onlyQueries w w1) as Hq1
    by (apply onlyQueries_call; [done|apply onlyQueries_refl]).
  assert (Forall (freshView w1) (members (pod_ID p) (st_ctrs w))) as Hfresh1.
  { eapply Forall_impl; [apply members_fresh|]. intros x.
    by apply freshView_onlyQueries. }
  destruct (fault env (trace w) (CallPodContainers (pod_ID p))); [done|].
  destruct (negb removeCtrs && _); [done|].
  destruct (forCtrs (lockAndCheck env force) ∅ _ w1)
    as [[r1 cs1] w2] eqn:Hloop1.
  destruct (lockAndCheck_loop _ _ _ _ _ _ _ _ Hfresh1 Hloop1)
    as (Hq2 & -> & Hok).
  destruct r1 as [deps|e]; [|done].
  destruct (Hok _ eq_refl) as [Hchecks _].
  destruct (depsInPod deps); [|done].
  assert (Forall (freshView w2) (members (pod_ID p) (st_ctrs w))) as Hfresh2.
  { eapply Forall_impl; [exact Hfresh1|]. intros x.
    by apply freshView_onlyQueries. }
  pose proof (onlyQueries_grows _ _ Hq2) as Hg2.
  destruct (if force
            then forCtrs (stopCtr env) tt (members (pod_ID p) (st_ctrs w)) w2
            else (Ok tt, members (pod_ID p) (st_ctrs w), w2))
    as [[r3 cs3] w3] eqn:Hloop2.
  destruct r3 as [[]|e]; [|done].
  assert (grows w2 w3
          /\ exists c3,
               In c3 cs3 /\ ctr_ID c3 = k
               /\ (rec_State r <> ContainerStateConfigured ->
                   ctr_State c3 <> ContainerStateConfigured)
               /\ (rec_State r = ContainerStateRunning ->
                   calledSince w2 w3 (CallStopContainer k (rec_StopTimeout r)))
               /\ (rec_ExecSessions r <> [] ->
                   calledSince w2 w3
                     (CallExecStopContainer k (rec_StopTimeout r))))
    as (Hg3 & c3 & Hin3 & Hid3 & Hst3 & Hstop & Hexec).
  { destruct force.
    - destruct (stop_loop_calls _ _ _ _ _ _ _ (members_NoDup _ _) Hfresh2
                  Hloop2) as [Hg3 Hall].
      split; [done|].
      destruct (Forall2_In_l _ _ _ _ Hall Hin) as (c3 & Hin3 & Hc3).
      cbn in Hc3. by exists c3.
    - simplify_eq. split; [apply grows_refl|].
      exists (viewOf k r). split; [done|]. split; [done|]. split; [done|].
      apply (proj1 (forallb_forall _ _) Hchecks) in Hin.
      unfold ctrOK in Hin. cbn in Hin. rewrite !andb_true_r in Hin.
      apply andb_prop in Hin as [Hin Hnoexec].
      apply andb_prop in Hin as [_ Hnotrun].
      apply negb_true_iff, bool_decide_eq_false in Hnotrun.
      apply negb_true_iff, negb_false_iff, Nat.eqb_eq, length_zero_iff_nil
        in Hnoexec.
      by split. }
  destruct (forCtrs (removeCtr env) tt cs3 w3) as [[r4 cs4] w4] eqn:Hloop3.
  destruct r4 as [[]|e]; [|done].
  destruct (remove_loop_calls _ _ _ _ _ _ _ Hloop3) as [Hg4 Hall4].
  apply list_elem_of_In in Hin3.
  apply (proj1 (Forall_forall _ _) Hall4) in Hin3 as (Hcl & Htd & Hdel).
  rewrite Hid3 in Hcl, Htd, Hdel.
  destruct (fault env (trace w4) _); [done|].
  intros [= <-]. cbn [world].
  match goal with
  | |- context [calledSince w ?w5 _] =>
      assert (grows w4 w5) as Hg5 by (by eexists [_])
  end.
  assert (grows w w2) as Hg02 by (by apply (grows_trans w w1 w2)).
  assert (grows w w3) as Hg03 by (by apply (grows_trans w w2 w3)).
  assert (grows w3 (withCtrs
            (filter (fun kr : string * CtrRecord =>
                       rec_Pod kr.2 <> Some (pod_ID p)) (st_ctrs w4))
            (withTrace (CallRemovePodContainers (pod_ID p) :: trace w4) w4)))
    as Hg35 by (by apply (grows_trans w3 w4)).
  split. { apply (calledSince_before w w3); [done|].
           by apply (calledSince_after w3 w4). }
  split. { apply (calledSince_before w w3); [done|].
           by apply (calledSince_after w3 w4). }
  split. { intros Hne. apply (calledSince_before w w3); [done|].
           apply (calledSince_after w3 w4); [|done]. by apply Hdel, Hst3. }
  split.
  - intros Hyes. apply (calledSince_before w w2); [done|].
    apply (calledSince_after w2 w3); [|done]. by apply Hstop.
  - intros Hyes. apply (calledSince_before w w2); [done|].
    apply (calledSince_after w2 w3); [|done]. by apply Hexec.
Qed.

Lemma removePod_tail_grows (env : Env) (s5 : Machine) (r : Result unit)
    (s' : Machine) :
  bind (removePodCgroup env) (fun _ => removePodFromState env) s5 = (r, s') ->
  grows (world s5) (world s').
Proof.
  intros Hrun.
  assert (emits (fun s => trace (world s)) (fun _ => true)
            (bind (removePodCgroup env) (fun _ => removePodFromState env)))
    as H.
  { apply emits_bind; [by apply emits_removePodCgroup|]. intros _.
    by apply emits_removePodFromState. }
  destruct (H _ _ _ Hrun) as (new & Ht & _). by exists new.
Qed.

(** X25. A pod is removed only after each of its containers was taken
    down: when RemovePod returns without an error, then for every
    container that was in the pod it has called cleanup and
    teardownStorage, has called delete unless the container was never
    started (state Configured), has stopped it with its own stop timeout
    if it was running, and has stopped its exec sessions if it had
    any. *)
Theorem RemovePod_takes_down_every_member (env : Env) (p : Pod)
    (removeCtrs force : bool) (w : World) (s' : Machine) (k : string)
    (r : CtrRecord) :
  RemovePod env p removeCtrs force w = (Ok tt, s') ->
  st_ctrs w !! k = Some r ->
  rec_Pod r = Some (pod_ID p) ->
  calledSince w (world s') (CallCleanup k)
  /\ calledSince w (world s') (CallTeardownStorage k)
  /\ (rec_State r <> ContainerStateConfigured ->
      calledSince w (world s') (CallDelete k))
  /\ (rec_State r = ContainerStateRunning ->
      calledSince w (world s') (CallStopContainer k (rec_StopTimeout r)))
  /\ (rec_ExecSessions r <> [] ->
      calledSince w (world s')
        (CallExecStopContainer k (rec_StopTimeout r))).
Proof.
  intros Hrun Hr Hpod.
  destruct (r_valid w) eqn:Hvalid.
  2:{ unfold RemovePod, bind, get, fail in Hrun. cbn in Hrun.
      by rewrite Hvalid in Hrun. }
  destruct (pod_valid p) eqn:Hpvalid.
  2:{ unfold RemovePod, bind, get, fail in Hrun. cbn in Hrun.
      by rewrite Hvalid, Hpvalid in Hrun. }
  rewrite RemovePod_phases in Hrun by done.
  apply bind_Ok_inv in Hrun as ([] & s5 & Hctrs & Htail).
  pose proof (removePod_tail_grows _ _ _ _ Htail) as Hg.
  destruct (removeContainers_takes_down _ _ _ _ _ _ _ _ Hr Hpod Hctrs)
    as (Hcl & Htd & Hdel & Hstop & Hexec).
  split; [by apply (calledSince_after w (world s5))|].
  split; [by apply (calledSince_after w (world s5))|].
  split; [intros Hyes; apply (calledSince_after w (world s5)); auto|].
  split; intros Hyes; apply (calledSince_after w (world s5)); auto.
Qed.

(** *** The errors of [RemovePod] *)

Lemma removeContainers_errors env removeCtrs force w p e s5 :
  noFaults env ->
  removeContainers env removeCtrs force (mkMachine w p []) = (Err e, s5) ->
  Cause e = ErrCtrExists \/ Cause e = ErrCtrStateInvalid.
Proof.
  intros Hnf. rewrite removeContainers_unfold. cbn zeta.
  set (w1 := withTrace (CallPodContainers (pod_ID p) :: trace w) w).
  assert (onlyQueries w w1) as Hq1
    by (apply onlyQueries_call; [done|apply onlyQueries_refl]).
  assert (Forall (freshView w1) (members (pod_ID p) (st_ctrs w))) as Hfresh1.
  { eapply Forall_impl; [apply members_fresh|]. intros x.
    by apply freshView_onlyQueries. }
  rewrite Hnf.
  destruct (negb removeCtrs && _); [intros [= <- <-]; by left|].
  destruct (lockAndCheck_loop_total env force _ Hnf ∅ w1 Hfresh1)
    as (r1 & w2 & -> & Hgood & Hbad).
  destruct (forallb (ctrOK force) (members (pod_ID p) (st_ctrs w))).
  2:{ destruct (Hbad eq_refl) as (e1 & -> & He1). intros [= <- <-].
      by right. }
  destruct (Hgood eq_refl) as [deps ->].
  destruct (depsInPod deps); [|intros [= <- <-]; by left].
  destruct force.
  - destruct (forCtrs_total (stopCtr env)
                (fun acc c w => stopCtr_total env acc c w Hnf)
                (members (pod_ID p) (st_ctrs w)) tt w2)
      as ([] & cs3 & w3 & ->).
    destruct (forCtrs_total (removeCtr env)
                (fun acc c w => removeCtr_total env acc c w Hnf) cs3 tt w3)
      as ([] & cs4 & w4 & ->).
    by rewrite Hnf.
  - destruct (forCtrs_total (removeCtr env)
                (fun acc c w => removeCtr_total env acc c w Hnf)
                (members (pod_ID p) (st_ctrs w)) tt w2)
      as ([] & cs4 & w4 & ->).
    by rewrite Hnf.
Qed.

Lemma removePod_tail_errors (env : Env) (s5 : Machine) (e : error)
    (s' : Machine) :
  noFaults env ->
  bind (removePodCgroup env) (fun _ => removePodFromState env) s5
  = (Err e, s') ->
  Cause e = ErrInvalidArg
  /\ CgroupPath (pod_state (pod s5)) <> ""
  /\ r_CgroupManager (world s5) <> SystemdCgroupsManager
  /\ r_CgroupManager (world s5) <> CgroupfsCgroupsManager.
Proof.
  intros Hnf.
  unfold removePodCgroup, removePodFromState, state_RemovePod, cgroups_Load,
    cgroup_Delete, liftW, call, bind, get, modify, ret, fail.
  cbn. intros Hrun.
  repeat (case_match; cbn in *; simplify_eq).
  all: try match goal with
         | H : fault _ _ _ = Some _ |- _ => by rewrite Hnf in H
         end.
  all: try match goal with
         | H : bool_decide (?x <> ?x) = true |- _ =>
             by apply bool_decide_eq_true in H
         end.
  split; [done|].
  repeat match goal with
         | H : negb _ = true |- _ => apply negb_true_iff in H
         | H : String.eqb _ _ = false |- _ => apply String.eqb_neq in H
         end.
  done.
Qed.

(** X26. When no collaborator fails, RemovePod fails in five ways only:
    with ErrRuntimeStopped, on a runtime that is not valid; with
    ErrPodRemoved, on a valid runtime and a pod that is not valid; and,
    when both are valid, with an error whose cause is ErrCtrExists, or
    ErrCtrStateInvalid, or ErrInvalidArg, the last one only for a pod
    with a cgroup path under a cgroup manager that is neither systemd
    nor cgroupfs. *)
Theorem RemovePod_errors (env : Env) (p : Pod) (removeCtrs force : bool)
    (w : World) (e : error) :
  noFaults env ->
  (RemovePod env p removeCtrs force w).1 = Err e ->
  (e = ErrRuntimeStopped /\ r_valid w = false)
  \/ (e = ErrPodRemoved /\ r_valid w = true /\ pod_valid p = false)
  \/ (r_valid w = true /\ pod_valid p = true
      /\ (Cause e = ErrCtrExists
          \/ Cause e = ErrCtrStateInvalid
          \/ (Cause e = ErrInvalidArg
              /\ CgroupPath (pod_state p) <> ""
              /\ r_CgroupManager w <> SystemdCgroupsManager
              /\ r_CgroupManager w <> CgroupfsCgroupsManager))).
Proof.
  intros Hnf.
  destruct (RemovePod env p removeCtrs force w) as [r s'] eqn:Hrun. cbn.
  intros ->.
  destruct (r_valid w) eqn:Hvalid.
  2:{ unfold RemovePod, bind, get, fail in Hrun. cbn in Hrun.
      rewrite Hvalid in Hrun. cbn in Hrun. simplify_eq. by left. }
  destruct (pod_valid p) eqn:Hpvalid.
  2:{ unfold RemovePod, bind, get, fail in Hrun. cbn in Hrun.
      rewrite Hvalid, Hpvalid in Hrun. cbn in Hrun. simplify_eq.
      right. by left. }
  right. right. split; [done|]. split; [done|].
  rewrite RemovePod_phases in Hrun by done.
  unfold bind at 1 in Hrun.
  destruct (removeContainers env removeCtrs force (mkMachine w p []))
    as [[[]|e5] s5] eqn:Hctrs.
  - destruct (removeContainers_keepsRuntime env removeCtrs force _ _ _ Hctrs)
      as (Hp5 & _ & Hm5 & _).
    cbn in Hp5, Hm5.
    destruct (removePod_tail_errors _ _ _ _ Hnf Hrun) as (He & Hpath & Hmgr).
    right. right. split; [done|]. by rewrite <- Hp5, <- Hm5.
  - simplify_eq.
    destruct (removeContainers_errors _ _ _ _ _ _ _ Hnf Hctrs) as [?|?];
      [by left | right; by left].
Qed.

(** *** More runs on the concrete worlds *)

Lemma NewPod_pod_cgroup_path_witness :
  exists pod,
    st_pods (NewPod Examples.env0 [Examples.withPodCgroup]
               (Examples.emptyWorld SystemdCgroupsManager)).2 = [pod]
    /\ CgroupPath (pod_state pod) = "machine.slice/5f3c".
Proof.
  destruct (NewPod_pod_cgroup_path Examples.env0 [Examples.withPodCgroup]
              (Examples.emptyWorld SystemdCgroupsManager)
              (setUsePodCgroup true
                 (freshPod Examples.env0
                    (Examples.emptyWorld SystemdCgroupsManager)))
              env0_noFaults eq_refl eq_refl
              (or_intror (conj eq_refl (or_introl eq_refl))))
    as (pod & Hpods & Hpath).
  exists pod. split; [exact Hpods | exact Hpath].
Defined.

Lemma emptyWorld_no_member (manager pid k : string) :
  ~ isMember (Examples.emptyWorld manager) pid k.
Proof. intros (r & Hr & _). cbn in Hr. by rewrite lookup_empty in Hr. Qed.

Lemma NewPod_then_RemovePod_witness :
  exists created s',
    st_pods (NewPod Examples.env0 []
               (Examples.emptyWorld CgroupfsCgroupsManager)).2 = [created]
    /\ RemovePod Examples.env0 created false false
         (NewPod Examples.env0 []
            (Examples.emptyWorld CgroupfsCgroupsManager)).2
       = (Ok tt, s')
    /\ st_pods (world s') = [].
Proof.
  destruct (NewPod_then_RemovePod Examples.env0 [] false false
              (Examples.emptyWorld CgroupfsCgroupsManager)
              (freshPod Examples.env0
                 (Examples.emptyWorld CgroupfsCgroupsManager))
              env0_noFaults eq_refl eq_refl
              (or_introl (conj eq_refl (or_introl eq_refl)))
              (emptyWorld_no_member CgroupfsCgroupsManager _))
    as (created & s' & Hpods & Hrun & _ & Hleft & _).
  exists created, s'. split; [exact Hpods|]. split; [exact Hrun|exact Hleft].
Defined.

Lemma twoPods_D :
  st_ctrs MoreExamples.twoPods !! "D"
  = Some (mkCtrRecord ContainerStateRunning ["s1"] 10 (Some "p2") ["E"]).
Proof. by vm_compute. Qed.

Lemma RemovePod_takes_down_every_member_witness :
  calledSince MoreExamples.twoPods
    (world (RemovePod Examples.env0 Examples.db true true
              MoreExamples.twoPods).2)
    (CallStopContainer "D" 10)
  /\ calledSince MoreExamples.twoPods
       (world (RemovePod Examples.env0 Examples.db true true
                 MoreExamples.twoPods).2)
       (CallExecStopContainer "D" 10)
  /\ calledSince MoreExamples.twoPods
       (world (RemovePod Examples.env0 Examples.db true true
                 MoreExamples.twoPods).2)
       (CallDelete "D").
Proof.
  assert (RemovePod Examples.env0 Examples.db true true MoreExamples.twoPods
          = (Ok tt,
             (RemovePod Examples.env0 Examples.db true true
                MoreExamples.twoPods).2)) as Hrun by (by vm_compute).
  destruct (RemovePod_takes_down_every_member Examples.env0 Examples.db
              true true MoreExamples.twoPods _ "D" _ Hrun twoPods_D eq_refl)
    as (_ & _ & Hdel & Hstop & Hexec).
  split; [by apply Hstop|]. split; [by apply Hexec|]. by apply Hdel.
Defined.

Lemma RemovePod_errors_witness :
  (Wrapf ErrCtrStateInvalid "pod %s contains container %s which is running"
   = ErrRuntimeStopped
   /\ r_valid MoreExamples.twoPods = false)
  \/ (Wrapf ErrCtrStateInvalid
         "pod %s contains container %s which is running"
       = ErrPodRemoved
       /\ r_valid MoreExamples.twoPods = true
       /\ pod_valid Examples.web = false)
  \/ (r_valid MoreExamples.twoPods = true /\ pod_valid Examples.web = true
       /\ (Cause (Wrapf ErrCtrStateInvalid
                    "pod %s contains container %s which is running")
            = ErrCtrExists
           \/ Cause (Wrapf ErrCtrStateInvalid
                       "pod %s contains container %s which is running")
              = ErrCtrStateInvalid
           \/ (Cause (Wrapf ErrCtrStateInvalid
                        "pod %s contains container %s which is running")
               = ErrInvalidArg
               /\ CgroupPath (pod_state Examples.web) <> ""
               /\ r_CgroupManager MoreExamples.twoPods
                  <> SystemdCgroupsManager
               /\ r_CgroupManager MoreExamples.twoPods
                  <> CgroupfsCgroupsManager))).
Proof.
  apply (RemovePod_errors Examples.env0 Examples.web true false
           MoreExamples.twoPods _ env0_noFaults).
  by vm_compute.
Defined.
